(** * real-url-proxy-server: the resolution cache, refresh engine and dispatcher

    A shallow embedding of [webserver.py]: the extractor class hierarchy
    ([RealUrlExtractor] and its DouYu, Bilibili and HuYa subclasses), the
    refresh timers, and the request handlers [serviceWithRate] / [service].

    Python objects are mutated in place and exceptions leave the mutations
    done so far, so every method is a function from a state to a result
    (a value or a raised exception) together with the state it leaves. *)

From Stdlib Require Import ZArith QArith String Ascii Lia DecimalString.
From stdpp Require Import base option list strings gmap.

Local Open Scope string_scope.
Local Open Scope Z_scope.

(** ** Python values, exceptions, results *)

(** The values a resolution ([real_url]) takes: [None], a string (the
    sentinel ['None'] of the DouYu and Bilibili extractors, the manifest URL
    of the HuYa one) or a dict from labels to URLs. *)
Inductive pyval :=
| VNone
| VStr (s : string)
| VDict (d : gmap string string).

Inductive exn :=
| NameError (name : string)
| KeyError (key : string)
| IndexError
| TypeError
| AttributeError (attr : string)
| External (msg : string).   (* raised by a provider client or by requests.get *)

Inductive result (A : Type) :=
| Ok (a : A)
| Raise (e : exn).
Arguments Ok {A} a.
Arguments Raise {A} e.

(** [str(e)] *)
Definition exn_str (e : exn) : string :=
  match e with
  | NameError n => "name '" +:+ n +:+ "' is not defined"
  | KeyError k => "'" +:+ k +:+ "'"
  | IndexError => "list index out of range"
  | TypeError => "unsupported operand"
  | AttributeError a => "object has no attribute '" +:+ a +:+ "'"
  | External msg => msg
  end.

(** ** The state-and-exception monad *)

Definition M (S A : Type) : Type := S -> result A * S.

Definition ret {S A} (a : A) : M S A := fun s => (Ok a, s).
Definition raise {S A} (e : exn) : M S A := fun s => (Raise e, s).
Definition bind {S A B} (m : M S A) (k : A -> M S B) : M S B :=
  fun s => match m s with
           | (Ok a, s') => k a s'
           | (Raise e, s') => (Raise e, s')
           end.
(** [try: m  except: h]; the handler sees the exception and the state as the
    failed body left it. *)
Definition try_except {S A} (m : M S A) (h : exn -> M S A) : M S A :=
  fun s => match m s with
           | (Ok a, s') => (Ok a, s')
           | (Raise e, s') => h e s'
           end.
(** Runs [m] and hands its outcome to the continuation as a value. *)
Definition attempt {S A} (m : M S A) : M S (result A) :=
  fun s => let '(r, s') := m s in (Ok r, s').
Definition get {S} : M S S := fun s => (Ok s, s).
Definition modify {S} (f : S -> S) : M S unit := fun s => (Ok tt, f s).
Definition lift {A S} (r : result A) : M S A := fun s => (r, s).

Declare Scope py_scope.
Delimit Scope py_scope with py.
Notation "x <- m ;; k" := (bind m (fun x => k))
  (at level 20, m at level 99, k at level 200, only parsing) : py_scope.
Notation "m ;; k" := (bind m (fun _ => k))
  (at level 100, k at level 200, right associativity, only parsing) : py_scope.
Local Open Scope py_scope.

(** ** Python primitives used by the source *)

Definition py_is_none (v : pyval) : bool :=
  match v with VNone => true | _ => false end.

(** [v != s] for a string literal [s] *)
Definition py_ne_str (v : pyval) (s : string) : bool :=
  match v with VStr s' => negb (String.eqb s' s) | _ => true end.

(** [bit_rate == s] for an optional selector *)
Definition sel_eq (bit_rate : option string) (s : string) : bool :=
  match bit_rate with Some b => String.eqb b s | None => false end.

(** [l[i]] on a list: a negative index counts from the end, an index
    outside [-len, len) raises IndexError. *)
Definition py_index {A} (l : list A) (i : Z) : result A :=
  let n := Z.of_nat (length l) in
  let j := if i <? 0 then i + n else i in
  if (0 <=? j) && (j <? n)
  then match l !! Z.to_nat j with Some x => Ok x | None => Raise IndexError end
  else Raise IndexError.

Fixpoint is_prefix (p s : string) : bool :=
  match p, s with
  | EmptyString, _ => true
  | String a p', String b s' => Ascii.eqb a b && is_prefix p' s'
  | String _ _, EmptyString => false
  end.

(** [p in s] on strings: substring test *)
Fixpoint is_substring (p s : string) : bool :=
  is_prefix p s ||
  match s with
  | EmptyString => false
  | String _ s' => is_substring p s'
  end.

(** [k in v] *)
Definition py_contains (k : string) (v : pyval) : result bool :=
  match v with
  | VDict d => Ok (bool_decide (is_Some (d !! k)))
  | VStr s => Ok (is_substring k s)
  | VNone => Raise TypeError
  end.

(** [v[k]] for a string key *)
Definition py_getitem (v : pyval) (k : string) : result string :=
  match v with
  | VDict d => match d !! k with Some u => Ok u | None => Raise (KeyError k) end
  | VStr _ => Raise TypeError
  | VNone => Raise TypeError
  end.

(** [k in v.keys()] *)
Definition py_in_keys (k : string) (v : pyval) : result bool :=
  match v with
  | VDict d => Ok (bool_decide (is_Some (d !! k)))
  | VStr _ => Raise (AttributeError "keys")
  | VNone => Raise (AttributeError "keys")
  end.

(** [str(n)] for a length *)
Definition str_of_nat (n : nat) : string :=
  NilEmpty.string_of_uint (Nat.to_uint n).

(** ** External collaborators

    The provider clients ([douyu.py], [bilibili.py], [huya.py]), the HTTP
    fetch of [requests] and the wall clock are outside [webserver.py].  They
    are taken as a parameter: each is a function of the number of external
    interactions made so far ([tick]), so that successive calls may answer
    differently.  Times are microseconds since [datetime.min]. *)

Record cdn_info := {
  info_hls_url : string;      (* ['hls_url'] *)
  info_base_url : string;     (* ['base_url'] *)
  info_stream_name : string   (* ['stream_name'] *)
}.

Record Env := {
  DouYu_get_real_url : string -> nat -> result pyval;
  BiliBili_get_real_url : string -> nat -> result pyval;
  (* the new value of [live_url_infos.values()], or an exception *)
  huya_update_live_url_info : string -> nat -> result (list cdn_info);
  huya_get_real_url : string -> option string -> nat -> result (list string);
  (* status code and text of the response, or an exception *)
  requests_get : string -> nat -> result (Z * string);
  (* [re.sub(r'(^.*?\.ts)', base + r'/\1', content, flags=re.M)] for a [base]
     that contains a backslash: [re] parses the replacement as a template,
     and gives the text with the escapes of [base] expanded, or re.error *)
  re_sub_escaped : string -> string -> result string;
  datetime_now : nat -> Z
}.

Definition datetime_min : Z := 0.

(** [td.total_seconds() > s] for a difference [td] in microseconds *)
Definition total_seconds_gt (td : Z) (s : Z) : bool := s * 1000000 <? td.

(** ** Timers, log, and the extractor objects *)

Inductive provider := DouYu | Bilibili | HuYa.

Global Instance provider_eq_dec : EqDecision provider.
Proof. solve_decision. Defined.

(** A [threading.Timer]: its delay in seconds, the extractor whose
    [refresh_real_url] it calls, and whether it was started, cancelled, and
    has fired. *)
Record Timer := {
  t_interval : Q;
  t_owner : provider * string;
  t_started : bool;
  t_cancelled : bool;
  t_fired : bool
}.

Definition pending (t : Timer) : bool :=
  t_started t && negb (t_cancelled t) && negb (t_fired t).

Inductive log_arg := LStr (s : string) | LVal (v : pyval) | LNone.
Inductive log_level := INFO | ERROR.
Record log_record := { lvl : log_level; fmt : string; args : list log_arg }.

(** What the extractors share with the rest of the process: the count of
    external interactions, every timer created so far (a timer handle is its
    position), and the log. *)
Record Sys := {
  tick : nat;
  timers : list Timer;
  log : list log_record
}.

Record Extractor := {
  cls : provider;
  room : string;
  real_url : pyval;
  last_valid_real_url : pyval;
  auto_refresh_interval : Z;
  last_refresh_time : Z;
  refresh_timer : option nat;     (* the attribute exists only when the interval is positive *)
  (* HuYaRealUrlExtractor *)
  live_url_infos : list cdn_info; (* list(self.huya.live_url_infos.values()) *)
  cdn_index : Z;
  last_real_urls : option (list string);
  last_get_real_url_time : Z
}.

Definition set_real_url (v : pyval) (e : Extractor) : Extractor :=
  {| cls := cls e; room := room e; real_url := v;
     last_valid_real_url := last_valid_real_url e;
     auto_refresh_interval := auto_refresh_interval e;
     last_refresh_time := last_refresh_time e; refresh_timer := refresh_timer e;
     live_url_infos := live_url_infos e; cdn_index := cdn_index e;
     last_real_urls := last_real_urls e;
     last_get_real_url_time := last_get_real_url_time e |}.

Definition set_last_valid_real_url (v : pyval) (e : Extractor) : Extractor :=
  {| cls := cls e; room := room e; real_url := real_url e;
     last_valid_real_url := v;
     auto_refresh_interval := auto_refresh_interval e;
     last_refresh_time := last_refresh_time e; refresh_timer := refresh_timer e;
     live_url_infos := live_url_infos e; cdn_index := cdn_index e;
     last_real_urls := last_real_urls e;
     last_get_real_url_time := last_get_real_url_time e |}.

Definition set_last_refresh_time (t : Z) (e : Extractor) : Extractor :=
  {| cls := cls e; room := room e; real_url := real_url e;
     last_valid_real_url := last_valid_real_url e;
     auto_refresh_interval := auto_refresh_interval e;
     last_refresh_time := t; refresh_timer := refresh_timer e;
     live_url_infos := live_url_infos e; cdn_index := cdn_index e;
     last_real_urls := last_real_urls e;
     last_get_real_url_time := last_get_real_url_time e |}.

Definition set_refresh_timer (h : option nat) (e : Extractor) : Extractor :=
  {| cls := cls e; room := room e; real_url := real_url e;
     last_valid_real_url := last_valid_real_url e;
     auto_refresh_interval := auto_refresh_interval e;
     last_refresh_time := last_refresh_time e; refresh_timer := h;
     live_url_infos := live_url_infos e; cdn_index := cdn_index e;
     last_real_urls := last_real_urls e;
     last_get_real_url_time := last_get_real_url_time e |}.

Definition set_live_url_infos (l : list cdn_info) (e : Extractor) : Extractor :=
  {| cls := cls e; room := room e; real_url := real_url e;
     last_valid_real_url := last_valid_real_url e;
     auto_refresh_interval := auto_refresh_interval e;
     last_refresh_time := last_refresh_time e; refresh_timer := refresh_timer e;
     live_url_infos := l; cdn_index := cdn_index e;
     last_real_urls := last_real_urls e;
     last_get_real_url_time := last_get_real_url_time e |}.

Definition set_cdn_index (i : Z) (e : Extractor) : Extractor :=
  {| cls := cls e; room := room e; real_url := real_url e;
     last_valid_real_url := last_valid_real_url e;
     auto_refresh_interval := auto_refresh_interval e;
     last_refresh_time := last_refresh_time e; refresh_timer := refresh_timer e;
     live_url_infos := live_url_infos e; cdn_index := i;
     last_real_urls := last_real_urls e;
     last_get_real_url_time := last_get_real_url_time e |}.

Definition set_last_real_urls (u : option (list string)) (e : Extractor) : Extractor :=
  {| cls := cls e; room := room e; real_url := real_url e;
     last_valid_real_url := last_valid_real_url e;
     auto_refresh_interval := auto_refresh_interval e;
     last_refresh_time := last_refresh_time e; refresh_timer := refresh_timer e;
     live_url_infos := live_url_infos e; cdn_index := cdn_index e;
     last_real_urls := u;
     last_get_real_url_time := last_get_real_url_time e |}.

Definition set_last_get_real_url_time (t : Z) (e : Extractor) : Extractor :=
  {| cls := cls e; room := room e; real_url := real_url e;
     last_valid_real_url := last_valid_real_url e;
     auto_refresh_interval := auto_refresh_interval e;
     last_refresh_time := last_refresh_time e; refresh_timer := refresh_timer e;
     live_url_infos := live_url_infos e; cdn_index := cdn_index e;
     last_real_urls := last_real_urls e;
     last_get_real_url_time := t |}.

(** The state a method runs in: [self] and the shared system state. *)
Definition St : Type := Extractor * Sys.

Definition self : M St Extractor := fun st => (Ok (fst st), st).
Definition update_self (f : Extractor -> Extractor) : M St unit :=
  fun st => (Ok tt, (f (fst st), snd st)).

Definition next_tick (s : Sys) : Sys :=
  {| tick := S (tick s); timers := timers s; log := log s |}.

(** One external interaction: ask the collaborator at the current tick. *)
Definition external {A} (f : nat -> result A) : M St A :=
  fun st => (f (tick (snd st)), (fst st, next_tick (snd st))).

(** [datetime.now()] *)
Definition now (env : Env) : M St Z :=
  fun st => (Ok (datetime_now env (tick (snd st))), (fst st, next_tick (snd st))).

Definition add_log (r : log_record) (s : Sys) : Sys :=
  {| tick := tick s; timers := timers s; log := (log s ++ [r])%list |}.

Definition logger_info (f : string) (a : list log_arg) : M St unit :=
  fun st => (Ok tt, (fst st, add_log {| lvl := INFO; fmt := f; args := a |} (snd st))).

Definition set_timers (ts : list Timer) (s : Sys) : Sys :=
  {| tick := tick s; timers := ts; log := log s |}.

(** [Timer(interval, self.refresh_real_url)]: a new timer, not started. *)
Definition Timer_new (interval : Q) : M St nat :=
  fun st =>
    let e := fst st in let s := snd st in
    let t := {| t_interval := interval; t_owner := (cls e, room e);
                t_started := false; t_cancelled := false; t_fired := false |} in
    (Ok (length (timers s)), (e, set_timers (timers s ++ [t])%list s)).

Definition cancel_timer (t : Timer) : Timer :=
  {| t_interval := t_interval t; t_owner := t_owner t;
     t_started := t_started t; t_cancelled := true; t_fired := t_fired t |}.

Definition start_timer (t : Timer) : Timer :=
  {| t_interval := t_interval t; t_owner := t_owner t;
     t_started := true; t_cancelled := t_cancelled t; t_fired := t_fired t |}.

Definition fire_timer (t : Timer) : Timer :=
  {| t_interval := t_interval t; t_owner := t_owner t;
     t_started := t_started t; t_cancelled := t_cancelled t; t_fired := true |}.

Definition alter_timer (f : Timer -> Timer) (h : nat) : M St unit :=
  fun st => (Ok tt, (fst st, set_timers (alter f h (timers (snd st))) (snd st))).

Definition Timer_cancel (h : nat) : M St unit := alter_timer cancel_timer h.
Definition Timer_start (h : nat) : M St unit := alter_timer start_timer h.

Definition Qhalf (n : Z) : Q := (inject_Z n / inject_Z 2)%Q.

(** ** class RealUrlExtractor

    The abstract methods ([_is_url_valid]) and the overridden one
    ([_extract_real_url], reached through [self]) are the section's
    variables; each subclass instantiates them with its own.  The model is
    sequential: one method runs at a time, so the class-wide [lock] that
    [refresh_real_url] takes and releases is always free when it is asked
    for, and it is left out. *)
Module RealUrlExtractor.
Section methods.
Variable env : Env.
Variable _is_url_valid : pyval -> bool.

Definition __init__ (c : provider) (rm : string) (interval : Z)
  : Sys -> result unit * St :=
  fun s =>
    let e := {| cls := c; room := rm; real_url := VNone;
                last_valid_real_url := VNone;
                auto_refresh_interval := interval;
                last_refresh_time := datetime_min; refresh_timer := None;
                live_url_infos := []; cdn_index := 0;
                last_real_urls := None;
                last_get_real_url_time := datetime_min |} in
    (if 0 <? interval
     then (h <- Timer_new (inject_Z interval) ;;
           update_self (set_refresh_timer (Some h)))
     else ret tt) (e, s).

Definition reset_refresh_timer (failover : bool) : M St unit :=
  e <- self ;;
  if 0 <? auto_refresh_interval e then
    (h <- lift (match refresh_timer e with
                | Some h => Ok h
                | None => Raise (AttributeError "refresh_timer")
                end) ;;
     Timer_cancel h ;;
     let refresh_interval :=
       if failover then Qhalf (auto_refresh_interval e)
       else inject_Z (auto_refresh_interval e) in
     h' <- Timer_new refresh_interval ;;
     update_self (set_refresh_timer (Some h')) ;;
     Timer_start h')
  else ret tt.

Definition _extract_real_url : M St unit :=
  e <- self ;;
  failover <-
    (if _is_url_valid (real_url e) then
       (update_self (set_last_valid_real_url (real_url e)) ;; ret false)
     else if negb (py_is_none (last_valid_real_url e)) then
       (update_self (set_real_url (last_valid_real_url e)) ;; ret true)
     else ret true) ;;
  t <- now env ;;
  update_self (set_last_refresh_time t) ;;
  reset_refresh_timer failover ;;
  if failover : bool then logger_info "failed to extract real url" []
  else (e' <- self ;; logger_info "extracted url: %s" [LVal (real_url e')]).

(** [self._extract_real_url], as the subclass overrides it *)
Variable self__extract_real_url : M St unit.

Definition refresh_real_url : M St unit :=
  try_except self__extract_real_url (fun _ => ret tt).

Definition get_real_url (bit_rate : option string) : M St unit :=
  e <- self ;;
  if py_is_none (real_url e) || sel_eq bit_rate "refresh"
  then self__extract_real_url
  else ret tt.
End methods.
End RealUrlExtractor.

(** ** class HuYaRealUrlExtractor *)
Module HuYaRealUrlExtractor.
Section methods.
Variable env : Env.

Definition __init__ (rm : string) (interval : Z) : Sys -> result unit * St :=
  fun s =>
    match RealUrlExtractor.__init__ HuYa rm interval s with
    | (Ok _, st) =>
        (update_self (set_cdn_index (-1)) ;;
         update_self (set_last_real_urls None) ;;
         update_self (set_last_get_real_url_time datetime_min)) st
    | (Raise e, st) => (Raise e, st)
    end.

Definition _is_url_valid (url : pyval) : bool := negb (py_is_none url).

Definition _extract_real_url : M St unit :=
  e <- self ;;
  infos <- external (huya_update_live_url_info env (room e)) ;;
  update_self (set_live_url_infos infos) ;;
  let cdn_count := Z.of_nat (length infos) in
  (if cdn_count <=? cdn_index e then update_self (set_cdn_index 0) else ret tt) ;;
  (if 0 <? cdn_count then
     (e1 <- self ;;
      i <- lift (py_index infos (cdn_index e1)) ;;
      update_self (set_real_url (VStr (info_hls_url i))))
   else update_self (set_real_url VNone)) ;;
  RealUrlExtractor._extract_real_url env _is_url_valid.

Definition refresh_real_url : M St unit :=
  RealUrlExtractor.refresh_real_url _extract_real_url.

(** Lines 133-138 of [get_real_url]: the variant list, from the cache or
    from the client.  [or] does not read the clock when no list is
    cached. *)
Definition cached_real_urls (bit_rate : option string) : M St (list string) :=
  e <- self ;;
  stale <-
    (match last_real_urls e with
     | None => ret true
     | Some _ =>
         t <- now env ;;
         ret (total_seconds_gt (t - last_get_real_url_time e) 120)
     end) ;;
  if stale : bool then
    (urls <- external (huya_get_real_url env (room e) bit_rate) ;;
     update_self (set_last_real_urls (Some urls)) ;;
     t <- now env ;;
     update_self (set_last_get_real_url_time t) ;;
     ret urls)
  else ret (default [] (last_real_urls e)).

Definition get_real_url (bit_rate : option string) : M St (option string) :=
  RealUrlExtractor.get_real_url _extract_real_url bit_rate ;;
  let bit_rate := if sel_eq bit_rate "refresh" then None else bit_rate in
  (if sel_eq bit_rate "switch_cdn"
   then update_self (fun e => set_cdn_index (cdn_index e + 1) e)
   else ret tt) ;;
  urls <- cached_real_urls bit_rate ;;
  if 0 <? Z.of_nat (length urls) then
    (e <- self ;;
     (if Z.of_nat (length urls) <=? cdn_index e
      then update_self (set_cdn_index 0) else ret tt) ;;
     e1 <- self ;;
     u <- lift (py_index urls (cdn_index e1)) ;;
     ret (Some u))
  else ret None.

Definition reset_last_get_real_url_time : M St unit :=
  update_self (set_last_get_real_url_time datetime_min).

Definition stream_name : M St string :=
  e <- self ;;
  i <- lift (py_index (live_url_infos e) (cdn_index e)) ;;
  ret (info_stream_name i).

Definition base_url : M St string :=
  e <- self ;;
  i <- lift (py_index (live_url_infos e) (cdn_index e)) ;;
  ret (info_base_url i).
End methods.
End HuYaRealUrlExtractor.

(** [bit_rate is None or len(bit_rate) == 0] *)
Definition no_bit_rate (bit_rate : option string) : bool :=
  match bit_rate with
  | None => true
  | Some b => Nat.eqb (String.length b) 0
  end.

(** ** class DouYuRealUrlExtractor *)
Module DouYuRealUrlExtractor.
Section methods.
Variable env : Env.

Definition __init__ (rm : string) (interval : Z) : Sys -> result unit * St :=
  RealUrlExtractor.__init__ DouYu rm interval.

Definition _is_url_valid (url : pyval) : bool :=
  negb (py_is_none url) && py_ne_str url "None".

Definition _extract_real_url : M St unit :=
  e <- self ;;
  try_except
    (v <- external (DouYu_get_real_url env (room e)) ;;
     update_self (set_real_url v))
    (fun _ => update_self (set_real_url (VStr "None"))) ;;
  RealUrlExtractor._extract_real_url env _is_url_valid.

Definition refresh_real_url : M St unit :=
  RealUrlExtractor.refresh_real_url _extract_real_url.

Definition get_real_url (bit_rate : option string) : M St (option string) :=
  RealUrlExtractor.get_real_url _extract_real_url bit_rate ;;
  let bit_rate := if sel_eq bit_rate "refresh" then None else bit_rate in
  e <- self ;;
  if negb (_is_url_valid (real_url e)) then ret None
  else if no_bit_rate bit_rate then
    (has_flv <- lift (py_contains "flv" (real_url e)) ;;
     if has_flv : bool then
       (u <- lift (py_getitem (real_url e) "flv") ;; ret (Some u))
     else
       (has_2000p <- lift (py_contains "2000p" (real_url e)) ;;
        if has_2000p : bool then
          (u <- lift (py_getitem (real_url e) "2000p") ;; ret (Some u))
        else
          (u <- lift (py_getitem (real_url e) "900p") ;; ret (Some u))))
  else
    (let b := default "" bit_rate in
     has_key <- lift (py_in_keys b (real_url e)) ;;
     if has_key : bool then
       (u <- lift (py_getitem (real_url e) b) ;; ret (Some u))
     else ret None).
End methods.
End DouYuRealUrlExtractor.

(** ** class BilibiliRealUrlExtractor *)
Module BilibiliRealUrlExtractor.
Section methods.
Variable env : Env.

Definition __init__ (rm : string) (interval : Z) : Sys -> result unit * St :=
  RealUrlExtractor.__init__ Bilibili rm interval.

Definition _is_url_valid (url : pyval) : bool :=
  negb (py_is_none url) && py_ne_str url "None".

Definition _extract_real_url : M St unit :=
  e <- self ;;
  try_except
    (v <- external (BiliBili_get_real_url env (room e)) ;;
     update_self (set_real_url v))
    (fun _ => update_self (set_real_url (VStr "None"))) ;;
  RealUrlExtractor._extract_real_url env _is_url_valid.

Definition refresh_real_url : M St unit :=
  RealUrlExtractor.refresh_real_url _extract_real_url.

Definition get_real_url (bit_rate : option string) : M St (option string) :=
  RealUrlExtractor.get_real_url _extract_real_url bit_rate ;;
  e <- self ;;
  if negb (_is_url_valid (real_url e)) then ret None
  else
    (has_hls <- lift (py_contains "hls_url" (real_url e)) ;;
     if has_hls : bool then
       (u <- lift (py_getitem (real_url e) "hls_url") ;; ret (Some u))
     else
       (u <- lift (py_getitem (real_url e) "flv_url") ;; ret (Some u))).
End methods.
End BilibiliRealUrlExtractor.

(** ** Module-level state and the request handlers *)

Abbreviation headers := (gmap string string).

(** The two sanic calls of the handlers, with the arguments they are given. *)
Inductive Response :=
| response_redirect (to : string) (hdrs : option headers) (status : Z)
| response_text (body : string) (hdrs : option headers) (status : Z).

Record World := {
  processor_maps : gmap string (gmap string Extractor);
  crosHeaders : headers;
  module_auto_refresh_interval : Z;   (* the global [auto_refresh_interval] *)
  sys : Sys
}.

Definition crosHeaders0 : headers :=
  <["Access-Control-Allow-Origin" := "*"]>
  (<["Access-Control-Allow-Methods" := "GET"]>
  (<["Access-Control-Allow-Headers" := "Content-Type, Content-Length, Authorization"]> ∅)).

(** The module as it stands when the server starts with [--refresh interval]. *)
Definition initial_world (interval : Z) : World :=
  {| processor_maps := ∅; crosHeaders := crosHeaders0;
     module_auto_refresh_interval := interval;
     sys := {| tick := 0; timers := []; log := [] |} |}.

Definition set_sys (s : Sys) (w : World) : World :=
  {| processor_maps := processor_maps w; crosHeaders := crosHeaders w;
     module_auto_refresh_interval := module_auto_refresh_interval w; sys := s |}.

Definition set_processor_maps (pm : gmap string (gmap string Extractor)) (w : World) : World :=
  {| processor_maps := pm; crosHeaders := crosHeaders w;
     module_auto_refresh_interval := module_auto_refresh_interval w; sys := sys w |}.

Definition set_crosHeaders (h : headers) (w : World) : World :=
  {| processor_maps := processor_maps w; crosHeaders := h;
     module_auto_refresh_interval := module_auto_refresh_interval w; sys := sys w |}.

(** Names bound at module level, and the parameters and local variables of
    [serviceWithRate]. *)
Definition module_names : list string :=
  ["argparse"; "logging"; "re"; "ABCMeta"; "abstractmethod"; "datetime";
   "handlers"; "Timer"; "Lock"; "requests"; "Blueprint"; "response"; "Sanic";
   "text"; "BiliBili"; "DouYu"; "huya"; "app"; "blueprint"; "Logger"; "log";
   "RealUrlExtractor"; "HuYaRealUrlExtractor"; "DouYuRealUrlExtractor";
   "BilibiliRealUrlExtractor"; "crosHeaders"; "processor_maps";
   "auto_refresh_interval"; "serviceWithRate"; "service";
   "parser"; "args"; "port"].

Definition serviceWithRate_names : list string :=
  ["request"; "provider"; "room"; "bit_rate"; "douyu_processor_map";
   "bilibili_processor_map"; "huya_processor_map"; "real_url"; "e";
   "status_code"; "header"; "resp"; "m3u8_content"; "rsp"].

Inductive name_value := NInt (z : Z) | NObject.

(** Reading a name inside [serviceWithRate]: a name bound neither in the
    function nor in the module raises NameError. *)
Definition load_name (n : string) : M World name_value :=
  fun w =>
    if String.eqb n "auto_refresh_interval"
    then (Ok (NInt (module_auto_refresh_interval w)), w)
    else if bool_decide (n ∈ (serviceWithRate_names ++ module_names)%list)
    then (Ok NObject, w)
    else (Raise (NameError n), w).

(** [v.auto_refresh_interval] *)
Definition getattr_auto_refresh_interval (v : name_value) : M World name_value :=
  match v with
  | NInt _ => raise (AttributeError "auto_refresh_interval")
  | NObject => raise (AttributeError "auto_refresh_interval")
  end.

(** The interval argument of a constructor; the comparison [> 0] of
    [__init__] needs a number. *)
Definition as_interval (v : name_value) : M World Z :=
  match v with
  | NInt z => ret z
  | NObject => raise TypeError
  end.

Definition world_log (l : log_level) (f : string) (a : list log_arg) : M World unit :=
  fun w => (Ok tt, set_sys (add_log {| lvl := l; fmt := f; args := a |} (sys w)) w).

Definition sel_arg (bit_rate : option string) : log_arg :=
  match bit_rate with Some b => LStr b | None => LNone end.

(** [if provider not in processor_maps.keys(): processor_maps[provider] = {}] *)
Definition ensure_provider_map (prov : string) : M World unit :=
  fun w =>
    match processor_maps w !! prov with
    | Some _ => (Ok tt, w)
    | None => (Ok tt, set_processor_maps (<[prov := ∅]> (processor_maps w)) w)
    end.

(** [room not in processor_maps[provider].keys()] *)
Definition room_is_new (prov rm : string) : M World bool :=
  fun w =>
    match processor_maps w !! prov with
    | Some pm => (Ok (bool_decide (pm !! rm = None)), w)
    | None => (Raise (KeyError prov), w)
    end.

Definition store_extractor (prov rm : string) (e : Extractor) (w : World) : World :=
  set_processor_maps
    (<[prov := <[rm := e]> (default ∅ (processor_maps w !! prov))]> (processor_maps w)) w.

(** [processor_maps[provider][room] = C(room, interval)] *)
Definition new_extractor (init : Sys -> result unit * St) (prov rm : string)
  : M World unit :=
  fun w =>
    match init (sys w) with
    | (Ok _, (e, s')) => (Ok tt, store_extractor prov rm e (set_sys s' w))
    | (Raise x, (_, s')) => (Raise x, set_sys s' w)
    end.

(** A method call on [processor_maps[provider][room]]; the object is
    updated in place, also when the method raises. *)
Definition on_extractor {A} (prov rm : string) (m : M St A) : M World A :=
  fun w =>
    match processor_maps w !! prov ≫= (fun pm => pm !! rm) with
    | Some e =>
        let '(r, (e', s')) := m (e, sys w) in
        (r, store_extractor prov rm e' (set_sys s' w))
    | None => (Raise (KeyError rm), w)
    end.

(** [crosHeaders.update(d)]: changes the shared dict and returns None. *)
Definition crosHeaders_update (d : headers) : M World (option headers) :=
  fun w => (Ok None, set_crosHeaders (d ∪ crosHeaders w) w).

(** An external interaction made by a handler itself. *)
Definition world_external {A} (f : nat -> result A) : M World A :=
  fun w => (f (tick (sys w)), set_sys (next_tick (sys w)) w).

Definition read_crosHeaders : M World headers :=
  fun w => (Ok (crosHeaders w), w).

Definition newline : string := String (ascii_of_nat 10) EmptyString.

Fixpoint split_lines (s : string) : list string :=
  match s with
  | EmptyString => [EmptyString]
  | String c s' =>
      if Ascii.eqb c (ascii_of_nat 10) then EmptyString :: split_lines s'
      else match split_lines s' with
           | l :: ls => String c l :: ls
           | [] => [String c EmptyString]
           end
  end.

Definition backslash : string := String (ascii_of_nat 92) EmptyString.

(** In every line that contains [.ts], the text from the start of the line
    up to the first [.ts] is prefixed with [base/]: what the pattern
    [(^.*?\.ts)] with [flags=re.M] selects, replaced by [base/] and
    itself. *)
Definition prefix_ts_lines (base content : string) : string :=
  String.concat newline
    (map (fun l => if is_substring ".ts" l then base +:+ "/" +:+ l else l)
         (split_lines content)).

(** [re.sub(r'(^.*?\.ts)', base + r'/\1', content, flags=re.M)].  The second
    argument is a replacement template, which [re] parses before it scans
    [content]: a backslash in [base] starts an escape, and the call then
    expands it or raises re.error, also when no line matches.  A [base]
    without a backslash is literal text. *)
Definition re_sub_ts (env : Env) (base content : string) : result string :=
  if is_substring backslash base then re_sub_escaped env base content
  else Ok (prefix_ts_lines base content).

Definition fallback_manifest (real_url_ : string) : string :=
  "#EXTM3U" +:+ newline +:+ "#EXT-X-STREAM-INF:PROGRAM-ID=1,BANDWIDTH=1"
  +:+ newline +:+ real_url_.

Section handlers.
Variable env : Env.

(** Lines 266-286: the manifest proxy, once [get_real_url] gave a URL. *)
Definition manifest_proxy (rm real_url_ : string) : M World Response :=
  fetched <- attempt (world_external (requests_get env real_url_)) ;;
  outcome <-
    (match fetched with
     | Ok (code, body) =>
         b <- attempt (on_extractor "huya" rm HuYaRealUrlExtractor.base_url) ;;
         match b with
         | Ok base =>
             match re_sub_ts env base body with
             | Ok content => ret (code, Some content)
             | Raise _ => ret (code, None)
             end
         | Raise _ => ret (code, None)
         end
     | Raise _ => ret (200, None)
     end) ;;
  let status_code : Z := fst outcome in
  let rewritten : option string := snd outcome in
  m3u8_content <-
    (match rewritten with
     | Some content => ret content
     | None =>
         on_extractor "huya" rm
           (update_self (fun e => set_cdn_index (cdn_index e + 1) e)) ;;
         ret (fallback_manifest real_url_)
     end) ;;
  (if status_code =? 403
   then on_extractor "huya" rm HuYaRealUrlExtractor.reset_last_get_real_url_time
   else ret tt) ;;
  h <- crosHeaders_update
         (<["Content-type" := "application/vnd.apple.mpegurl"]>
          (<["Content-Length" := str_of_nat (String.length m3u8_content)]> ∅)) ;;
  ret (response_text m3u8_content h status_code).

(** Lines 290-295.  ["Not Found".encode("gb2312")] is the same nine
    bytes. *)
Definition not_found : M World Response :=
  let rsp := "Not Found" in
  h <- crosHeaders_update
         (<["Content-type" := "text/html; charset=gb2312"]>
          (<["Content-Length" := str_of_nat (String.length rsp)]> ∅)) ;;
  ret (response_text rsp h 404).

Definition redirect_to (real_url_ : option string) : M World (option Response) :=
  match real_url_ with
  | Some u => h <- read_crosHeaders ;; ret (Some (response_redirect u (Some h) 301))
  | None => ret None
  end.

Definition serviceWithRate (provider_ room_ : string) (bit_rate : option string)
  : M World Response :=
  world_log INFO "provider: %s, room: %s, bit_rate: %s"
    [LStr provider_; LStr room_; sel_arg bit_rate] ;;
  returned <-
    (if String.eqb provider_ "douyu" then
       (ensure_provider_map provider_ ;;
        try_except
          (is_new <- room_is_new provider_ room_ ;;
           (if is_new : bool then
              (slf <- load_name "self" ;;
               a <- getattr_auto_refresh_interval slf ;;
               interval <- as_interval a ;;
               new_extractor (DouYuRealUrlExtractor.__init__ room_ interval)
                 provider_ room_)
            else ret tt) ;;
           real_url_ <- on_extractor provider_ room_
                          (DouYuRealUrlExtractor.get_real_url env bit_rate) ;;
           redirect_to real_url_)
          (fun e =>
             world_log ERROR "Failed to extract douyu real url! Error: %s"
               [LStr (exn_str e)] ;;
             ret None))
     else if String.eqb provider_ "bilibili" then
       (ensure_provider_map provider_ ;;
        try_except
          (is_new <- room_is_new provider_ room_ ;;
           (if is_new : bool then
              (a <- load_name "auto_refresh_interval" ;;
               interval <- as_interval a ;;
               new_extractor (BilibiliRealUrlExtractor.__init__ room_ interval)
                 provider_ room_)
            else ret tt) ;;
           real_url_ <- on_extractor provider_ room_
                          (BilibiliRealUrlExtractor.get_real_url env bit_rate) ;;
           redirect_to real_url_)
          (fun e =>
             world_log ERROR "Failed to extract bilibili real url! Error: %s"
               [LStr (exn_str e)] ;;
             ret None))
     else if String.eqb provider_ "huya" then
       (ensure_provider_map provider_ ;;
        try_except
          (is_new <- room_is_new provider_ room_ ;;
           (if is_new : bool then
              (a <- load_name "auto_refresh_interval" ;;
               interval <- as_interval a ;;
               new_extractor (HuYaRealUrlExtractor.__init__ room_ interval)
                 provider_ room_)
            else ret tt) ;;
           real_url_ <- on_extractor provider_ room_
                          (HuYaRealUrlExtractor.get_real_url env bit_rate) ;;
           match real_url_ with
           | Some u => r <- manifest_proxy room_ u ;; ret (Some r)
           | None => ret None
           end)
          (fun e =>
             world_log ERROR "Failed to proxy huya hls stream! Error: %s"
               [LStr (exn_str e)] ;;
             ret None))
     else ret None) ;;
  match returned with
  | Some r => ret r
  | None => not_found
  end.

Definition service (provider_ roomId : string) : M World Response :=
  serviceWithRate provider_ roomId None.
End handlers.

(** ** Dispatch on the class of an object, and what can happen to an extractor *)

Definition is_url_valid (c : provider) : pyval -> bool :=
  match c with
  | HuYa => HuYaRealUrlExtractor._is_url_valid
  | DouYu => DouYuRealUrlExtractor._is_url_valid
  | Bilibili => BilibiliRealUrlExtractor._is_url_valid
  end.

Definition extract_real_url (env : Env) (c : provider) : M St unit :=
  match c with
  | HuYa => HuYaRealUrlExtractor._extract_real_url env
  | DouYu => DouYuRealUrlExtractor._extract_real_url env
  | Bilibili => BilibiliRealUrlExtractor._extract_real_url env
  end.

Definition refresh_real_url (env : Env) (c : provider) : M St unit :=
  match c with
  | HuYa => HuYaRealUrlExtractor.refresh_real_url env
  | DouYu => DouYuRealUrlExtractor.refresh_real_url env
  | Bilibili => BilibiliRealUrlExtractor.refresh_real_url env
  end.

Definition get_real_url (env : Env) (c : provider) (bit_rate : option string)
  : M St (option string) :=
  match c with
  | HuYa => HuYaRealUrlExtractor.get_real_url env bit_rate
  | DouYu => DouYuRealUrlExtractor.get_real_url env bit_rate
  | Bilibili => BilibiliRealUrlExtractor.get_real_url env bit_rate
  end.

Definition construct (c : provider) (rm : string) (interval : Z)
  : Sys -> result unit * St :=
  match c with
  | HuYa => HuYaRealUrlExtractor.__init__ rm interval
  | DouYu => DouYuRealUrlExtractor.__init__ rm interval
  | Bilibili => BilibiliRealUrlExtractor.__init__ rm interval
  end.

(** The pending refresh timer of the extractor expires: its thread calls
    [refresh_real_url].  A timer that was not started, was cancelled or has
    already fired does nothing. *)
Definition timer_fires (env : Env) : M St unit :=
  fun st =>
    match refresh_timer (fst st) with
    | Some h =>
        match timers (snd st) !! h with
        | Some t =>
            if pending t
            then (alter_timer fire_timer h ;;
                  refresh_real_url env (cls (fst st))) st
            else (Ok tt, st)
        | None => (Ok tt, st)
        end
    | None => (Ok tt, st)
    end.

Definition pending_timers (st : St) : list Timer :=
  filter (fun t => t_owner t = (cls (fst st), room (fst st)) /\ pending t = true)
         (timers (snd st)).

(** The events of an extractor's life: a request asks for its URL; its
    refresh timer expires; for HuYa, the handler's manifest fetch fails
    (line 280) or is answered 403 (line 282). *)
Inductive event :=
| Request (bit_rate : option string)
| TimerExpires
| ManifestFetchFailed
| ManifestForbidden.

Definition run_event (env : Env) (ev : event) (st : St) : St :=
  match ev with
  | Request bit_rate => snd (get_real_url env (cls (fst st)) bit_rate st)
  | TimerExpires => snd (timer_fires env st)
  | ManifestFetchFailed =>
      match cls (fst st) with
      | HuYa => snd (update_self (fun e => set_cdn_index (cdn_index e + 1) e) st)
      | _ => st
      end
  | ManifestForbidden =>
      match cls (fst st) with
      | HuYa => snd (HuYaRealUrlExtractor.reset_last_get_real_url_time st)
      | _ => st
      end
  end.

Definition run_events (env : Env) (evs : list event) (st : St) : St :=
  fold_left (fun st ev => run_event env ev st) evs st.

(** ** Definitions used to state the properties *)

(** An extractor built by [__init__] has a [refresh_timer] whenever its
    interval is positive; [reset_refresh_timer] relies on it. *)
Definition timer_attr_ok (e : Extractor) : Prop :=
  0 < auto_refresh_interval e -> is_Some (refresh_timer e).

(** Every pending timer of the extractor is the one it holds in
    [refresh_timer]. *)
Definition owns_pending (st : St) : Prop :=
  forall i t, timers (snd st) !! i = Some t ->
              t_owner t = (cls (fst st), room (fst st)) ->
              pending t = true -> refresh_timer (fst st) = Some i.

(** The timer [reset_refresh_timer] creates and starts. *)
Definition new_timer (e : Extractor) (failover : bool) : Timer :=
  {| t_interval := if failover then Qhalf (auto_refresh_interval e)
                   else inject_Z (auto_refresh_interval e);
     t_owner := (cls e, room e);
     t_started := true; t_cancelled := false; t_fired := false |}.

(** The fields [real_url] and [last_valid_real_url] after the validity
    check of the base [_extract_real_url]. *)
Definition resolved (valid : pyval -> bool) (e : Extractor) : Extractor :=
  if valid (real_url e) then set_last_valid_real_url (real_url e) e
  else if negb (py_is_none (last_valid_real_url e))
       then set_real_url (last_valid_real_url e) e
       else e.

Definition refresh_log (failover : bool) (e : Extractor) : log_record :=
  if failover then {| lvl := INFO; fmt := "failed to extract real url"; args := [] |}
  else {| lvl := INFO; fmt := "extracted url: %s"; args := [LVal (real_url e)] |}.

(** The state the base [_extract_real_url] leaves. *)
Definition refreshed (env : Env) (valid : pyval -> bool) (st : St) : St :=
  let e := fst st in
  let s := snd st in
  let failover := negb (valid (real_url e)) in
  let e1 := set_last_refresh_time (datetime_now env (tick s)) (resolved valid e) in
  let s1 := next_tick s in
  let lg := refresh_log failover (resolved valid e) in
  match refresh_timer e with
  | Some h =>
      if 0 <? auto_refresh_interval e
      then (set_refresh_timer (Some (length (timers s))) e1,
            add_log lg (set_timers (alter cancel_timer h (timers s)
                                    ++ [new_timer e failover])%list s1))
      else (e1, add_log lg s1)
  | None => (e1, add_log lg s1)
  end.

(** The selector policy of the DouYu extractor in the words of the
    specification: prefer [flv], else [2000p], else index [900p]. *)
Definition spec_douyu_default (m : gmap string string) : result (option string) :=
  match m !! "flv" with
  | Some u => Ok (Some u)
  | None =>
      match m !! "2000p" with
      | Some u => Ok (Some u)
      | None =>
          match m !! "900p" with
          | Some u => Ok (Some u)
          | None => Raise (KeyError "900p")
          end
      end
  end.

Definition resp_headers (r : Response) : option headers :=
  match r with
  | response_redirect _ h _ => h
  | response_text _ h _ => h
  end.

Definition carries_cors (r : Response) : Prop :=
  exists h, resp_headers r = Some h /\
    h !! "Access-Control-Allow-Origin" = Some "*" /\
    h !! "Access-Control-Allow-Methods" = Some "GET" /\
    h !! "Access-Control-Allow-Headers"
      = Some "Content-Type, Content-Length, Authorization".

(** An extractor object of the given class with background refresh
    disabled (interval 0), holding the resolution [url] as a successful
    refresh leaves it. *)
Definition extractor_with (c : provider) (rm : string) (url : pyval)
  : Extractor :=
  {| cls := c; room := rm; real_url := url; last_valid_real_url := url;
     auto_refresh_interval := 0; last_refresh_time := datetime_min;
     refresh_timer := None; live_url_infos := []; cdn_index := 0;
     last_real_urls := None; last_get_real_url_time := datetime_min |}.

Definition sys0 : Sys := {| tick := 0; timers := []; log := [] |}.

(** Concrete collaborators for the examples.  The clock starts in 2026 and
    advances one second per interaction. *)
Definition year_2026 : Z := 63900000000000000.

Definition clock (n : nat) : Z := year_2026 + 1000000 * Z.of_nat n.

Definition cdn (n : string) : cdn_info :=
  {| info_hls_url := "hls" +:+ n; info_base_url := "base" +:+ n;
     info_stream_name := "stream" +:+ n |}.

Definition sample_manifest : string :=
  "#EXTM3U" +:+ newline +:+ "1.ts" +:+ newline +:+ "2.ts?k=v".

Definition env_ok : Env :=
  {| DouYu_get_real_url := fun _ _ => Ok (VDict (<["flv" := "http://x"]> ∅));
     BiliBili_get_real_url := fun _ _ => Ok (VDict (<["flv_url" := "http://b"]> ∅));
     huya_update_live_url_info := fun _ _ => Ok [cdn "0"; cdn "1"; cdn "2"];
     huya_get_real_url := fun _ _ _ => Ok ["v0"; "v1"; "v2"];
     requests_get := fun _ _ => Ok (200, sample_manifest);
     re_sub_escaped := fun _ _ => Raise (External "re.error");
     datetime_now := clock |}.

Definition map_A_B : gmap string string := <["flv" := "A"]> (<["900p" := "B"]> ∅).

Definition env_A_B : Env :=
  {| DouYu_get_real_url := fun _ _ => Ok (VDict map_A_B);
     BiliBili_get_real_url := fun _ _ => Raise (External "offline");
     huya_update_live_url_info := fun _ _ => Raise (External "offline");
     huya_get_real_url := fun _ _ _ => Raise (External "offline");
     requests_get := fun _ _ => Raise (External "offline");
     re_sub_escaped := fun _ _ => Raise (External "re.error");
     datetime_now := clock |}.

(** What the DouYu and Bilibili extractors store for a client answer: the
    value returned, or the sentinel ['None'] when the client raised. *)
Definition or_sentinel (r : result pyval) : pyval :=
  match r with
  | Ok v => v
  | Raise _ => VStr "None"
  end.

(** The two shapes a handler's response takes: a 301 redirect that is given
    the shared [crosHeaders] dict, or a text response whose [headers]
    argument is the None that [dict.update] returns. *)
Definition response_shape (r : Response) : Prop :=
  (exists u h, r = response_redirect u (Some h) 301) \/
  (exists b st, r = response_text b None st).

(** The worlds the server can be in: the module as loaded, then any
    sequence of requests and of refresh timers expiring. *)
Inductive reachable (env : Env) : World -> Prop :=
| reachable_initial interval : reachable env (initial_world interval)
| reachable_request w p rm sel :
    reachable env w -> reachable env (snd (serviceWithRate env p rm sel w))
| reachable_timer w p rm :
    reachable env w -> reachable env (snd (on_extractor p rm (timer_fires env) w)).

(** A handler step that leaves the DouYu registry as it found it. *)
Definition keeps_douyu {A} (m : M World A) : Prop :=
  forall w, processor_maps (snd (m w)) !! "douyu" = processor_maps w !! "douyu".

Definition no_douyu_extractor (w : World) : Prop :=
  forall rm, (processor_maps w !! "douyu" ≫= (fun pm => pm !! rm)) = None.

(** A freshly constructed extractor, in a process that has no timers yet. *)
Definition fresh (c : provider) (rm : string) (interval : Z) : St :=
  snd (construct c rm interval sys0).

(** [if self.cdn_index >= n: self.cdn_index = 0] *)
Definition clamp_cdn_index (n : Z) (e : Extractor) : Extractor :=
  if n <=? cdn_index e then set_cdn_index 0 e else e.

(** The HuYa [_extract_real_url], step by step: what it leaves when the
    client raises, when the dereference raises, and when it reaches the
    base step. *)
Definition huya_extract_outcome (env : Env) (st : St) : result unit * St :=
  let e := fst st in
  let s := snd st in
  match huya_update_live_url_info env (room e) (tick s) with
  | Raise x => (Raise x, (e, next_tick s))
  | Ok infos =>
      let n := Z.of_nat (length infos) in
      let e2 := clamp_cdn_index n (set_live_url_infos infos e) in
      if 0 <? n then
        match py_index infos (cdn_index e2) with
        | Ok i =>
            RealUrlExtractor._extract_real_url env HuYaRealUrlExtractor._is_url_valid
              (set_real_url (VStr (info_hls_url i)) e2, next_tick s)
        | Raise x => (Raise x, (e2, next_tick s))
        end
      else
        RealUrlExtractor._extract_real_url env HuYaRealUrlExtractor._is_url_valid
          (set_real_url VNone e2, next_tick s)
  end.

(** The client call of [cached_real_urls] and what it records. *)
Definition fetch_real_urls (env : Env) (bit_rate : option string) (st : St)
  : result (list string) * St :=
  let e := fst st in
  let s := snd st in
  match huya_get_real_url env (room e) bit_rate (tick s) with
  | Raise x => (Raise x, (e, next_tick s))
  | Ok urls =>
      (Ok urls,
       (set_last_get_real_url_time (datetime_now env (S (tick s)))
          (set_last_real_urls (Some urls) e),
        next_tick (next_tick s)))
  end.

(** The selection at the end of the HuYa [get_real_url]. *)
Definition select_url (urls : list string) (st : St) : result (option string) * St :=
  if 0 <? Z.of_nat (length urls) then
    let e := clamp_cdn_index (Z.of_nat (length urls)) (fst st) in
    match py_index urls (cdn_index e) with
    | Ok u => (Ok (Some u), (e, snd st))
    | Raise x => (Raise x, (e, snd st))
    end
  else (Ok None, st).

(** [bit_rate] after [if bit_rate == 'refresh': bit_rate = None] *)
Definition drop_refresh (bit_rate : option string) : option string :=
  if sel_eq bit_rate "refresh" then None else bit_rate.

Definition switch_cdn (bit_rate : option string) (e : Extractor) : Extractor :=
  if sel_eq bit_rate "switch_cdn" then set_cdn_index (cdn_index e + 1) e else e.

(** What every step keeps of an extractor: its identity and interval, the
    timer attribute, the lower bound of [cdn_index]; and the only two things
    a step does to [last_valid_real_url]: leave it, or give it a valid
    value. *)
Definition evolves (valid : pyval -> bool) (st st' : St) : Prop :=
  let e := fst st in
  let e' := fst st' in
  cls e' = cls e /\ room e' = room e /\
  auto_refresh_interval e' = auto_refresh_interval e /\
  (timer_attr_ok e -> timer_attr_ok e') /\
  (last_valid_real_url e' = last_valid_real_url e \/
   valid (last_valid_real_url e') = true) /\
  (-1 <= cdn_index e -> -1 <= cdn_index e').


(** Every collaborator is unreachable. *)
Definition env_offline : Env :=
  {| DouYu_get_real_url := fun _ _ => Raise (External "offline");
     BiliBili_get_real_url := fun _ _ => Raise (External "offline");
     huya_update_live_url_info := fun _ _ => Raise (External "offline");
     huya_get_real_url := fun _ _ _ => Raise (External "offline");
     requests_get := fun _ _ => Raise (External "offline");
     re_sub_escaped := fun _ _ => Raise (External "re.error");
     datetime_now := clock |}.

(** A HuYa room that goes off the air: the client reports one CDN endpoint
    and one variant during the first four interactions and none afterwards;
    100 seconds pass between two interactions. *)
Definition env_huya_outage : Env :=
  {| DouYu_get_real_url := fun _ _ => Raise (External "offline");
     BiliBili_get_real_url := fun _ _ => Raise (External "offline");
     huya_update_live_url_info :=
       fun _ n => if (n <? 4)%nat then Ok [cdn "0"] else Ok [];
     huya_get_real_url :=
       fun _ _ n => if (n <? 4)%nat then Ok ["v0"] else Ok [];
     requests_get := fun _ _ => Ok (200, sample_manifest);
     re_sub_escaped := fun _ _ => Raise (External "re.error");
     datetime_now := fun n => year_2026 + 100000000 * Z.of_nat n |}.

(** The HuYa client answers every call (it may still report no endpoint
    or no variant). *)
Definition huya_client_answers (env : Env) (rm : string) : Prop :=
  (forall n, exists infos, huya_update_live_url_info env rm n = Ok infos) /\
  (forall sel n, exists urls, huya_get_real_url env rm sel n = Ok urls).

(** [k] requests with the selector [switch_cdn]. *)
Definition switch_requests (k : nat) : list event :=
  repeat (Request (Some "switch_cdn")) k.

(** A HuYa client whose variant list names the interaction that fetched
    it, so that a second fetch can be told from a cached answer; one second
    passes between two interactions. *)
Definition env_ticking : Env :=
  {| DouYu_get_real_url := fun _ _ => Raise (External "offline");
     BiliBili_get_real_url := fun _ _ => Raise (External "offline");
     huya_update_live_url_info := fun _ _ => Ok [cdn "0"];
     huya_get_real_url := fun _ _ n => Ok ["v" +:+ str_of_nat n];
     requests_get := fun _ _ => Ok (403, "Forbidden");
     re_sub_escaped := fun _ _ => Raise (External "re.error");
     datetime_now := clock |}.

(** [(now - last_get_real_url_time).total_seconds() > 120] at the tick of
    the state. *)
Definition older_than_120s (env : Env) (st : St) : bool :=
  total_seconds_gt
    (datetime_now env (tick (snd st)) - last_get_real_url_time (fst st)) 120.

(** [processor_maps[provider][room]], when both keys are present. *)
Definition registered (p rm : string) (w : World) : option Extractor :=
  processor_maps w !! p ≫= (fun pm => pm !! rm).

(** The manifest server answers 500. *)
Definition env_500 : Env :=
  {| DouYu_get_real_url := DouYu_get_real_url env_ok;
     BiliBili_get_real_url := BiliBili_get_real_url env_ok;
     huya_update_live_url_info := huya_update_live_url_info env_ok;
     huya_get_real_url := huya_get_real_url env_ok;
     requests_get := fun _ _ => Ok (500, "Internal Server Error");
     re_sub_escaped := fun _ _ => Raise (External "re.error");
     datetime_now := clock |}.

(** The HuYa client answers during the first four interactions and raises
    afterwards. *)
Definition env_huya_crash : Env :=
  {| DouYu_get_real_url := fun _ _ => Raise (External "offline");
     BiliBili_get_real_url := fun _ _ => Raise (External "offline");
     huya_update_live_url_info :=
       fun _ n => if (n <? 4)%nat then Ok [cdn "0"] else Raise (External "timeout");
     huya_get_real_url := fun _ _ _ => Ok ["v0"];
     requests_get := fun _ _ => Ok (200, sample_manifest);
     re_sub_escaped := fun _ _ => Raise (External "re.error");
     datetime_now := clock |}.

(** A world whose registry holds one new HuYa extractor for room 55. *)
Definition world_huya55 : World :=
  store_extractor "huya" "55" (fst (fresh HuYa "55" 0)) (initial_world 0).

(** The new HuYa extractor of room 55 with a refresh interval of 7200
    seconds, and the same extractor after one [switch_cdn] request served by
    [env_ok], both written out. *)
Definition huya_new : St := Eval vm_compute in fresh HuYa "55" 7200.

Definition huya_switched : St :=
  Eval vm_compute in
    snd (HuYaRealUrlExtractor.get_real_url env_ok (Some "switch_cdn") huya_new).

(** The HuYa extractor of room 55 after a first request served while the
    client still answers ([env_huya_crash]): it is resolved and its refresh
    timer is pending. *)
Definition huya_running : St :=
  Eval vm_compute in run_event env_huya_crash (Request None) huya_new.

(** A new DouYu extractor (interval 7200) whose client has just failed:
    [real_url] holds the sentinel ['None']. *)
Definition douyu_failed : St :=
  Eval vm_compute in
    (set_real_url (VStr "None") (fst (fresh DouYu "9" 7200)),
     snd (fresh DouYu "9" 7200)).

(** ** Further properties of the handlers and the extractors *)

(** A computation that returns normally from every state. *)
Definition always_ok {S A} (m : M S A) : Prop :=
  forall s, exists a, fst (m s) = Ok a.

(** A handler step [m] keeps the invariant [I] of the module state and, when
    it returns normally, returns a value that satisfies [Q]. *)
Definition step_spec {A} (I : World -> Prop) (m : M World A) (Q : A -> Prop) : Prop :=
  forall w, I w -> I (snd (m w)) /\ forall a, fst (m w) = Ok a -> Q a.

(** The shared dict still has the three CORS entries. *)
Definition cors_intact (w : World) : Prop :=
  crosHeaders w !! "Access-Control-Allow-Origin" = Some "*" /\
  crosHeaders w !! "Access-Control-Allow-Methods" = Some "GET" /\
  crosHeaders w !! "Access-Control-Allow-Headers"
    = Some "Content-Type, Content-Length, Authorization".

(** A handler step that does not touch [crosHeaders]. *)
Definition keeps_headers {A} (m : M World A) : Prop :=
  forall w, crosHeaders (snd (m w)) = crosHeaders w.

(** What a redirect must look like: status 301 and the CORS headers. *)
Definition redirect_ok (r : Response) : Prop :=
  match r with
  | response_redirect _ _ st => st = 301 /\ carries_cors r
  | response_text _ _ _ => True
  end.

(** The selector policy of the Bilibili extractor: prefer [hls_url], else
    index [flv_url]. *)
Definition bilibili_answer (m : gmap string string) : result (option string) :=
  match m !! "hls_url" with
  | Some u => Ok (Some u)
  | None =>
      match m !! "flv_url" with
      | Some u => Ok (Some u)
      | None => Raise (KeyError "flv_url")
      end
  end.

(** What the client of a DouYu or Bilibili extractor answers at the current
    tick. *)
Definition client_answer (env : Env) (c : provider) (st : St) : result pyval :=
  match c with
  | DouYu => DouYu_get_real_url env (room (fst st)) (tick (snd st))
  | Bilibili => BiliBili_get_real_url env (room (fst st)) (tick (snd st))
  | HuYa => Raise (External "not a single-CDN provider")
  end.

(** The timer discipline of an extractor: it has its [refresh_timer]
    attribute when it needs one, and no pending timer of its own besides
    that one. *)
Definition schedule_ok (st : St) : Prop :=
  timer_attr_ok (fst st) /\ owns_pending st.

(** Two states of an extractor with the same identity, interval, timer
    handle and timers. *)
Definition same_schedule (st st' : St) : Prop :=
  cls (fst st') = cls (fst st) /\ room (fst st') = room (fst st) /\
  auto_refresh_interval (fst st') = auto_refresh_interval (fst st) /\
  refresh_timer (fst st') = refresh_timer (fst st) /\
  timers (snd st') = timers (snd st).

(** A handler step that keeps the property [Inv] of the module state,
    whether it returns or raises. *)
Definition preserves {A} (Inv : World -> Prop) (m : M World A) : Prop :=
  forall w, Inv w -> Inv (snd (m w)).

(** A manifest without a segment line. *)
Definition playlist_only : string :=
  "#EXTM3U" +:+ newline +:+ "#EXT-X-STREAM-INF:BANDWIDTH=1" +:+ newline
  +:+ "live.m3u8".

(** A HuYa room with one CDN endpoint and three variants. *)
Definition env_one_cdn : Env :=
  {| DouYu_get_real_url := fun _ _ => Raise (External "offline");
     BiliBili_get_real_url := fun _ _ => Raise (External "offline");
     huya_update_live_url_info := fun _ _ => Ok [cdn "0"];
     huya_get_real_url := fun _ _ _ => Ok ["v0"; "v1"; "v2"];
     requests_get := fun _ _ => Ok (200, sample_manifest);
     re_sub_escaped := fun _ _ => Raise (External "re.error");
     datetime_now := clock |}.

(** [huya_running] at the moment its refresh timer has expired: the timer
    is spent and the timer thread is about to call [refresh_real_url]. *)
Definition huya_expired : St :=
  Eval vm_compute in snd (alter_timer fire_timer 1 huya_running).

(** An endpoint whose base URL has a backslash, and a world whose registry
    holds a HuYa extractor for room 55 that uses it.  [re.sub] rejects the
    template made from this base (bad escape), as [env_ok] has it. *)
Definition cdn_backslash : cdn_info :=
  {| info_hls_url := "http://cdn/live.m3u8";
     info_base_url := "http://cdn" +:+ backslash +:+ "live";
     info_stream_name := "live" |}.

Definition world_backslash : World :=
  store_extractor "huya" "55"
    (set_cdn_index 0 (set_live_url_infos [cdn_backslash] (fst (fresh HuYa "55" 0))))
    (initial_world 0).

(** ** The statements of [reset_refresh_timer], one at a time

    [refresh_real_url] holds [RealUrlExtractor.lock] while it runs, but
    [get_real_url] calls [_extract_real_url] without it (line 100): a request
    can run [reset_refresh_timer] between two statements of the execution
    the timer thread is in.  Each statement reads [self.refresh_timer] when
    it runs.  The three definitions are for a positive interval. *)

Definition held_timer (e : Extractor) : result nat :=
  match refresh_timer e with
  | Some h => Ok h
  | None => Raise (AttributeError "refresh_timer")
  end.

(** Line 62: [self.refresh_timer.cancel()] *)
Definition reset_cancel : M St unit :=
  e <- self ;;
  h <- lift (held_timer e) ;;
  Timer_cancel h.

(** Lines 63-67: [self.refresh_timer = Timer(refresh_interval, ...)] *)
Definition reset_assign (failover : bool) : M St unit :=
  e <- self ;;
  h <- Timer_new (if failover then Qhalf (auto_refresh_interval e)
                  else inject_Z (auto_refresh_interval e)) ;;
  update_self (set_refresh_timer (Some h)).

(** Line 68: [self.refresh_timer.start()] *)
Definition reset_start : M St unit :=
  e <- self ;;
  h <- lift (held_timer e) ;;
  Timer_start h.

(** One execution of [reset_refresh_timer], interrupted after line 62 by a
    whole other execution. *)
Definition interrupted_reset (failover_timer failover_request : bool) : M St unit :=
  reset_cancel ;;
  RealUrlExtractor.reset_refresh_timer failover_request ;;
  reset_assign failover_timer ;;
  reset_start.

(** ** Basic facts *)

Lemma sel_eq_true b s : sel_eq b s = true <-> b = Some s.
Proof.
  destruct b as [b|]; simpl; [|split; discriminate].
  rewrite String.eqb_eq. split; congruence.
Qed.

Lemma sel_eq_false b s : b <> Some s -> sel_eq b s = false.
Proof.
  intros H. destruct (sel_eq b s) eqn:E; [|reflexivity].
  apply sel_eq_true in E. contradiction.
Qed.

Lemma no_bit_rate_not_refresh b : no_bit_rate b = true -> b <> Some "refresh".
Proof. intros H ->. discriminate H. Qed.

Lemma alter_app_last {A} (f : A -> A) (l : list A) (x : A) :
  alter f (length l) (l ++ [x])%list = (l ++ [f x])%list.
Proof.
  induction l as [|a l IH]; simpl; [reflexivity|].
  f_equal. exact IH.
Qed.

(** ** The DouYu selector policy *)

Lemma douyu_get_real_url_dict env e s m sel :
  real_url e = VDict m -> sel <> Some "refresh" ->
  DouYuRealUrlExtractor.get_real_url env sel (e, s) =
    (if no_bit_rate sel then spec_douyu_default m else Ok (m !! default "" sel),
     (e, s)).
Proof.
  intros Hm Hsel.
  unfold DouYuRealUrlExtractor.get_real_url, RealUrlExtractor.get_real_url.
  unfold bind at 1. unfold bind at 1. unfold self at 1. cbn [fst snd].
  rewrite Hm. cbn [py_is_none orb].
  rewrite (sel_eq_false _ _ Hsel). unfold ret at 1.
  unfold bind, self, lift, ret. cbn [fst snd]. rewrite Hm. cbn.
  destruct (no_bit_rate sel) eqn:Hn.
  - unfold spec_douyu_default.
    destruct (m !! "flv") eqn:E1.
    + rewrite bool_decide_eq_true_2 by eauto. reflexivity.
    + rewrite bool_decide_eq_false_2 by (intros [? ?]; discriminate).
      destruct (m !! "2000p") eqn:E2.
      * rewrite bool_decide_eq_true_2 by eauto. reflexivity.
      * rewrite bool_decide_eq_false_2 by (intros [? ?]; discriminate).
        destruct (m !! "900p"); reflexivity.
  - destruct (m !! default "" sel) eqn:E.
    + rewrite bool_decide_eq_true_2 by eauto. reflexivity.
    + rewrite bool_decide_eq_false_2 by (intros [? ?]; discriminate). reflexivity.
Qed.

(** C10: a DouYu resolution map is valid whatever its keys; when it has
    neither [flv] nor [2000p], a request with an absent or empty selector
    indexes [900p] unconditionally, and for a map that lacks [900p] too the
    call raises KeyError instead of returning None. *)
Theorem C10_douyu_default_indexes_900p env e s m bit_rate :
  real_url e = VDict m ->
  no_bit_rate bit_rate = true ->
  m !! "flv" = None -> m !! "2000p" = None ->
  DouYuRealUrlExtractor._is_url_valid (real_url e) = true /\
  fst (DouYuRealUrlExtractor.get_real_url env bit_rate (e, s))
    = match py_getitem (VDict m) "900p" with
      | Ok u => Ok (Some u)
      | Raise x => Raise x
      end /\
  (m !! "900p" = None ->
   fst (DouYuRealUrlExtractor.get_real_url env bit_rate (e, s))
     = Raise (KeyError "900p")).
Proof.
  intros Hm Hsel Hflv H2000.
  rewrite (douyu_get_real_url_dict env e s m bit_rate Hm
             (no_bit_rate_not_refresh _ Hsel)).
  rewrite Hsel, Hm. unfold spec_douyu_default. rewrite Hflv, H2000. cbn.
  split; [reflexivity|]. split.
  - destruct (m !! "900p"); reflexivity.
  - intros ->. reflexivity.
Qed.

Lemma C10_witness :
  fst (DouYuRealUrlExtractor.get_real_url env_ok None
         (extractor_with DouYu "9" (VDict (<["4000p" := "X"]> ∅)), sys0))
    = Raise (KeyError "900p").
Proof.
  apply (C10_douyu_default_indexes_900p env_ok
           (extractor_with DouYu "9" (VDict (<["4000p" := "X"]> ∅)))
           sys0 (<["4000p" := "X"]> ∅) None);
    reflexivity.
Defined.

(** ** The refresh step *)

Lemma reset_refresh_timer_pos e s failover h :
  0 < auto_refresh_interval e -> refresh_timer e = Some h ->
  RealUrlExtractor.reset_refresh_timer failover (e, s) =
    (Ok tt, (set_refresh_timer (Some (length (timers s))) e,
             set_timers (alter cancel_timer h (timers s)
                         ++ [new_timer e failover])%list s)).
Proof.
  intros Hpos Hh.
  unfold RealUrlExtractor.reset_refresh_timer.
  unfold bind, self, lift, ret, Timer_cancel, Timer_start, alter_timer,
    Timer_new, update_self.
  cbn [fst snd]. apply Z.ltb_lt in Hpos. rewrite Hpos, Hh.
  cbn [fst snd timers set_timers cls room].
  rewrite alter_app_last, length_alter. reflexivity.
Qed.

Lemma reset_refresh_timer_nonpos e s failover :
  auto_refresh_interval e <= 0 ->
  RealUrlExtractor.reset_refresh_timer failover (e, s) = (Ok tt, (e, s)).
Proof.
  intros H. unfold RealUrlExtractor.reset_refresh_timer, bind, self, ret. cbn.
  apply Z.ltb_ge in H. rewrite H. reflexivity.
Qed.

Lemma resolved_fields valid e :
  cls (resolved valid e) = cls e /\ room (resolved valid e) = room e /\
  auto_refresh_interval (resolved valid e) = auto_refresh_interval e /\
  refresh_timer (resolved valid e) = refresh_timer e.
Proof.
  unfold resolved.
  destruct (valid (real_url e)); [repeat split|].
  destruct (negb (py_is_none (last_valid_real_url e))); repeat split.
Qed.

Lemma validity_step (valid : pyval -> bool) (e : Extractor) (s : Sys) :
  ((if valid (real_url e)
    then bind (update_self (set_last_valid_real_url (real_url e)))
              (fun _ => ret false)
    else if negb (py_is_none (last_valid_real_url e))
         then bind (update_self (set_real_url (last_valid_real_url e)))
                   (fun _ => ret true)
         else ret true) : M St bool) (e, s)
  = (Ok (negb (valid (real_url e))), (resolved valid e, s)).
Proof.
  unfold resolved. destruct (valid (real_url e)); [reflexivity|].
  destruct (negb (py_is_none (last_valid_real_url e))); reflexivity.
Qed.

Lemma base_extract_eq env valid st :
  timer_attr_ok (fst st) ->
  RealUrlExtractor._extract_real_url env valid st = (Ok tt, refreshed env valid st).
Proof.
  destruct st as [e s]. intros Hok. cbn [fst] in Hok.
  destruct (resolved_fields valid e) as (Hc & Hr & Hi & Ht).
  unfold RealUrlExtractor._extract_real_url, refreshed. cbn [fst snd].
  unfold bind at 1. unfold self at 1. cbn [fst snd].
  unfold bind at 1. rewrite validity_step.
  unfold bind at 1. unfold now at 1. cbn [fst snd].
  unfold bind at 1. unfold update_self at 1. cbn [fst snd].
  unfold bind at 1.
  destruct (Z.ltb_spec 0 (auto_refresh_interval e)) as [Hpos|Hle].
  - destruct (Hok Hpos) as [h Hh]. rewrite Hh.
    rewrite (reset_refresh_timer_pos _ _ _ h).
    2:{ cbn. rewrite Hi. exact Hpos. }
    2:{ cbn. rewrite Ht. exact Hh. }
    cbn [timers next_tick].
    assert (Hn : forall b,
      new_timer (set_last_refresh_time (datetime_now env (tick s))
                   (resolved valid e)) b = new_timer e b).
    { intros b. unfold new_timer. cbn. rewrite Hc, Hr, Hi. reflexivity. }
    rewrite Hn.
    destruct (valid (real_url e)); reflexivity.
  - rewrite reset_refresh_timer_nonpos by (cbn; rewrite Hi; exact Hle).
    destruct (refresh_timer e); destruct (valid (real_url e)); reflexivity.
Qed.

Lemma refreshed_fields env valid st :
  let e := fst st in
  let e' := fst (refreshed env valid st) in
  cls e' = cls e /\ room e' = room e /\
  auto_refresh_interval e' = auto_refresh_interval e /\
  real_url e' = real_url (resolved valid e) /\
  last_valid_real_url e' = last_valid_real_url (resolved valid e) /\
  live_url_infos e' = live_url_infos e /\ cdn_index e' = cdn_index e /\
  last_real_urls e' = last_real_urls e /\
  last_get_real_url_time e' = last_get_real_url_time e.
Proof.
  destruct st as [e s]. cbn [fst].
  assert (H : live_url_infos (resolved valid e) = live_url_infos e /\
              cdn_index (resolved valid e) = cdn_index e /\
              last_real_urls (resolved valid e) = last_real_urls e /\
              last_get_real_url_time (resolved valid e) = last_get_real_url_time e).
  { unfold resolved. destruct (valid (real_url e)); [repeat split|].
    destruct (negb (py_is_none (last_valid_real_url e))); repeat split. }
  destruct H as (H1 & H2 & H3 & H4).
  destruct (resolved_fields valid e) as (Hc & Hr & Hi & Ht).
  unfold refreshed. cbn [fst snd].
  destruct (refresh_timer e); [destruct (0 <? auto_refresh_interval e)|];
    cbn; repeat split; assumption.
Qed.

Lemma refreshed_timer_attr_ok env valid st :
  timer_attr_ok (fst st) -> timer_attr_ok (fst (refreshed env valid st)).
Proof.
  destruct st as [e s]. unfold timer_attr_ok. cbn [fst]. intros Hok Hpos.
  destruct (refreshed_fields env valid (e, s)) as (_ & _ & Hi & _).
  cbn [fst] in Hi. rewrite Hi in Hpos. specialize (Hok Hpos).
  destruct Hok as [h Hh].
  destruct (resolved_fields valid e) as (Hc & Hr & Hi' & Ht).
  unfold refreshed. cbn [fst snd]. rewrite Hh.
  apply Z.ltb_lt in Hpos. rewrite Hpos. cbn. eauto.
Qed.

Lemma douyu_extract_eq env e s :
  timer_attr_ok e ->
  DouYuRealUrlExtractor._extract_real_url env (e, s) =
    (Ok tt,
     refreshed env DouYuRealUrlExtractor._is_url_valid
       (set_real_url (or_sentinel (DouYu_get_real_url env (room e) (tick s))) e,
        next_tick s)).
Proof.
  intros Hok.
  unfold DouYuRealUrlExtractor._extract_real_url.
  unfold bind at 1. unfold self at 1. cbn [fst snd].
  unfold bind at 1.
  unfold try_except, bind, external, update_self. cbn [fst snd].
  destruct (DouYu_get_real_url env (room e) (tick s)) as [v|x];
    cbn [or_sentinel]; apply base_extract_eq; exact Hok.
Qed.

Lemma bilibili_extract_eq env e s :
  timer_attr_ok e ->
  BilibiliRealUrlExtractor._extract_real_url env (e, s) =
    (Ok tt,
     refreshed env BilibiliRealUrlExtractor._is_url_valid
       (set_real_url (or_sentinel (BiliBili_get_real_url env (room e) (tick s))) e,
        next_tick s)).
Proof.
  intros Hok.
  unfold BilibiliRealUrlExtractor._extract_real_url.
  unfold bind at 1. unfold self at 1. cbn [fst snd].
  unfold bind at 1.
  unfold try_except, bind, external, update_self. cbn [fst snd].
  destruct (BiliBili_get_real_url env (room e) (tick s)) as [v|x];
    cbn [or_sentinel]; apply base_extract_eq; exact Hok.
Qed.

Lemma bind_ext {S A B} (m1 m2 : M S A) (k1 k2 : A -> M S B) st1 st2 a1 a2 st :
  m1 st1 = (Ok a1, st) -> m2 st2 = (Ok a2, st) -> k1 a1 st = k2 a2 st ->
  bind m1 k1 st1 = bind m2 k2 st2.
Proof. intros H1 H2 H3. unfold bind. rewrite H1, H2. exact H3. Qed.

Lemma bind_ok {S A B} (m : M S A) (k : A -> M S B) st a st' :
  m st = (Ok a, st') -> bind m k st = k a st'.
Proof. intros H. unfold bind. rewrite H. reflexivity. Qed.

Lemma super_get_real_url_cached extract sel e s :
  py_is_none (real_url e) = false -> sel <> Some "refresh" ->
  RealUrlExtractor.get_real_url extract sel (e, s) = (Ok tt, (e, s)).
Proof.
  intros Hnn Hsel. unfold RealUrlExtractor.get_real_url, bind, self.
  cbn [fst snd]. rewrite Hnn, (sel_eq_false _ _ Hsel). reflexivity.
Qed.

Lemma super_get_real_url_refresh extract e s :
  RealUrlExtractor.get_real_url extract (Some "refresh") (e, s) = extract (e, s).
Proof.
  unfold RealUrlExtractor.get_real_url, bind, self. cbn [fst snd].
  replace (sel_eq (Some "refresh") "refresh") with true by reflexivity.
  rewrite orb_true_r. destruct (extract (e, s)) as [[[]|x] st']; reflexivity.
Qed.

Lemma super_get_real_url_first extract sel e s :
  real_url e = VNone ->
  RealUrlExtractor.get_real_url extract sel (e, s) = extract (e, s).
Proof.
  intros Hn. unfold RealUrlExtractor.get_real_url, bind, self. cbn [fst snd].
  rewrite Hn. cbn [py_is_none orb].
  destruct (extract (e, s)) as [[[]|x] st']; reflexivity.
Qed.

Lemma douyu_refresh_then_default env e s :
  timer_attr_ok e ->
  let st' := snd (DouYuRealUrlExtractor._extract_real_url env (e, s)) in
  py_is_none (real_url (fst st')) = false ->
  DouYuRealUrlExtractor.get_real_url env (Some "refresh") (e, s)
  = DouYuRealUrlExtractor.get_real_url env None st'.
Proof.
  intros Hok. cbn zeta.
  pose proof (douyu_extract_eq env e s Hok) as Hex. rewrite Hex. cbn [snd].
  remember (refreshed env DouYuRealUrlExtractor._is_url_valid
              (set_real_url (or_sentinel (DouYu_get_real_url env (room e) (tick s))) e,
               next_tick s)) as st' eqn:E in *.
  destruct st' as [e' s']. cbn [fst]. intros Hnn.
  unfold DouYuRealUrlExtractor.get_real_url.
  apply (bind_ext _ _ _ _ _ _ tt tt (e', s')).
  - rewrite super_get_real_url_refresh. exact Hex.
  - apply super_get_real_url_cached; [exact Hnn|discriminate].
  - reflexivity.
Qed.

(** C4, as the code has it: for a DouYu resolution map [m] (any map passes
    the validity predicate), an absent or empty selector gives [m["flv"]],
    else [m["2000p"]], else indexes [m["900p"]]; any other selector [s]
    except the command [refresh] gives [m[s]], or None when [s] is not a
    key; the selector [refresh] forces a new resolution and is then treated
    as absent. *)
Theorem C4_douyu_selector_policy env e s m sel :
  real_url e = VDict m ->
  DouYuRealUrlExtractor._is_url_valid (real_url e) = true /\
  (sel <> Some "refresh" ->
   DouYuRealUrlExtractor.get_real_url env sel (e, s) =
     (if no_bit_rate sel then spec_douyu_default m
      else Ok (m !! default "" sel), (e, s))) /\
  (sel = Some "refresh" -> timer_attr_ok e ->
   forall m', DouYu_get_real_url env (room e) (tick s) = Ok (VDict m') ->
   fst (DouYuRealUrlExtractor.get_real_url env sel (e, s))
     = spec_douyu_default m').
Proof.
  intros Hm. split; [rewrite Hm; reflexivity|]. split.
  - intros Hsel. apply douyu_get_real_url_dict; assumption.
  - intros -> Hok m' Hclient.
    pose proof (douyu_extract_eq env e s Hok) as Hex.
    rewrite Hclient in Hex. cbn [or_sentinel] in Hex.
    destruct (refreshed_fields env DouYuRealUrlExtractor._is_url_valid
                (set_real_url (VDict m') e, next_tick s))
      as (_ & _ & _ & Hurl & _).
    cbn [fst] in Hurl. unfold resolved in Hurl. cbn in Hurl.
    rewrite douyu_refresh_then_default; [|exact Hok|].
    + rewrite Hex. cbn [snd].
      destruct (refreshed env DouYuRealUrlExtractor._is_url_valid
                  (set_real_url (VDict m') e, next_tick s)) as [e' s'] eqn:E.
      cbn [fst] in Hurl.
      rewrite (douyu_get_real_url_dict env e' s' m' None Hurl) by discriminate.
      reflexivity.
    + rewrite Hex. cbn [snd]. rewrite Hurl. reflexivity.
Qed.

(** The examples of C4: with [{"flv": "A", "900p": "B"}], an absent
    selector gives "A", "900p" gives "B", "4000p" gives None. *)
Lemma C4_witness :
  let e := extractor_with DouYu "9" (VDict map_A_B) in
  fst (DouYuRealUrlExtractor.get_real_url env_A_B None (e, sys0)) = Ok (Some "A") /\
  fst (DouYuRealUrlExtractor.get_real_url env_A_B (Some "900p") (e, sys0)) = Ok (Some "B") /\
  fst (DouYuRealUrlExtractor.get_real_url env_A_B (Some "4000p") (e, sys0)) = Ok None.
Proof.
  intros e.
  pose proof (C4_douyu_selector_policy env_A_B e sys0 map_A_B None eq_refl) as H1.
  pose proof (C4_douyu_selector_policy env_A_B e sys0 map_A_B (Some "900p") eq_refl) as H2.
  pose proof (C4_douyu_selector_policy env_A_B e sys0 map_A_B (Some "4000p") eq_refl) as H3.
  destruct H1 as (_ & H1 & _). destruct H2 as (_ & H2 & _). destruct H3 as (_ & H3 & _).
  rewrite H1, H2, H3 by discriminate.
  repeat split.
Defined.

(** C4 as stated fails at the selector [refresh]: it is neither absent nor
    empty and it is not a key of [{"flv": "A", "900p": "B"}], so the claim
    gives None; the code resolves again and answers with the [flv] entry. *)
Lemma C4_counterexample :
  let e := extractor_with DouYu "9" (VDict map_A_B) in
  no_bit_rate (Some "refresh") = false /\
  map_A_B !! "refresh" = None /\
  real_url e = VDict map_A_B /\
  fst (DouYuRealUrlExtractor.get_real_url env_A_B (Some "refresh") (e, sys0))
    = Ok (Some "A").
Proof. vm_compute. repeat split. Qed.

(** ** The request handlers *)

Lemma load_name_self w : load_name "self" w = (Raise (NameError "self"), w).
Proof. reflexivity. Qed.

Lemma not_found_eq w :
  not_found w =
    (Ok (response_text "Not Found" None 404),
     set_crosHeaders
       (<["Content-type" := "text/html; charset=gb2312"]>
          (<["Content-Length" := "9"]> ∅) ∪ crosHeaders w) w).
Proof. reflexivity. Qed.

(** A DouYu request for a room that has no extractor yet: building the
    extractor reads the unbound name [self], the NameError is caught and
    logged, nothing is stored, and the answer is the 404 response. *)
Lemma douyu_request_not_found env w rm sel :
  (processor_maps w !! "douyu" ≫= (fun pm => pm !! rm)) = None ->
  let out := serviceWithRate env "douyu" rm sel w in
  fst out = Ok (response_text "Not Found" None 404) /\
  processor_maps (snd out) !! "douyu"
    = Some (default ∅ (processor_maps w !! "douyu")).
Proof.
  intros Hnew. cbn zeta.
  destruct (processor_maps w !! "douyu") as [pm|] eqn:Hpm.
  - cbn in Hnew.
    eassert (Hout : serviceWithRate env "douyu" rm sel w = (_, _)).
    { unfold serviceWithRate.
      replace (String.eqb "douyu" "douyu") with true by reflexivity.
      unfold bind at 1. unfold world_log at 1. cbn [fst snd].
      unfold bind at 1. unfold bind at 1.
      unfold ensure_provider_map at 1. cbn [processor_maps set_sys].
      rewrite Hpm.
      unfold try_except. unfold bind at 1. unfold room_is_new at 1.
      cbn [processor_maps set_sys]. rewrite Hpm.
      rewrite bool_decide_eq_true_2 by exact Hnew.
      unfold bind at 1. unfold bind at 1. rewrite load_name_self.
      unfold bind at 1. unfold world_log at 1. cbn [fst snd].
      unfold ret at 1. rewrite not_found_eq. reflexivity. }
    rewrite Hout.
    cbn [fst snd processor_maps set_crosHeaders set_sys]. rewrite Hpm.
    split; reflexivity.
  - eassert (Hout : serviceWithRate env "douyu" rm sel w = (_, _)).
    { unfold serviceWithRate.
      replace (String.eqb "douyu" "douyu") with true by reflexivity.
      unfold bind at 1. unfold world_log at 1. cbn [fst snd].
      unfold bind at 1. unfold bind at 1.
      unfold ensure_provider_map at 1. cbn [processor_maps set_sys].
      rewrite Hpm.
      unfold try_except. unfold bind at 1. unfold room_is_new at 1.
      cbn [processor_maps set_sys set_processor_maps].
      rewrite lookup_insert_eq.
      rewrite bool_decide_eq_true_2 by apply lookup_empty.
      unfold bind at 1. unfold bind at 1. rewrite load_name_self.
      unfold bind at 1. unfold world_log at 1. cbn [fst snd].
      unfold ret at 1. rewrite not_found_eq. reflexivity. }
    rewrite Hout.
    cbn [fst snd processor_maps set_crosHeaders set_sys set_processor_maps].
    rewrite lookup_insert_eq.
    split; reflexivity.
Qed.

Lemma bind_ok_inv {S A B} (m : M S A) (k : A -> M S B) s b s2 :
  bind m k s = (Ok b, s2) ->
  exists a s1, m s = (Ok a, s1) /\ k a s1 = (Ok b, s2).
Proof.
  unfold bind. destruct (m s) as [[a|x] s1]; intros H; [eauto|discriminate].
Qed.

Lemma try_except_ok_inv {S A} (m : M S A) (h : exn -> M S A) s a s2 :
  try_except m h s = (Ok a, s2) ->
  m s = (Ok a, s2) \/ exists x s1, m s = (Raise x, s1) /\ h x s1 = (Ok a, s2).
Proof.
  unfold try_except. destruct (m s) as [[a'|x] s1]; intros H; [left|right; eauto].
  exact H.
Qed.

Lemma redirect_to_shape o w r w' :
  redirect_to o w = (Ok (Some r), w') -> response_shape r.
Proof.
  destruct o as [u|]; cbn; intros H; [|discriminate].
  injection H as <- _. left. eauto.
Qed.

Lemma manifest_proxy_shape env rm u w r w' :
  manifest_proxy env rm u w = (Ok r, w') -> response_shape r.
Proof.
  unfold manifest_proxy. intros H.
  apply bind_ok_inv in H as (fetched & w1 & _ & H).
  apply bind_ok_inv in H as (outcome & w2 & _ & H).
  cbn zeta in H.
  apply bind_ok_inv in H as (content & w3 & _ & H).
  apply bind_ok_inv in H as ([] & w4 & _ & H).
  apply bind_ok_inv in H as (h & w5 & Hh & H).
  unfold crosHeaders_update in Hh. injection Hh as <- _.
  unfold ret in H. injection H as <- _. right. eauto.
Qed.

Lemma handler_error_none l f a w (r : Response) w' :
  bind (world_log l f a) (fun _ => ret (None : option Response)) w
    = (Ok (Some r), w') -> False.
Proof. cbn. discriminate. Qed.

(** Every response of [serviceWithRate] is a 301 redirect given the shared
    dict, or a text response given None for its headers. *)
Lemma serviceWithRate_shape env p rm sel w r w' :
  serviceWithRate env p rm sel w = (Ok r, w') -> response_shape r.
Proof.
  unfold serviceWithRate. intros H.
  apply bind_ok_inv in H as ([] & w1 & _ & H).
  apply bind_ok_inv in H as (returned & w2 & Hbranch & H).
  destruct returned as [r'|].
  2:{ rewrite not_found_eq in H. injection H as <- _. right. eauto. }
  unfold ret in H. injection H as -> _.
  destruct (String.eqb p "douyu").
  { apply bind_ok_inv in Hbranch as ([] & w3 & _ & Hb).
    apply try_except_ok_inv in Hb as [Hb|(x & w4 & _ & Hb)].
    - apply bind_ok_inv in Hb as (is_new & w4 & _ & Hb).
      apply bind_ok_inv in Hb as ([] & w5 & _ & Hb).
      apply bind_ok_inv in Hb as (u & w6 & _ & Hb).
      eapply redirect_to_shape; exact Hb.
    - exfalso. eapply handler_error_none; exact Hb. }
  destruct (String.eqb p "bilibili").
  { apply bind_ok_inv in Hbranch as ([] & w3 & _ & Hb).
    apply try_except_ok_inv in Hb as [Hb|(x & w4 & _ & Hb)].
    - apply bind_ok_inv in Hb as (is_new & w4 & _ & Hb).
      apply bind_ok_inv in Hb as ([] & w5 & _ & Hb).
      apply bind_ok_inv in Hb as (u & w6 & _ & Hb).
      eapply redirect_to_shape; exact Hb.
    - exfalso. eapply handler_error_none; exact Hb. }
  destruct (String.eqb p "huya").
  { apply bind_ok_inv in Hbranch as ([] & w3 & _ & Hb).
    apply try_except_ok_inv in Hb as [Hb|(x & w4 & _ & Hb)].
    - apply bind_ok_inv in Hb as (is_new & w4 & _ & Hb).
      apply bind_ok_inv in Hb as ([] & w5 & _ & Hb).
      apply bind_ok_inv in Hb as (u & w6 & _ & Hb).
      destruct u as [u|]; [|discriminate Hb].
      apply bind_ok_inv in Hb as (r0 & w7 & Hmp & Hb).
      unfold ret in Hb. injection Hb as <- _.
      eapply manifest_proxy_shape; exact Hmp.
    - exfalso. eapply handler_error_none; exact Hb. }
  discriminate Hbranch.
Qed.

(** [serviceWithRate] never raises: every exception is caught by a handler's
    own [try]. *)
Lemma not_found_ok w : exists w', not_found w = (Ok (response_text "Not Found" None 404), w').
Proof. rewrite not_found_eq. eauto. Qed.

(** *** Requests for other providers leave the DouYu registry alone *)

Lemma keeps_ret {A} (a : A) : keeps_douyu (ret a).
Proof. intros w. reflexivity. Qed.

Lemma keeps_raise {A} x : keeps_douyu (raise x : M World A).
Proof. intros w. reflexivity. Qed.

Lemma keeps_bind {A B} (m : M World A) (k : A -> M World B) :
  keeps_douyu m -> (forall a, keeps_douyu (k a)) -> keeps_douyu (bind m k).
Proof.
  intros Hm Hk w. unfold bind. specialize (Hm w).
  destruct (m w) as [[a|x] w1]; cbn [snd] in *; [|exact Hm].
  rewrite (Hk a w1). exact Hm.
Qed.

Lemma keeps_try_except {A} (m : M World A) (h : exn -> M World A) :
  keeps_douyu m -> (forall x, keeps_douyu (h x)) -> keeps_douyu (try_except m h).
Proof.
  intros Hm Hh w. unfold try_except. specialize (Hm w).
  destruct (m w) as [[a|x] w1]; cbn [snd] in *; [exact Hm|].
  rewrite (Hh x w1). exact Hm.
Qed.

Lemma keeps_attempt {A} (m : M World A) : keeps_douyu m -> keeps_douyu (attempt m).
Proof.
  intros Hm w. unfold attempt. specialize (Hm w).
  destruct (m w) as [r w1]. exact Hm.
Qed.

Lemma keeps_world_log l f a : keeps_douyu (world_log l f a).
Proof. intros w. reflexivity. Qed.

Lemma keeps_crosHeaders_update d : keeps_douyu (crosHeaders_update d).
Proof. intros w. reflexivity. Qed.

Lemma keeps_world_external {A} (f : nat -> result A) : keeps_douyu (world_external f).
Proof. intros w. reflexivity. Qed.

Lemma keeps_load_name n : keeps_douyu (load_name n).
Proof.
  intros w. unfold load_name. destruct (String.eqb n "auto_refresh_interval");
    [reflexivity|]. case_bool_decide; reflexivity.
Qed.

Lemma keeps_as_interval v : keeps_douyu (as_interval v).
Proof. destruct v; intros w; reflexivity. Qed.

Lemma keeps_redirect_to o : keeps_douyu (redirect_to o).
Proof. destruct o; intros w; reflexivity. Qed.

Lemma keeps_not_found : keeps_douyu not_found.
Proof. intros w. reflexivity. Qed.

Lemma keeps_room_is_new p rm : keeps_douyu (room_is_new p rm).
Proof.
  intros w. unfold room_is_new. destruct (processor_maps w !! p); reflexivity.
Qed.

Lemma keeps_ensure_provider_map p : p <> "douyu" -> keeps_douyu (ensure_provider_map p).
Proof.
  intros Hp w. unfold ensure_provider_map.
  destruct (processor_maps w !! p); [reflexivity|].
  cbn. apply lookup_insert_ne. exact Hp.
Qed.

Lemma store_extractor_other p rm e w :
  p <> "douyu" ->
  processor_maps (store_extractor p rm e w) !! "douyu" = processor_maps w !! "douyu".
Proof. intros Hp. cbn. apply lookup_insert_ne. exact Hp. Qed.

Lemma keeps_new_extractor init p rm : p <> "douyu" -> keeps_douyu (new_extractor init p rm).
Proof.
  intros Hp w. unfold new_extractor.
  destruct (init (sys w)) as [[[]|x] [e s']]; cbn [snd]; [|reflexivity].
  rewrite store_extractor_other by exact Hp. reflexivity.
Qed.

Lemma keeps_on_extractor {A} p rm (m : M St A) : p <> "douyu" -> keeps_douyu (on_extractor p rm m).
Proof.
  intros Hp w. unfold on_extractor.
  destruct (processor_maps w !! p ≫= (fun pm => pm !! rm)) as [e|]; [|reflexivity].
  destruct (m (e, sys w)) as [r [e' s']]. cbn [snd].
  rewrite store_extractor_other by exact Hp. reflexivity.
Qed.

Lemma keeps_manifest_proxy env rm u : keeps_douyu (manifest_proxy env rm u).
Proof.
  unfold manifest_proxy.
  apply keeps_bind; [apply keeps_attempt, keeps_world_external|]. intros fetched.
  apply keeps_bind.
  { destruct fetched as [[code body]|x]; [|apply keeps_ret].
    apply keeps_bind; [apply keeps_attempt, keeps_on_extractor; discriminate|].
    intros [b|x]; [destruct (re_sub_ts env b body)|]; apply keeps_ret. }
  intros outcome. cbn zeta.
  apply keeps_bind.
  { destruct (snd outcome); [apply keeps_ret|].
    apply keeps_bind; [apply keeps_on_extractor; discriminate|].
    intros _. apply keeps_ret. }
  intros content. apply keeps_bind.
  { destruct (fst outcome =? 403); [apply keeps_on_extractor; discriminate|apply keeps_ret]. }
  intros _. apply keeps_bind; [apply keeps_crosHeaders_update|].
  intros h. apply keeps_ret.
Qed.

Lemma keeps_serviceWithRate env p rm sel :
  p <> "douyu" -> keeps_douyu (serviceWithRate env p rm sel).
Proof.
  intros Hp. unfold serviceWithRate.
  apply keeps_bind; [apply keeps_world_log|]. intros _.
  apply keeps_bind.
  2:{ intros [r|]; [apply keeps_ret|apply keeps_not_found]. }
  destruct (String.eqb_spec p "douyu") as [->|_]; [contradiction|].
  destruct (String.eqb p "bilibili").
  { apply keeps_bind; [apply keeps_ensure_provider_map; exact Hp|]. intros _.
    apply keeps_try_except.
    - apply keeps_bind; [apply keeps_room_is_new|]. intros is_new.
      apply keeps_bind.
      { destruct is_new; [|apply keeps_ret].
        apply keeps_bind; [apply keeps_load_name|]. intros a.
        apply keeps_bind; [apply keeps_as_interval|]. intros interval.
        apply keeps_new_extractor; exact Hp. }
      intros _. apply keeps_bind; [apply keeps_on_extractor; exact Hp|].
      intros u. apply keeps_redirect_to.
    - intros x. apply keeps_bind; [apply keeps_world_log|]. intros _. apply keeps_ret. }
  destruct (String.eqb p "huya").
  { apply keeps_bind; [apply keeps_ensure_provider_map; exact Hp|]. intros _.
    apply keeps_try_except.
    - apply keeps_bind; [apply keeps_room_is_new|]. intros is_new.
      apply keeps_bind.
      { destruct is_new; [|apply keeps_ret].
        apply keeps_bind; [apply keeps_load_name|]. intros a.
        apply keeps_bind; [apply keeps_as_interval|]. intros interval.
        apply keeps_new_extractor; exact Hp. }
      intros _. apply keeps_bind; [apply keeps_on_extractor; exact Hp|].
      intros [u|]; [|apply keeps_ret].
      apply keeps_bind; [apply keeps_manifest_proxy|]. intros r. apply keeps_ret.
    - intros x. apply keeps_bind; [apply keeps_world_log|]. intros _. apply keeps_ret. }
  apply keeps_ret.
Qed.

Lemma on_extractor_missing {A} p rm (m : M St A) w :
  (processor_maps w !! p ≫= (fun pm => pm !! rm)) = None ->
  on_extractor p rm m w = (Raise (KeyError rm), w).
Proof. intros H. unfold on_extractor. rewrite H. reflexivity. Qed.

Lemma reachable_no_douyu_extractor env w :
  reachable env w -> no_douyu_extractor w.
Proof.
  induction 1 as [interval|w p rm sel Hw IH|w p rm Hw IH]; intros rm'.
  - reflexivity.
  - destruct (String.eqb_spec p "douyu") as [->|Hp].
    + destruct (douyu_request_not_found env w rm sel (IH rm)) as [_ Hreg].
      rewrite Hreg. cbn. specialize (IH rm').
      destruct (processor_maps w !! "douyu") as [pm|]; [exact IH|].
      apply lookup_empty.
    + rewrite (keeps_serviceWithRate env p rm sel Hp w). apply IH.
  - destruct (String.eqb_spec p "douyu") as [->|Hp].
    + rewrite on_extractor_missing by apply IH. apply IH.
    + rewrite (keeps_on_extractor p rm (timer_fires env) Hp w). apply IH.
Qed.

(** C1, what the code does: whatever the DouYu client returns, a request
    for [/douyu/room] is answered with the 404 response, in every world the
    server can reach.  The handler builds the extractor with
    [self.auto_refresh_interval], [self] is not bound in [serviceWithRate],
    and the NameError is caught by the handler's [except]; no DouYu
    extractor is ever stored, so the next request fails the same way. *)
Theorem C1_douyu_request_answers_404 env w rm sel :
  reachable env w ->
  fst (serviceWithRate env "douyu" rm sel w)
    = Ok (response_text "Not Found" None 404).
Proof.
  intros Hw.
  apply (douyu_request_not_found env w rm sel).
  apply (reachable_no_douyu_extractor env w Hw).
Qed.

(** [GET /douyu/123] with a client that returns [{"flv": "http://x"}]. *)
Lemma C1_witness :
  DouYu_get_real_url env_ok "123" 0%nat = Ok (VDict (<["flv" := "http://x"]> ∅)) /\
  fst (service env_ok "douyu" "123" (initial_world 7200))
    = Ok (response_text "Not Found" None 404).
Proof.
  split; [reflexivity|].
  apply (C1_douyu_request_answers_404 env_ok (initial_world 7200) "123" None).
  apply reachable_initial.
Defined.

Lemma text_response_no_cors b st : ~ carries_cors (response_text b None st).
Proof. intros (h & Hh & _). discriminate Hh. Qed.

(** C9, what the code does: the 404 response and the HuYa manifest
    response are built with [headers=crosHeaders.update({...})], and
    [dict.update] returns None, so they carry no CORS header at all; only
    the 301 redirects are given the dict.  A provider other than douyu,
    bilibili and huya gets the 404 response with the body "Not Found". *)
Theorem C9_text_responses_carry_no_cors env p rm sel w r :
  fst (serviceWithRate env p rm sel w) = Ok r ->
  (forall b h st, r = response_text b h st -> h = None /\ ~ carries_cors r) /\
  (p <> "douyu" -> p <> "bilibili" -> p <> "huya" ->
   r = response_text "Not Found" None 404).
Proof.
  intros Hr.
  destruct (serviceWithRate env p rm sel w) as [r' w'] eqn:E.
  cbn [fst] in Hr. subst r'. split.
  - intros b h st ->.
    destruct (serviceWithRate_shape env p rm sel w _ w' E)
      as [(u & h' & Heq)|(b' & st' & Heq)]; [discriminate Heq|].
    injection Heq as -> -> ->. split; [reflexivity|].
    apply text_response_no_cors.
  - intros H1 H2 H3. revert E. unfold serviceWithRate.
    destruct (String.eqb_spec p "douyu"); [contradiction|].
    destruct (String.eqb_spec p "bilibili"); [contradiction|].
    destruct (String.eqb_spec p "huya"); [contradiction|].
    cbn. intros E. injection E as <- _. reflexivity.
Qed.

(** An unknown provider, and a HuYa manifest served with status 200: both
    responses have None for their headers. *)
Lemma C9_witness :
  (fst (service env_ok "youtube" "1" (initial_world 7200))
     = Ok (response_text "Not Found" None 404) /\
   ~ carries_cors (response_text "Not Found" None 404)) /\
  (exists body,
     fst (service env_ok "huya" "55" (initial_world 7200))
       = Ok (response_text body None 200) /\
     ~ carries_cors (response_text body None 200)).
Proof.
  split.
  - pose proof (C9_text_responses_carry_no_cors env_ok "youtube" "1" None
                  (initial_world 7200) (response_text "Not Found" None 404)
                  eq_refl) as [H _].
    split; [reflexivity|]. exact (proj2 (H _ _ _ eq_refl)).
  - eexists.
    assert (E : fst (service env_ok "huya" "55" (initial_world 7200))
                = Ok (response_text
                        ("#EXTM3U" +:+ newline +:+ "base2/1.ts" +:+ newline
                         +:+ "base2/2.ts?k=v") None 200))
      by (vm_compute; reflexivity).
    split; [exact E|].
    exact (proj2 (proj1 (C9_text_responses_carry_no_cors env_ok "huya" "55" None
                           (initial_world 7200) _ E) _ _ _ eq_refl)).
Defined.

(** ** Rescheduling *)

Lemma filter_none {A} (P : A -> Prop) `{!forall x, Decision (P x)} (l : list A) :
  (forall i x, l !! i = Some x -> ~ P x) -> filter P l = [].
Proof.
  induction l as [|a l IH]; intros HP; [reflexivity|].
  rewrite filter_cons_False by exact (HP 0%nat a eq_refl).
  apply IH. intros i x Hi. exact (HP (S i) x Hi).
Qed.

Lemma Qhalf_double n : (Qhalf n * inject_Z 2 == inject_Z n)%Q.
Proof.
  unfold Qhalf. rewrite Qmult_comm. apply Qmult_div_r. discriminate.
Qed.

Lemma pending_cancel_timer t : pending (cancel_timer t) = false.
Proof. unfold pending. cbn. rewrite andb_false_r. reflexivity. Qed.

Lemma refreshed_timers_pos env valid e s h :
  0 < auto_refresh_interval e -> refresh_timer e = Some h ->
  refresh_timer (fst (refreshed env valid (e, s))) = Some (length (timers s)) /\
  timers (snd (refreshed env valid (e, s)))
    = (alter cancel_timer h (timers s)
       ++ [new_timer e (negb (valid (real_url e)))])%list.
Proof.
  intros Hpos Hh. unfold refreshed. cbn [fst snd]. rewrite Hh.
  apply Z.ltb_lt in Hpos. rewrite Hpos. cbn. split; reflexivity.
Qed.

Lemma refreshed_timers_nonpos env valid e s :
  auto_refresh_interval e <= 0 ->
  refresh_timer (fst (refreshed env valid (e, s))) = refresh_timer e /\
  timers (snd (refreshed env valid (e, s))) = timers s.
Proof.
  intros Hle. unfold refreshed. cbn [fst snd].
  apply Z.ltb_ge in Hle. rewrite Hle.
  destruct (resolved_fields valid e) as (_ & _ & _ & Ht).
  destruct (refresh_timer e); cbn; rewrite ?Ht; split; reflexivity.
Qed.

Lemma old_timers_not_pending (e : Extractor) (s : Sys) h :
  owns_pending (e, s) -> refresh_timer e = Some h ->
  forall i t, alter cancel_timer h (timers s) !! i = Some t ->
              ~ (t_owner t = (cls e, room e) /\ pending t = true).
Proof.
  intros Hown Hh i t Hi [Ho Hp].
  destruct (decide (h = i)) as [->|Hne].
  - rewrite list_lookup_alter_eq in Hi.
    destruct (timers s !! i) as [t0|]; [|discriminate].
    cbn in Hi. injection Hi as <-. rewrite pending_cancel_timer in Hp.
    discriminate.
  - rewrite list_lookup_alter_ne in Hi by exact Hne.
    specialize (Hown i t Hi Ho Hp). cbn in Hown. congruence.
Qed.

Lemma refreshed_owns_pending env valid e s :
  timer_attr_ok e -> owns_pending (e, s) -> owns_pending (refreshed env valid (e, s)).
Proof.
  intros Hok Hown.
  destruct (refreshed_fields env valid (e, s)) as (Hc & Hr & _).
  cbn [fst] in Hc, Hr.
  destruct (Z.ltb_spec 0 (auto_refresh_interval e)) as [Hpos|Hle].
  - destruct (Hok Hpos) as [h Hh].
    destruct (refreshed_timers_pos env valid e s h Hpos Hh) as [Ht Hts].
    intros i t Hi Ho Hp. rewrite Hts in Hi. rewrite Hc, Hr in Ho. rewrite Ht.
    apply lookup_app_Some in Hi as [Hi1|[Hlen Hi2]].
    + exfalso. exact (old_timers_not_pending e s h Hown Hh i t Hi1 (conj Ho Hp)).
    + rewrite length_alter in Hlen, Hi2.
      destruct (i - length (timers s))%nat as [|k] eqn:Ek; [|discriminate Hi2].
      f_equal. lia.
  - destruct (refreshed_timers_nonpos env valid e s Hle) as [Ht Hts].
    intros i t Hi Ho Hp. rewrite Hts in Hi. rewrite Hc, Hr in Ho. rewrite Ht.
    exact (Hown i t Hi Ho Hp).
Qed.

(** The base [_extract_real_url], which every override ends with, never
    raises; with a positive interval it cancels
    the timer the extractor holds and leaves exactly one pending timer, the
    new one, whose delay is half the interval when the round failed (the
    resolution is not valid) and the full interval when it succeeded; with
    an interval of 0 (or less) no timer is created, started or cancelled. *)
Lemma base_step_reschedules env valid e s :
  timer_attr_ok e -> owns_pending (e, s) ->
  let failed := negb (valid (real_url e)) in
  let out := RealUrlExtractor._extract_real_url env valid (e, s) in
  fst out = Ok tt /\
  (0 < auto_refresh_interval e ->
   (forall h t, refresh_timer e = Some h -> timers s !! h = Some t ->
                timers (snd (snd out)) !! h = Some (cancel_timer t)) /\
   exists t, pending_timers (snd out) = [t] /\
     refresh_timer (fst (snd out)) = Some (length (timers s)) /\
     timers (snd (snd out)) !! length (timers s) = Some t /\
     (failed = true ->
      (t_interval t * inject_Z 2 == inject_Z (auto_refresh_interval e))%Q) /\
     (failed = false -> t_interval t = inject_Z (auto_refresh_interval e))) /\
  (auto_refresh_interval e <= 0 -> timers (snd (snd out)) = timers s) /\
  owns_pending (snd out).
Proof.
  intros Hok Hown failed out. subst out.
  rewrite (base_extract_eq env valid (e, s) Hok). cbn [fst snd].
  split; [reflexivity|].
  destruct (refreshed_fields env valid (e, s)) as (Hc & Hr & _).
  cbn [fst] in Hc, Hr.
  split; [|split].
  - intros Hpos. destruct (Hok Hpos) as [h Hh].
    destruct (refreshed_timers_pos env valid e s h Hpos Hh) as [Ht Hts].
    split.
    + intros h' t Hh' Hlook. rewrite Hh in Hh'. injection Hh' as <-.
      rewrite Hts. rewrite lookup_app_l.
      * rewrite list_lookup_alter_eq, Hlook. reflexivity.
      * rewrite length_alter. apply lookup_lt_Some in Hlook. exact Hlook.
    + exists (new_timer e failed). split; [|split; [exact Ht|split; [|split]]].
      * unfold pending_timers. rewrite Hts, Hc, Hr, filter_app.
        rewrite (filter_none _ _ (old_timers_not_pending e s h Hown Hh)).
        rewrite filter_cons_True by (split; reflexivity). reflexivity.
      * rewrite Hts. rewrite lookup_app_r by (rewrite length_alter; lia).
        rewrite length_alter, Nat.sub_diag. reflexivity.
      * intros Hf. cbn. rewrite Hf. apply Qhalf_double.
      * intros Hf. cbn. rewrite Hf. reflexivity.
  - intros Hle. apply (refreshed_timers_nonpos env valid e s Hle).
  - apply refreshed_owns_pending; assumption.
Qed.

(** ** The HuYa extractor, step by step *)

Lemma huya_extract_eq env st :
  HuYaRealUrlExtractor._extract_real_url env st = huya_extract_outcome env st.
Proof.
  destruct st as [e s].
  unfold HuYaRealUrlExtractor._extract_real_url, huya_extract_outcome,
    clamp_cdn_index.
  unfold bind, self, external, update_self, lift, ret. cbn [fst snd].
  destruct (huya_update_live_url_info env (room e) (tick s)) as [infos|x];
    [|reflexivity].
  cbn [cdn_index set_live_url_infos].
  destruct (Z.of_nat (length infos) <=? cdn_index e) eqn:Hc;
    destruct (0 <? Z.of_nat (length infos)) eqn:Hn;
    cbn [fst snd cdn_index set_cdn_index set_live_url_infos];
    try reflexivity.
  - destruct (py_index infos 0) as [i|x]; reflexivity.
  - destruct (py_index infos (cdn_index e)) as [i|x]; reflexivity.
Qed.

Lemma cached_real_urls_eq env sel e s :
  HuYaRealUrlExtractor.cached_real_urls env sel (e, s) =
    match last_real_urls e with
    | None => fetch_real_urls env sel (e, s)
    | Some urls =>
        if total_seconds_gt (datetime_now env (tick s) - last_get_real_url_time e) 120
        then fetch_real_urls env sel (e, next_tick s)
        else (Ok urls, (e, next_tick s))
    end.
Proof.
  unfold HuYaRealUrlExtractor.cached_real_urls, fetch_real_urls.
  unfold bind at 1. unfold self at 1. cbn [fst snd].
  unfold bind at 1.
  destruct (last_real_urls e) as [urls|] eqn:Hl.
  - unfold bind at 1. unfold now at 1. cbn [fst snd]. unfold ret at 1.
    destruct (total_seconds_gt _ 120); [|reflexivity].
    unfold bind, external, update_self, now, ret. cbn [fst snd tick next_tick].
    destruct (huya_get_real_url env (room e) sel (S (tick s))); reflexivity.
  - unfold ret at 1.
    unfold bind, external, update_self, now, ret. cbn [fst snd tick next_tick].
    destruct (huya_get_real_url env (room e) sel (tick s)); reflexivity.
Qed.

Lemma huya_select_eq urls st :
  (if 0 <? Z.of_nat (length urls)
   then bind self (fun e =>
          bind (if Z.of_nat (length urls) <=? cdn_index e
                then update_self (set_cdn_index 0) else ret tt)
            (fun _ => bind self (fun e1 =>
               bind (lift (py_index urls (cdn_index e1)))
                 (fun u => ret (Some u)))))
   else ret None) st = select_url urls st.
Proof.
  destruct st as [e s]. unfold select_url, clamp_cdn_index. cbn [fst snd].
  destruct (0 <? Z.of_nat (length urls)); [|reflexivity].
  unfold bind at 1. unfold self at 1. cbn [fst snd].
  destruct (Z.of_nat (length urls) <=? cdn_index e);
    unfold bind, self, update_self, lift, ret; cbn [fst snd cdn_index set_cdn_index].
  - destruct (py_index urls 0); reflexivity.
  - destruct (py_index urls (cdn_index e)); reflexivity.
Qed.

Lemma huya_get_real_url_eq env sel st :
  HuYaRealUrlExtractor.get_real_url env sel st =
    match RealUrlExtractor.get_real_url
            (HuYaRealUrlExtractor._extract_real_url env) sel st with
    | (Raise x, st1) => (Raise x, st1)
    | (Ok _, st1) =>
        match HuYaRealUrlExtractor.cached_real_urls env (drop_refresh sel)
                (switch_cdn (drop_refresh sel) (fst st1), snd st1) with
        | (Raise x, st2) => (Raise x, st2)
        | (Ok urls, st2) => select_url urls st2
        end
    end.
Proof.
  unfold HuYaRealUrlExtractor.get_real_url.
  unfold bind at 1.
  destruct (RealUrlExtractor.get_real_url _ sel st) as [[[]|x] [e1 s1]];
    [|reflexivity].
  cbn zeta. fold (drop_refresh sel).
  unfold bind at 1. unfold switch_cdn. cbn [fst snd].
  destruct (sel_eq (drop_refresh sel) "switch_cdn");
    unfold update_self at 1, ret at 1; cbn [fst snd];
    unfold bind at 1;
    match goal with
    | |- context [HuYaRealUrlExtractor.cached_real_urls ?a ?b ?c] =>
        destruct (HuYaRealUrlExtractor.cached_real_urls a b c) as [[urls|x] st2]
    end; try reflexivity; apply huya_select_eq.
Qed.

(** ** How the events change an extractor *)

Lemma evolves_refl valid st : evolves valid st st.
Proof. unfold evolves. repeat split; auto. Qed.

Lemma evolves_trans valid st1 st2 st3 :
  evolves valid st1 st2 -> evolves valid st2 st3 -> evolves valid st1 st3.
Proof.
  unfold evolves. cbn zeta.
  intros (Hc1 & Hr1 & Hi1 & Ht1 & Hl1 & Hx1) (Hc2 & Hr2 & Hi2 & Ht2 & Hl2 & Hx2).
  repeat split; try congruence; auto.
  destruct Hl2 as [Hl2|Hl2]; [|right; exact Hl2].
  destruct Hl1 as [Hl1|Hl1]; [left; congruence|right; congruence].
Qed.

(** A change of the system state or of a field that [evolves] does not
    mention. *)
Lemma evolves_same valid (e e' : Extractor) (s s' : Sys) :
  cls e' = cls e -> room e' = room e ->
  auto_refresh_interval e' = auto_refresh_interval e ->
  refresh_timer e' = refresh_timer e ->
  last_valid_real_url e' = last_valid_real_url e ->
  cdn_index e' = cdn_index e ->
  evolves valid (e, s) (e', s').
Proof.
  intros Hc Hr Hi Ht Hl Hx. unfold evolves, timer_attr_ok. cbn [fst].
  rewrite Hc, Hr, Hi, Ht, Hl, Hx. repeat split; auto.
Qed.

Lemma evolves_cdn_index valid (e : Extractor) (s s' : Sys) i :
  (-1 <= cdn_index e -> -1 <= i) ->
  evolves valid (e, s) (set_cdn_index i e, s').
Proof.
  intros Hi. unfold evolves, timer_attr_ok. cbn. repeat split; auto.
Qed.

Lemma evolves_clamp valid n (e : Extractor) (s s' : Sys) :
  evolves valid (e, s) (clamp_cdn_index n e, s').
Proof.
  unfold clamp_cdn_index. destruct (n <=? cdn_index e).
  - apply evolves_cdn_index. lia.
  - apply evolves_same; reflexivity.
Qed.

Lemma evolves_refreshed env valid st :
  timer_attr_ok (fst st) -> evolves valid st (refreshed env valid st).
Proof.
  intros Hok.
  destruct (refreshed_fields env valid st)
    as (Hc & Hr & Hi & Hu & Hl & _ & Hx & _).
  unfold evolves. cbn zeta. rewrite Hc, Hr, Hi, Hl, Hx.
  repeat split; auto.
  - intros _. apply refreshed_timer_attr_ok. exact Hok.
  - unfold resolved. destruct (valid (real_url (fst st))) eqn:Hv.
    + right. exact Hv.
    + left. destruct (negb (py_is_none (last_valid_real_url (fst st)))); reflexivity.
Qed.

Lemma evolves_base_extract env valid st :
  timer_attr_ok (fst st) ->
  evolves valid st (snd (RealUrlExtractor._extract_real_url env valid st)).
Proof.
  intros Hok. rewrite base_extract_eq by exact Hok.
  apply evolves_refreshed. exact Hok.
Qed.

Lemma evolves_douyu_extract env e s :
  timer_attr_ok e ->
  evolves DouYuRealUrlExtractor._is_url_valid (e, s)
    (snd (DouYuRealUrlExtractor._extract_real_url env (e, s))).
Proof.
  intros Hok. rewrite douyu_extract_eq by exact Hok. cbn [snd].
  eapply evolves_trans; [|apply evolves_refreshed; exact Hok].
  apply evolves_same; reflexivity.
Qed.

Lemma evolves_bilibili_extract env e s :
  timer_attr_ok e ->
  evolves BilibiliRealUrlExtractor._is_url_valid (e, s)
    (snd (BilibiliRealUrlExtractor._extract_real_url env (e, s))).
Proof.
  intros Hok. rewrite bilibili_extract_eq by exact Hok. cbn [snd].
  eapply evolves_trans; [|apply evolves_refreshed; exact Hok].
  apply evolves_same; reflexivity.
Qed.

Lemma evolves_huya_extract env e s :
  timer_attr_ok e ->
  evolves HuYaRealUrlExtractor._is_url_valid (e, s)
    (snd (HuYaRealUrlExtractor._extract_real_url env (e, s))).
Proof.
  intros Hok. rewrite huya_extract_eq. unfold huya_extract_outcome.
  cbn [fst snd].
  destruct (huya_update_live_url_info env (room e) (tick s)) as [infos|x].
  2:{ apply evolves_same; reflexivity. }
  set (e2 := clamp_cdn_index (Z.of_nat (length infos)) (set_live_url_infos infos e)).
  assert (H2 : forall s', evolves HuYaRealUrlExtractor._is_url_valid (e, s) (e2, s')).
  { intros s'. eapply evolves_trans; [|apply evolves_clamp].
    apply (evolves_same _ e (set_live_url_infos infos e) s s); reflexivity. }
  assert (Hok2 : timer_attr_ok e2) by (apply (H2 s); exact Hok).
  assert (H3 : forall v, evolves HuYaRealUrlExtractor._is_url_valid (e, s)
                 (snd (RealUrlExtractor._extract_real_url env
                         HuYaRealUrlExtractor._is_url_valid
                         (set_real_url v e2, next_tick s)))).
  { intros v. eapply evolves_trans; [apply (H2 s)|].
    eapply evolves_trans; [|apply evolves_base_extract; exact Hok2].
    apply evolves_same; reflexivity. }
  destruct (0 <? Z.of_nat (length infos)); [|apply H3].
  destruct (py_index infos (cdn_index e2)) as [i|x]; [apply H3|apply H2].
Qed.

Lemma evolves_extract env (e : Extractor) s :
  timer_attr_ok e ->
  evolves (is_url_valid (cls e)) (e, s) (snd (extract_real_url env (cls e) (e, s))).
Proof.
  intros Hok. destruct (cls e); cbn [is_url_valid extract_real_url].
  - apply evolves_douyu_extract; exact Hok.
  - apply evolves_bilibili_extract; exact Hok.
  - apply evolves_huya_extract; exact Hok.
Qed.

Lemma evolves_super_get_real_url valid extract sel e s :
  evolves valid (e, s) (snd (extract (e, s))) ->
  evolves valid (e, s) (snd (RealUrlExtractor.get_real_url extract sel (e, s))).
Proof.
  intros H. unfold RealUrlExtractor.get_real_url, bind, self. cbn [fst snd].
  destruct (py_is_none (real_url e) || sel_eq sel "refresh").
  - destruct (extract (e, s)) as [[[]|x] st']; exact H.
  - apply evolves_refl.
Qed.

(** The DouYu and Bilibili [get_real_url] change nothing after the call of
    the base method. *)
Lemma douyu_get_real_url_state env sel st :
  snd (DouYuRealUrlExtractor.get_real_url env sel st)
  = snd (RealUrlExtractor.get_real_url
           (DouYuRealUrlExtractor._extract_real_url env) sel st).
Proof.
  unfold DouYuRealUrlExtractor.get_real_url. unfold bind at 1.
  destruct (RealUrlExtractor.get_real_url _ sel st) as [[[]|x] [e1 s1]];
    [|reflexivity].
  cbn zeta. unfold bind, self, lift, ret. cbn [fst snd].
  destruct (negb (DouYuRealUrlExtractor._is_url_valid (real_url e1)));
    [reflexivity|].
  destruct (no_bit_rate (if sel_eq sel "refresh" then None else sel)).
  - destruct (py_contains "flv" (real_url e1)) as [[]|]; [| |reflexivity].
    + destruct (py_getitem (real_url e1) "flv"); reflexivity.
    + destruct (py_contains "2000p" (real_url e1)) as [[]|]; [| |reflexivity].
      * destruct (py_getitem (real_url e1) "2000p"); reflexivity.
      * destruct (py_getitem (real_url e1) "900p"); reflexivity.
  - destruct (py_in_keys _ (real_url e1)) as [[]|]; [|reflexivity|reflexivity].
    destruct (py_getitem (real_url e1) _); reflexivity.
Qed.

Lemma bilibili_get_real_url_state env sel st :
  snd (BilibiliRealUrlExtractor.get_real_url env sel st)
  = snd (RealUrlExtractor.get_real_url
           (BilibiliRealUrlExtractor._extract_real_url env) sel st).
Proof.
  unfold BilibiliRealUrlExtractor.get_real_url. unfold bind at 1.
  destruct (RealUrlExtractor.get_real_url _ sel st) as [[[]|x] [e1 s1]];
    [|reflexivity].
  unfold bind, self, lift, ret. cbn [fst snd].
  destruct (negb (BilibiliRealUrlExtractor._is_url_valid (real_url e1)));
    [reflexivity|].
  destruct (py_contains "hls_url" (real_url e1)) as [[]|]; [| |reflexivity].
  - destruct (py_getitem (real_url e1) "hls_url"); reflexivity.
  - destruct (py_getitem (real_url e1) "flv_url"); reflexivity.
Qed.

Lemma evolves_fetch_real_urls valid env sel st :
  evolves valid st (snd (fetch_real_urls env sel st)).
Proof.
  destruct st as [e s]. unfold fetch_real_urls. cbn [fst snd].
  destruct (huya_get_real_url env (room e) sel (tick s));
    apply evolves_same; reflexivity.
Qed.

Lemma evolves_cached_real_urls valid env sel st :
  evolves valid st (snd (HuYaRealUrlExtractor.cached_real_urls env sel st)).
Proof.
  destruct st as [e s]. rewrite cached_real_urls_eq.
  destruct (last_real_urls e) as [urls|]; [|apply evolves_fetch_real_urls].
  destruct (total_seconds_gt _ 120).
  - eapply evolves_trans; [|apply evolves_fetch_real_urls].
    apply evolves_same; reflexivity.
  - apply evolves_same; reflexivity.
Qed.

Lemma evolves_select_url valid urls st :
  evolves valid st (snd (select_url urls st)).
Proof.
  destruct st as [e s]. unfold select_url. cbn [fst snd].
  destruct (0 <? Z.of_nat (length urls)); [|apply evolves_refl].
  destruct (py_index urls _); apply evolves_clamp.
Qed.

Lemma evolves_switch_cdn valid sel (e : Extractor) s :
  evolves valid (e, s) (switch_cdn sel e, s).
Proof.
  unfold switch_cdn. destruct (sel_eq sel "switch_cdn").
  - apply evolves_cdn_index. lia.
  - apply evolves_refl.
Qed.

Lemma evolves_huya_get_real_url env sel e s :
  timer_attr_ok e ->
  evolves HuYaRealUrlExtractor._is_url_valid (e, s)
    (snd (HuYaRealUrlExtractor.get_real_url env sel (e, s))).
Proof.
  intros Hok. rewrite huya_get_real_url_eq.
  pose proof (evolves_super_get_real_url HuYaRealUrlExtractor._is_url_valid
                (HuYaRealUrlExtractor._extract_real_url env) sel e s
                (evolves_huya_extract env e s Hok)) as H1.
  destruct (RealUrlExtractor.get_real_url _ sel (e, s)) as [[[]|x] [e1 s1]];
    [|exact H1].
  cbn [fst snd] in *.
  eapply evolves_trans; [exact H1|].
  eapply evolves_trans; [apply (evolves_switch_cdn _ (drop_refresh sel))|].
  pose proof (evolves_cached_real_urls HuYaRealUrlExtractor._is_url_valid env
                (drop_refresh sel) (switch_cdn (drop_refresh sel) e1, s1)) as H2.
  destruct (HuYaRealUrlExtractor.cached_real_urls _ _ _) as [[urls|x] st2];
    [|exact H2].
  eapply evolves_trans; [exact H2|]. apply evolves_select_url.
Qed.

Lemma evolves_get_real_url env sel (e : Extractor) s :
  timer_attr_ok e ->
  evolves (is_url_valid (cls e)) (e, s) (snd (get_real_url env (cls e) sel (e, s))).
Proof.
  intros Hok. destruct (cls e); cbn [is_url_valid get_real_url].
  - rewrite douyu_get_real_url_state.
    apply evolves_super_get_real_url, evolves_douyu_extract, Hok.
  - rewrite bilibili_get_real_url_state.
    apply evolves_super_get_real_url, evolves_bilibili_extract, Hok.
  - apply evolves_huya_get_real_url, Hok.
Qed.

Lemma refresh_real_url_state env c st :
  refresh_real_url env c st = (Ok tt, snd (extract_real_url env c st)).
Proof.
  destruct c; cbn [refresh_real_url extract_real_url];
    unfold DouYuRealUrlExtractor.refresh_real_url,
      BilibiliRealUrlExtractor.refresh_real_url,
      HuYaRealUrlExtractor.refresh_real_url,
      RealUrlExtractor.refresh_real_url, try_except;
    match goal with |- context [?f env st] => destruct (f env st) as [[[]|x] st'] end;
    reflexivity.
Qed.

Lemma evolves_timer_fires env (e : Extractor) s :
  timer_attr_ok e ->
  evolves (is_url_valid (cls e)) (e, s) (snd (timer_fires env (e, s))).
Proof.
  intros Hok. unfold timer_fires. cbn [fst snd].
  destruct (refresh_timer e) as [h|]; [|apply evolves_refl].
  destruct (timers s !! h) as [t|]; [|apply evolves_refl].
  destruct (pending t); [|apply evolves_refl].
  unfold bind, alter_timer. cbn [fst snd].
  rewrite refresh_real_url_state. cbn [snd].
  apply (evolves_trans _ _ (e, set_timers (alter fire_timer h (timers s)) s)).
  - apply evolves_same; reflexivity.
  - apply evolves_extract. exact Hok.
Qed.

Lemma evolves_run_event env ev st :
  timer_attr_ok (fst st) ->
  evolves (is_url_valid (cls (fst st))) st (run_event env ev st).
Proof.
  destruct st as [e s]. cbn [fst]. intros Hok.
  destruct ev as [sel| | |]; cbn [run_event fst].
  - apply evolves_get_real_url, Hok.
  - apply evolves_timer_fires, Hok.
  - destruct (cls e); try apply evolves_refl.
    apply evolves_cdn_index. lia.
  - destruct (cls e); try apply evolves_refl.
    apply evolves_same; reflexivity.
Qed.

Lemma evolves_run_events env evs st :
  timer_attr_ok (fst st) ->
  evolves (is_url_valid (cls (fst st))) st (run_events env evs st).
Proof.
  revert st. induction evs as [|ev evs IH]; intros st Hok.
  - apply evolves_refl.
  - cbn [run_events fold_left].
    pose proof (evolves_run_event env ev st Hok) as H1.
    eapply evolves_trans; [exact H1|].
    destruct H1 as (Hc & _ & _ & Ht & _).
    rewrite <- Hc. apply IH. apply Ht, Hok.
Qed.

(** ** Failover retention *)




(** For DouYu and Bilibili the answer to a selector other than [refresh]
    is determined by the resolution held. *)
Lemma douyu_answer_from_resolution env env' sel e1 s1 e2 s2 :
  sel <> Some "refresh" -> py_is_none (real_url e1) = false ->
  real_url e2 = real_url e1 ->
  fst (DouYuRealUrlExtractor.get_real_url env sel (e1, s1))
  = fst (DouYuRealUrlExtractor.get_real_url env' sel (e2, s2)).
Proof.
  intros Hsel Hnn Heq.
  unfold DouYuRealUrlExtractor.get_real_url.
  rewrite (bind_ok _ _ (e1, s1) tt (e1, s1))
    by (apply super_get_real_url_cached; assumption).
  rewrite (bind_ok _ _ (e2, s2) tt (e2, s2))
    by (apply super_get_real_url_cached; [rewrite Heq|]; assumption).
  cbn zeta. unfold bind, self, lift, ret. cbn [fst snd]. rewrite Heq.
  destruct (negb (DouYuRealUrlExtractor._is_url_valid (real_url e1)));
    [reflexivity|].
  destruct (no_bit_rate (if sel_eq sel "refresh" then None else sel)).
  - destruct (py_contains "flv" (real_url e1)) as [[]|]; [| |reflexivity].
    + destruct (py_getitem (real_url e1) "flv"); reflexivity.
    + destruct (py_contains "2000p" (real_url e1)) as [[]|]; [| |reflexivity].
      * destruct (py_getitem (real_url e1) "2000p"); reflexivity.
      * destruct (py_getitem (real_url e1) "900p"); reflexivity.
  - destruct (py_in_keys _ (real_url e1)) as [[]|]; [|reflexivity|reflexivity].
    destruct (py_getitem (real_url e1) _); reflexivity.
Qed.

Lemma bilibili_answer_from_resolution env env' sel e1 s1 e2 s2 :
  sel <> Some "refresh" -> py_is_none (real_url e1) = false ->
  real_url e2 = real_url e1 ->
  fst (BilibiliRealUrlExtractor.get_real_url env sel (e1, s1))
  = fst (BilibiliRealUrlExtractor.get_real_url env' sel (e2, s2)).
Proof.
  intros Hsel Hnn Heq.
  unfold BilibiliRealUrlExtractor.get_real_url.
  rewrite (bind_ok _ _ (e1, s1) tt (e1, s1))
    by (apply super_get_real_url_cached; assumption).
  rewrite (bind_ok _ _ (e2, s2) tt (e2, s2))
    by (apply super_get_real_url_cached; [rewrite Heq|]; assumption).
  unfold bind, self, lift, ret. cbn [fst snd]. rewrite Heq.
  destruct (negb (BilibiliRealUrlExtractor._is_url_valid (real_url e1)));
    [reflexivity|].
  destruct (py_contains "hls_url" (real_url e1)) as [[]|]; [| |reflexivity].
  - destruct (py_getitem (real_url e1) "hls_url"); reflexivity.
  - destruct (py_getitem (real_url e1) "flv_url"); reflexivity.
Qed.

Lemma bilibili_refresh_then_default env e s :
  timer_attr_ok e ->
  let st' := snd (BilibiliRealUrlExtractor._extract_real_url env (e, s)) in
  py_is_none (real_url (fst st')) = false ->
  BilibiliRealUrlExtractor.get_real_url env (Some "refresh") (e, s)
  = BilibiliRealUrlExtractor.get_real_url env None st'.
Proof.
  intros Hok. cbn zeta.
  pose proof (bilibili_extract_eq env e s Hok) as Hex. rewrite Hex. cbn [snd].
  remember (refreshed env BilibiliRealUrlExtractor._is_url_valid
              (set_real_url (or_sentinel (BiliBili_get_real_url env (room e) (tick s))) e,
               next_tick s)) as st' eqn:E in *.
  destruct st' as [e' s']. cbn [fst]. intros Hnn.
  unfold BilibiliRealUrlExtractor.get_real_url.
  apply (bind_ext _ _ _ _ _ _ tt tt (e', s')).
  - rewrite super_get_real_url_refresh. exact Hex.
  - apply super_get_real_url_cached; [exact Hnn|discriminate].
  - reflexivity.
Qed.

Lemma answer_from_resolution env env' c sel e1 s1 e2 s2 :
  c <> HuYa -> sel <> Some "refresh" -> py_is_none (real_url e1) = false ->
  real_url e2 = real_url e1 ->
  fst (get_real_url env c sel (e1, s1)) = fst (get_real_url env' c sel (e2, s2)).
Proof.
  intros Hc Hsel Hnn Heq. destruct c; cbn [get_real_url]; [| |contradiction].
  - apply douyu_answer_from_resolution; assumption.
  - apply bilibili_answer_from_resolution; assumption.
Qed.

Lemma refresh_then_default env c (e : Extractor) s :
  c <> HuYa -> timer_attr_ok e ->
  py_is_none (real_url (fst (snd (extract_real_url env c (e, s))))) = false ->
  get_real_url env c (Some "refresh") (e, s)
  = get_real_url env c None (snd (extract_real_url env c (e, s))).
Proof.
  intros Hc Hok Hnn. destruct c; cbn [get_real_url extract_real_url] in *;
    [| |contradiction].
  - apply douyu_refresh_then_default; assumption.
  - apply bilibili_refresh_then_default; assumption.
Qed.




(** ** The CDN index *)

Lemma py_index_ok {A} (l : list A) i :
  -1 <= i < Z.of_nat (length l) -> 0 < Z.of_nat (length l) ->
  exists x, py_index l i = Ok x.
Proof.
  intros Hi Hn. unfold py_index.
  set (j := if i <? 0 then i + Z.of_nat (length l) else i).
  assert (Hj : 0 <= j < Z.of_nat (length l)).
  { subst j. destruct (Z.ltb_spec i 0); lia. }
  destruct (Z.leb_spec 0 j); [|lia].
  destruct (Z.ltb_spec j (Z.of_nat (length l))); [|lia].
  cbn [andb].
  destruct (l !! Z.to_nat j) as [x|] eqn:E; [eauto|].
  apply lookup_ge_None in E. lia.
Qed.

Lemma py_index_nonneg {A} (l : list A) i :
  0 <= i -> py_index l i
            = match l !! Z.to_nat i with Some x => Ok x | None => Raise IndexError end.
Proof.
  intros Hi. unfold py_index.
  destruct (Z.ltb_spec i 0); [lia|].
  destruct (Z.leb_spec 0 i); [|lia]. cbn [andb].
  destruct (Z.ltb_spec i (Z.of_nat (length l))); [reflexivity|].
  rewrite (proj2 (lookup_ge_None l (Z.to_nat i))) by lia. reflexivity.
Qed.

Lemma clamp_cdn_index_range n (e : Extractor) :
  -1 <= cdn_index e -> 0 < n ->
  -1 <= cdn_index (clamp_cdn_index n e) < n.
Proof.
  intros H Hn. unfold clamp_cdn_index.
  destruct (Z.leb_spec n (cdn_index e)); cbn; lia.
Qed.

Lemma clamp_cdn_index_value n (e : Extractor) :
  cdn_index (clamp_cdn_index n e) = if n <=? cdn_index e then 0 else cdn_index e.
Proof. unfold clamp_cdn_index. destruct (n <=? cdn_index e); reflexivity. Qed.

Lemma clamp_cdn_index_fields n (e : Extractor) :
  last_real_urls (clamp_cdn_index n e) = last_real_urls e /\
  live_url_infos (clamp_cdn_index n e) = live_url_infos e /\
  refresh_timer (clamp_cdn_index n e) = refresh_timer e /\
  auto_refresh_interval (clamp_cdn_index n e) = auto_refresh_interval e /\
  last_get_real_url_time (clamp_cdn_index n e) = last_get_real_url_time e.
Proof. unfold clamp_cdn_index. destruct (n <=? cdn_index e); repeat split. Qed.

Lemma select_url_spec urls (e : Extractor) s :
  -1 <= cdn_index e ->
  (urls = [] /\ select_url urls (e, s) = (Ok None, (e, s))) \/
  (exists u,
     let e' := clamp_cdn_index (Z.of_nat (length urls)) e in
     select_url urls (e, s) = (Ok (Some u), (e', s)) /\
     -1 <= cdn_index e' < Z.of_nat (length urls) /\
     py_index urls (cdn_index e') = Ok u).
Proof.
  intros Hi. unfold select_url. cbn [fst snd].
  destruct (Z.ltb_spec 0 (Z.of_nat (length urls))) as [Hn|Hn].
  - right.
    pose proof (clamp_cdn_index_range _ e Hi Hn) as Hr.
    destruct (py_index_ok urls _ Hr Hn) as [u Hu].
    exists u. cbn zeta. rewrite Hu. auto.
  - left. destruct urls; [auto|cbn in Hn; lia].
Qed.

Lemma fetch_real_urls_spec env sel (e : Extractor) s :
  match fetch_real_urls env sel (e, s) with
  | (Ok urls, (e', _)) =>
      last_real_urls e' = Some urls /\ cdn_index e' = cdn_index e /\
      huya_get_real_url env (room e) sel (tick s) = Ok urls
  | (Raise x, (e', _)) => e' = e /\ huya_get_real_url env (room e) sel (tick s) = Raise x
  end.
Proof.
  unfold fetch_real_urls. cbn [fst snd].
  destruct (huya_get_real_url env (room e) sel (tick s)); cbn; auto.
Qed.

Lemma cached_real_urls_spec env sel (e : Extractor) s :
  match HuYaRealUrlExtractor.cached_real_urls env sel (e, s) with
  | (Ok urls, (e', _)) => last_real_urls e' = Some urls /\ cdn_index e' = cdn_index e
  | (Raise x, (e', _)) =>
      e' = e /\ exists n, huya_get_real_url env (room e) sel n = Raise x
  end.
Proof.
  rewrite cached_real_urls_eq.
  destruct (last_real_urls e) as [urls|] eqn:Hl.
  - destruct (total_seconds_gt _ 120).
    + pose proof (fetch_real_urls_spec env sel e (next_tick s)) as H.
      destruct (fetch_real_urls env sel (e, next_tick s)) as [[urls'|x] [e' s']].
      * destruct H as (H1 & H2 & _). auto.
      * destruct H as (H1 & H2). eauto.
    + auto.
  - pose proof (fetch_real_urls_spec env sel e s) as H.
    destruct (fetch_real_urls env sel (e, s)) as [[urls'|x] [e' s']].
    + destruct H as (H1 & H2 & _). auto.
    + destruct H as (H1 & H2). eauto.
Qed.

(** The dereference of the endpoint list in [_extract_real_url]. *)
Lemma huya_extract_deref env (e : Extractor) s infos :
  timer_attr_ok e -> -1 <= cdn_index e ->
  huya_update_live_url_info env (room e) (tick s) = Ok infos ->
  let out := HuYaRealUrlExtractor._extract_real_url env (e, s) in
  let e' := fst (snd out) in
  let n := Z.of_nat (length infos) in
  fst out = Ok tt /\ live_url_infos e' = infos /\
  cdn_index e' = (if n <=? cdn_index e then 0 else cdn_index e) /\
  (0 < n ->
   -1 <= cdn_index e' < n /\
   exists i, py_index infos (cdn_index e') = Ok i /\
             real_url e' = VStr (info_hls_url i)).
Proof.
  intros Hok Hi Hupd. cbn zeta.
  rewrite huya_extract_eq. unfold huya_extract_outcome. cbn [fst snd].
  rewrite Hupd.
  set (n := Z.of_nat (length infos)).
  set (e2 := clamp_cdn_index n (set_live_url_infos infos e)).
  destruct (clamp_cdn_index_fields n (set_live_url_infos infos e))
    as (_ & Hinf & Ht & Hint & _).
  fold e2 in Hinf, Ht, Hint. cbn in Hinf, Ht, Hint.
  assert (Hidx : cdn_index e2 = if n <=? cdn_index e then 0 else cdn_index e)
    by apply (clamp_cdn_index_value n (set_live_url_infos infos e)).
  assert (Hok2 : forall v, timer_attr_ok (set_real_url v e2)).
  { intros v. unfold timer_attr_ok. cbn. rewrite Hint, Ht. exact Hok. }
  assert (Hbase : forall v,
    let out := RealUrlExtractor._extract_real_url env
                 HuYaRealUrlExtractor._is_url_valid
                 (set_real_url v e2, next_tick s) in
    fst out = Ok tt /\ live_url_infos (fst (snd out)) = infos /\
    cdn_index (fst (snd out)) = cdn_index e2 /\
    real_url (fst (snd out))
      = real_url (resolved HuYaRealUrlExtractor._is_url_valid (set_real_url v e2))).
  { intros v. cbn zeta. rewrite base_extract_eq by apply Hok2. cbn [fst snd].
    destruct (refreshed_fields env HuYaRealUrlExtractor._is_url_valid
                (set_real_url v e2, next_tick s))
      as (_ & _ & _ & Hu & _ & Hinf' & Hx & _).
    cbn [fst] in Hu, Hinf', Hx. cbn in Hinf', Hx.
    rewrite Hu, Hinf', Hx, Hinf. auto. }
  destruct (Z.ltb_spec 0 n) as [Hn|Hn].
  - assert (Hr : -1 <= cdn_index e2 < n).
    { apply (clamp_cdn_index_range n (set_live_url_infos infos e));
        [exact Hi|exact Hn]. }
    destruct (py_index_ok infos _ Hr Hn) as [i Hpi]. rewrite Hpi.
    destruct (Hbase (VStr (info_hls_url i))) as (H1 & H2 & H3 & H4).
    split; [exact H1|]. split; [exact H2|]. rewrite H3. split; [exact Hidx|].
    intros _. split; [exact Hr|]. exists i. split; [exact Hpi|].
    rewrite H4. reflexivity.
  - destruct (Hbase VNone) as (H1 & H2 & H3 & H4).
    split; [exact H1|]. split; [exact H2|]. rewrite H3. split; [exact Hidx|].
    intros Hn'. lia.
Qed.

Lemma switch_cdn_fields sel (e : Extractor) :
  room (switch_cdn sel e) = room e /\
  last_real_urls (switch_cdn sel e) = last_real_urls e /\
  last_get_real_url_time (switch_cdn sel e) = last_get_real_url_time e /\
  cdn_index (switch_cdn sel e)
    = (if sel_eq sel "switch_cdn" then cdn_index e + 1 else cdn_index e).
Proof. unfold switch_cdn. destruct (sel_eq sel "switch_cdn"); repeat split. Qed.

Lemma huya_super_answers env sel (e : Extractor) s :
  timer_attr_ok e -> -1 <= cdn_index e ->
  (forall n, exists infos, huya_update_live_url_info env (room e) n = Ok infos) ->
  fst (RealUrlExtractor.get_real_url
         (HuYaRealUrlExtractor._extract_real_url env) sel (e, s)) = Ok tt.
Proof.
  intros Hok Hi Hans.
  unfold RealUrlExtractor.get_real_url, bind, self. cbn [fst snd].
  destruct (py_is_none (real_url e) || sel_eq sel "refresh"); [|reflexivity].
  destruct (Hans (tick s)) as [infos Hupd].
  destruct (huya_extract_deref env e s infos Hok Hi Hupd) as [H _].
  destruct (HuYaRealUrlExtractor._extract_real_url env (e, s)) as [[[]|x] st'];
    [reflexivity|discriminate H].
Qed.

(** The dereference of the variant list in [get_real_url]. *)
Lemma huya_get_real_url_deref env sel (e : Extractor) s :
  timer_attr_ok e -> -1 <= cdn_index e ->
  let out := HuYaRealUrlExtractor.get_real_url env sel (e, s) in
  let e' := fst (snd out) in
  -1 <= cdn_index e' /\
  (forall u, fst out = Ok (Some u) ->
     exists urls, last_real_urls e' = Some urls /\
       -1 <= cdn_index e' < Z.of_nat (length urls) /\
       py_index urls (cdn_index e') = Ok u) /\
  (huya_client_answers env (room e) -> exists r, fst out = Ok r).
Proof.
  intros Hok Hi. cbn zeta. split.
  { apply (evolves_huya_get_real_url env sel e s Hok). exact Hi. }
  rewrite huya_get_real_url_eq.
  pose proof (evolves_super_get_real_url HuYaRealUrlExtractor._is_url_valid
                (HuYaRealUrlExtractor._extract_real_url env) sel e s
                (evolves_huya_extract env e s Hok)) as Hev.
  pose proof (huya_super_answers env sel e s Hok Hi) as Hsup.
  destruct (RealUrlExtractor.get_real_url _ sel (e, s)) as [[[]|x] [e1 s1]].
  2:{ cbn [fst snd] in *. split; [discriminate|].
      intros [Hans _]. specialize (Hsup Hans). discriminate Hsup. }
  destruct Hev as (_ & Hroom & _ & _ & _ & Hi1). cbn [fst snd] in Hroom, Hi1.
  specialize (Hi1 Hi). cbn [fst snd].
  set (e1' := switch_cdn (drop_refresh sel) e1).
  destruct (switch_cdn_fields (drop_refresh sel) e1) as (Hr1 & _ & _ & Hc1).
  fold e1' in Hr1, Hc1.
  assert (Hi1' : -1 <= cdn_index e1').
  { rewrite Hc1. destruct (sel_eq _ _); lia. }
  pose proof (cached_real_urls_spec env (drop_refresh sel) e1' s1) as Hcache.
  destruct (HuYaRealUrlExtractor.cached_real_urls _ _ _) as [[urls|x] [e2 s2]].
  - destruct Hcache as [Hl2 Hc2].
    assert (Hi2 : -1 <= cdn_index e2) by lia.
    destruct (select_url_spec urls e2 s2 Hi2) as [[-> Hsel]|(u & Hsel & Hr & Hu)];
      rewrite Hsel; cbn [fst snd].
    + split; [discriminate|eauto].
    + split; [|eauto]. intros u' Hu'. injection Hu' as <-.
      exists urls. split; [|auto].
      rewrite (proj1 (clamp_cdn_index_fields _ e2)). exact Hl2.
  - cbn [fst snd]. split; [discriminate|].
    intros [_ Hans]. destruct Hcache as [_ [n Hn]].
    destruct (Hans (drop_refresh sel) n) as [urls Hurls].
    rewrite Hr1, Hroom in Hn. congruence.
Qed.

(** One [switch_cdn] request on a resolved extractor whose variant list is
    cached and fresh: the index advances modulo the length of the list. *)
Lemma huya_switch_cdn_wraps env (e : Extractor) s urls :
  py_is_none (real_url e) = false ->
  last_real_urls e = Some urls ->
  total_seconds_gt (datetime_now env (tick s) - last_get_real_url_time e) 120 = false ->
  0 <= cdn_index e < Z.of_nat (length urls) ->
  let out := HuYaRealUrlExtractor.get_real_url env (Some "switch_cdn") (e, s) in
  let i := (cdn_index e + 1) mod Z.of_nat (length urls) in
  cdn_index (fst (snd out)) = i /\
  exists u, urls !! Z.to_nat i = Some u /\ fst out = Ok (Some u).
Proof.
  intros Hnn Hl Hfresh Hi. cbn zeta.
  rewrite huya_get_real_url_eq.
  rewrite super_get_real_url_cached by (try exact Hnn; discriminate).
  cbn [fst snd].
  change (drop_refresh (Some "switch_cdn")) with (Some "switch_cdn").
  unfold switch_cdn. change (sel_eq (Some "switch_cdn") "switch_cdn") with true.
  cbv iota.
  rewrite cached_real_urls_eq. cbn [last_real_urls set_cdn_index
    last_get_real_url_time]. rewrite Hl, Hfresh.
  unfold select_url. cbn [fst snd].
  destruct (Z.ltb_spec 0 (Z.of_nat (length urls))) as [Hn|Hn]; [|lia].
  rewrite clamp_cdn_index_value. cbn [cdn_index set_cdn_index].
  set (n := Z.of_nat (length urls)) in *.
  assert (Hmod : (if n <=? cdn_index e + 1 then 0 else cdn_index e + 1)
                 = (cdn_index e + 1) mod n).
  { destruct (Z.leb_spec n (cdn_index e + 1)) as [Hge|Hlt].
    - assert (cdn_index e + 1 = n) as -> by lia. rewrite Z_mod_same_full. reflexivity.
    - rewrite Z.mod_small by lia. reflexivity. }
  rewrite Hmod.
  assert (Hrange : 0 <= (cdn_index e + 1) mod n < n) by (apply Z.mod_pos_bound; lia).
  rewrite py_index_nonneg by lia.
  destruct (urls !! Z.to_nat ((cdn_index e + 1) mod n)) as [u|] eqn:E.
  - cbn [fst snd]. rewrite clamp_cdn_index_value. cbn [cdn_index set_cdn_index].
    rewrite Hmod. eauto.
  - apply lookup_ge_None in E. lia.
Qed.

Lemma fresh_huya_cdn_index rm interval : cdn_index (fst (fresh HuYa rm interval)) = -1.
Proof.
  unfold fresh, construct, HuYaRealUrlExtractor.__init__,
    RealUrlExtractor.__init__.
  destruct (0 <? interval); reflexivity.
Qed.

Lemma fresh_timer_attr_ok c rm interval : timer_attr_ok (fst (fresh c rm interval)).
Proof.
  unfold timer_attr_ok, fresh, construct, HuYaRealUrlExtractor.__init__,
    DouYuRealUrlExtractor.__init__, BilibiliRealUrlExtractor.__init__,
    RealUrlExtractor.__init__.
  destruct c; destruct (Z.ltb_spec 0 interval) as [Hpos|Hle]; cbn;
    intros Hgt; eauto; lia.
Qed.

(** C3, as the code has it.  [cdn_index] starts at -1 and only its upper
    bound is checked: every event keeps it at -1 or more; before the
    dereference of the endpoint list in [_extract_real_url] and of the
    variant list in [get_real_url] an index at or beyond the length is reset
    to 0, so the index used lies in [-1, length) and the dereference
    succeeds (-1 selects the last entry).  On a resolved extractor with a
    fresh variant list, a [switch_cdn] request moves an index in
    [0, length) to its successor modulo the length; from a new extractor
    with three endpoints and three variants, four [switch_cdn] requests
    select 0, 1, 2, 0.  The dereferences in [base_url] and [stream_name],
    which check nothing, are not part of this statement. *)
Theorem C3_cdn_index_upper_clamped env (e : Extractor) s :
  timer_attr_ok e -> -1 <= cdn_index e ->
  (forall rm interval, cdn_index (fst (fresh HuYa rm interval)) = -1) /\
  (forall evs, -1 <= cdn_index (fst (run_events env evs (e, s)))) /\
  (forall infos,
     huya_update_live_url_info env (room e) (tick s) = Ok infos ->
     let out := HuYaRealUrlExtractor._extract_real_url env (e, s) in
     let e' := fst (snd out) in
     let n := Z.of_nat (length infos) in
     fst out = Ok tt /\ live_url_infos e' = infos /\
     cdn_index e' = (if n <=? cdn_index e then 0 else cdn_index e) /\
     (0 < n ->
      -1 <= cdn_index e' < n /\
      exists i, py_index infos (cdn_index e') = Ok i /\
                real_url e' = VStr (info_hls_url i))) /\
  (forall sel,
     let out := HuYaRealUrlExtractor.get_real_url env sel (e, s) in
     let e' := fst (snd out) in
     (forall u, fst out = Ok (Some u) ->
        exists urls, last_real_urls e' = Some urls /\
          -1 <= cdn_index e' < Z.of_nat (length urls) /\
          py_index urls (cdn_index e') = Ok u) /\
     (huya_client_answers env (room e) -> exists r, fst out = Ok r)) /\
  (forall urls,
     py_is_none (real_url e) = false ->
     last_real_urls e = Some urls ->
     total_seconds_gt (datetime_now env (tick s) - last_get_real_url_time e) 120
       = false ->
     0 <= cdn_index e < Z.of_nat (length urls) ->
     let out := HuYaRealUrlExtractor.get_real_url env (Some "switch_cdn") (e, s) in
     let i := (cdn_index e + 1) mod Z.of_nat (length urls) in
     cdn_index (fst (snd out)) = i /\
     exists u, urls !! Z.to_nat i = Some u /\ fst out = Ok (Some u)) /\
  map (fun k => cdn_index (fst (run_events env_ok (switch_requests k)
                                  (fresh HuYa "55" 7200))))
      [1; 2; 3; 4]%nat = [0; 1; 2; 0].
Proof.
  intros Hok Hi.
  split; [apply fresh_huya_cdn_index|].
  split.
  { intros evs.
    apply (evolves_run_events env evs (e, s) Hok). exact Hi. }
  split; [intros infos; apply huya_extract_deref; assumption|].
  split.
  { intros sel. apply (huya_get_real_url_deref env sel e s Hok Hi). }
  split; [intros urls; apply huya_switch_cdn_wraps|].
  vm_compute. reflexivity.
Qed.

Lemma huya_switched_eq :
  snd (HuYaRealUrlExtractor.get_real_url env_ok (Some "switch_cdn")
         (fresh HuYa "55" 7200)) = huya_switched.
Proof. vm_compute. reflexivity. Qed.

(** A new extractor, three endpoints and three variants: the first
    [switch_cdn] request is answered, and on the state it leaves (index 0,
    the three variants cached) the next one moves the index to 1. *)
Lemma C3_witness :
  (exists r,
     fst (HuYaRealUrlExtractor.get_real_url env_ok (Some "switch_cdn")
            (fst huya_new, snd huya_new)) = Ok r) /\
  cdn_index (fst huya_switched) = 0 /\
  cdn_index
    (fst (snd (HuYaRealUrlExtractor.get_real_url env_ok (Some "switch_cdn")
                 (fst huya_switched, snd huya_switched))))
  = (0 + 1) mod 3.
Proof.
  assert (Hok : timer_attr_ok (fst huya_new)) by (intros _; eexists; reflexivity).
  assert (Hi : -1 <= cdn_index (fst huya_new)) by (vm_compute; discriminate).
  destruct (C3_cdn_index_upper_clamped env_ok (fst huya_new) (snd huya_new) Hok Hi)
    as (_ & _ & _ & Hget & _).
  destruct (Hget (Some "switch_cdn")) as [_ Hans].
  split.
  { apply Hans. split; intros; eexists; reflexivity. }
  split; [reflexivity|].
  assert (Hok1 : timer_attr_ok (fst huya_switched)) by (intros _; eexists; reflexivity).
  assert (Hi1 : -1 <= cdn_index (fst huya_switched)) by (vm_compute; discriminate).
  destruct (C3_cdn_index_upper_clamped env_ok (fst huya_switched)
              (snd huya_switched) Hok1 Hi1) as (_ & _ & _ & _ & Hwrap & _).
  destruct (Hwrap ["v0"; "v1"; "v2"]) as [Hidx _];
    [reflexivity|reflexivity|vm_compute; reflexivity
    |split; [vm_compute; discriminate|reflexivity]|].
  exact Hidx.
Defined.

(** C3 as stated fails in three ways.  At the first dereference: a new
    extractor has [cdn_index] = -1, the check [cdn_index >= 3] does not
    fire, and the endpoint list is dereferenced at -1, outside [0, 3): the
    resolution is the last endpoint and the answer the last variant.  In
    the wrap: with one endpoint and three variants, four [switch_cdn]
    requests select the variants 0, 1, 2, 0, not 0 modulo the endpoint
    count.  And at the dereferences of [base_url] and [stream_name], which
    check nothing: after the second of these requests [cdn_index] is 1, the
    endpoint list has one entry, and both raise IndexError; in the handler
    the second request is therefore answered by the synthesized manifest and
    moves the index to 2. *)
Lemma C3_counterexample :
  let st := fresh HuYa "55" 7200 in
  let out := HuYaRealUrlExtractor.get_real_url env_ok None st in
  let sw := HuYaRealUrlExtractor.get_real_url env_one_cdn (Some "switch_cdn") in
  let s1 := snd (sw st) in
  let s2 := snd (sw s1) in
  let s3 := snd (sw s2) in
  let w1 := snd (serviceWithRate env_one_cdn "huya" "55" (Some "switch_cdn")
                   (initial_world 7200)) in
  let out2 := serviceWithRate env_one_cdn "huya" "55" (Some "switch_cdn") w1 in
  (cdn_index (fst st) = -1 /\
   cdn_index (clamp_cdn_index 3 (fst st)) = -1 /\
   ~ (0 <= -1 < 3) /\
   live_url_infos (fst (snd out)) = [cdn "0"; cdn "1"; cdn "2"] /\
   real_url (fst (snd out)) = VStr "hls2" /\
   fst out = Ok (Some "v2") /\
   cdn_index (fst (snd out)) = -1) /\
  (map (fun s => live_url_infos (fst s)) [s1; s2; s3] = [[cdn "0"]; [cdn "0"]; [cdn "0"]] /\
   [fst (sw st); fst (sw s1); fst (sw s2); fst (sw s3)]
     = [Ok (Some "v0"); Ok (Some "v1"); Ok (Some "v2"); Ok (Some "v0")] /\
   [cdn_index (fst s1); cdn_index (fst s2); cdn_index (fst s3);
    cdn_index (fst (snd (sw s3)))] = [0; 1; 2; 0]) /\
  (cdn_index (fst s2) = 1 /\
   Z.of_nat (length (live_url_infos (fst s2))) = 1 /\
   fst (HuYaRealUrlExtractor.base_url s2) = Raise IndexError /\
   fst (HuYaRealUrlExtractor.stream_name s2) = Raise IndexError /\
   fst out2 = Ok (response_text (fallback_manifest "v1") None 200) /\
   cdn_index <$> registered "huya" "55" (snd out2) = Some 2).
Proof.
  cbn zeta. repeat split; try (vm_compute; reflexivity). lia.
Qed.

(** ** The variant-list cache *)

Lemma huya_get_real_url_cached env sel (e : Extractor) s urls :
  py_is_none (real_url e) = false -> sel <> Some "refresh" ->
  last_real_urls e = Some urls ->
  older_than_120s env (e, s) = false ->
  HuYaRealUrlExtractor.get_real_url env sel (e, s)
  = select_url urls (switch_cdn sel e, next_tick s).
Proof.
  intros Hnn Hsel Hl Hfresh. unfold older_than_120s in Hfresh.
  cbn [fst snd] in Hfresh.
  rewrite huya_get_real_url_eq.
  rewrite super_get_real_url_cached by assumption.
  cbn [fst snd]. unfold drop_refresh. rewrite (sel_eq_false _ _ Hsel).
  rewrite cached_real_urls_eq.
  destruct (switch_cdn_fields sel e) as (_ & Hl' & Ht' & _).
  rewrite Hl', Ht', Hl, Hfresh. reflexivity.
Qed.

Lemma select_url_cache urls st :
  last_real_urls (fst (snd (select_url urls st))) = last_real_urls (fst st) /\
  last_get_real_url_time (fst (snd (select_url urls st)))
    = last_get_real_url_time (fst st).
Proof.
  destruct st as [e s]. unfold select_url. cbn [fst snd].
  destruct (0 <? Z.of_nat (length urls)); [|split; reflexivity].
  destruct (clamp_cdn_index_fields (Z.of_nat (length urls)) e)
    as (H1 & _ & _ & _ & H2).
  destruct (py_index urls _); cbn [fst snd]; auto.
Qed.

(** C6, as the code has it.  The variant list (lines 133-138) is taken from
    the cache, without a call of the client and whatever the selector, when
    a list is cached and no more than 120 seconds have passed since
    [last_get_real_url_time]; it is asked from the client exactly when no
    list is cached or more than 120 seconds have passed since that
    timestamp, and a successful fetch records the list and the time.  The
    timestamp is the time of the last fetch unless
    [reset_last_get_real_url_time] has set it back to [datetime.min] (after
    a 403); then the next call fetches, however recent the last fetch.  A
    request with a selector other than [refresh] on a resolved extractor
    with a fresh cache selects from the cached list and leaves the cache as
    it is. *)
Theorem C6_variant_list_cache env sel (e : Extractor) s :
  let out := HuYaRealUrlExtractor.cached_real_urls env sel (e, s) in
  (forall urls,
     last_real_urls e = Some urls -> older_than_120s env (e, s) = false ->
     out = (Ok urls, (e, next_tick s))) /\
  (last_real_urls e = None ->
   fst out = huya_get_real_url env (room e) sel (tick s) /\
   forall urls, fst out = Ok urls ->
     last_real_urls (fst (snd out)) = Some urls /\
     last_get_real_url_time (fst (snd out)) = datetime_now env (S (tick s))) /\
  (forall cached,
     last_real_urls e = Some cached -> older_than_120s env (e, s) = true ->
     fst out = huya_get_real_url env (room e) sel (S (tick s)) /\
     forall urls, fst out = Ok urls ->
       last_real_urls (fst (snd out)) = Some urls /\
       last_get_real_url_time (fst (snd out)) = datetime_now env (S (S (tick s)))) /\
  (120 * 1000000 < datetime_now env (tick s) ->
   older_than_120s env
     (fst (snd (HuYaRealUrlExtractor.reset_last_get_real_url_time (e, s))), s)
   = true) /\
  (forall urls,
     py_is_none (real_url e) = false -> sel <> Some "refresh" ->
     last_real_urls e = Some urls -> older_than_120s env (e, s) = false ->
     let got := HuYaRealUrlExtractor.get_real_url env sel (e, s) in
     got = select_url urls (switch_cdn sel e, next_tick s) /\
     last_real_urls (fst (snd got)) = Some urls /\
     last_get_real_url_time (fst (snd got)) = last_get_real_url_time e).
Proof.
  cbn zeta. rewrite cached_real_urls_eq. unfold older_than_120s. cbn [fst snd].
  split; [|split; [|split; [|split]]].
  - intros urls Hl Hfresh. rewrite Hl, Hfresh. reflexivity.
  - intros Hl. rewrite Hl. unfold fetch_real_urls. cbn [fst snd].
    destruct (huya_get_real_url env (room e) sel (tick s)) as [urls|x];
      cbn [fst snd]; split; try reflexivity.
    + intros urls' Heq. injection Heq as <-. split; reflexivity.
    + intros urls' Heq. discriminate Heq.
  - intros cached Hl Hstale. rewrite Hl, Hstale.
    unfold fetch_real_urls. cbn [fst snd tick next_tick].
    destruct (huya_get_real_url env (room e) sel (S (tick s))) as [urls|x];
      cbn [fst snd]; split; try reflexivity.
    + intros urls' Heq. injection Heq as <-. split; reflexivity.
    + intros urls' Heq. discriminate Heq.
  - intros Hnow. unfold HuYaRealUrlExtractor.reset_last_get_real_url_time,
      update_self, total_seconds_gt, datetime_min. cbn.
    apply Z.ltb_lt. lia.
  - intros urls Hnn Hsel Hl Hfresh.
    pose proof (huya_get_real_url_cached env sel e s urls Hnn Hsel Hl Hfresh) as Heq.
    rewrite Heq. split; [reflexivity|].
    destruct (select_url_cache urls (switch_cdn sel e, next_tick s)) as [H1 H2].
    destruct (switch_cdn_fields sel e) as (_ & Hl' & Ht' & _).
    cbn [fst] in H1, H2. rewrite H1, H2, Hl', Ht'. auto.
Qed.

(** Two requests to [/huya/55] four seconds apart, the manifest fetch of
    the first answered 403: the first fetches the variant list (["v2"]), the
    403 resets the timestamp, and the second fetches again (["v6"]).  Without
    the reset the second request reuses ["v2"]. *)
Lemma C6_counterexample :
  let env := env_ticking in
  let w1 := snd (service env "huya" "55" (initial_world 7200)) in
  let w2 := snd (service env "huya" "55" w1) in
  let huya55 w := processor_maps w !! "huya" ≫= (fun pm => pm !! "55") in
  fst (service env "huya" "55" (initial_world 7200))
    = Ok (response_text "Forbidden" None 403) /\
  last_real_urls <$> huya55 w1 = Some (Some ["v2"]) /\
  last_real_urls <$> huya55 w2 = Some (Some ["v6"]) /\
  datetime_now env (tick (sys w2)) - datetime_now env (tick (sys w1))
    = 4 * 1000000 /\
  last_real_urls
    (fst (run_events env [Request None; Request None] (fresh HuYa "55" 7200)))
    = Some ["v2"].
Proof. vm_compute. repeat split. Qed.

(** ** The manifest proxy *)

Lemma registered_store p rm e w : registered p rm (store_extractor p rm e w) = Some e.
Proof.
  unfold registered, store_extractor. cbn [processor_maps set_processor_maps].
  rewrite lookup_insert_eq. cbn. apply lookup_insert_eq.
Qed.

Lemma on_extractor_eq {A} p rm (m : M St A) w e :
  registered p rm w = Some e ->
  on_extractor p rm m w =
    (fst (m (e, sys w)),
     store_extractor p rm (fst (snd (m (e, sys w))))
       (set_sys (snd (snd (m (e, sys w)))) w)).
Proof.
  unfold registered. intros H. unfold on_extractor. rewrite H.
  destruct (m (e, sys w)) as [r [e' s']]. reflexivity.
Qed.

Lemma manifest_proxy_fetch_raises env w rm u e x :
  registered "huya" rm w = Some e ->
  requests_get env u (tick (sys w)) = Raise x ->
  exists w',
    manifest_proxy env rm u w
      = (Ok (response_text (fallback_manifest u) None 200), w') /\
    registered "huya" rm w' = Some (set_cdn_index (cdn_index e + 1) e).
Proof.
  intros Hreg Hfetch.
  eassert (Hout : manifest_proxy env rm u w = (_, _)).
  { unfold manifest_proxy.
    unfold bind at 1. unfold attempt at 1. unfold world_external at 1.
    rewrite Hfetch.
    unfold bind at 1. unfold ret at 1. cbn [fst snd].
    unfold bind at 1. unfold bind at 1.
    rewrite (on_extractor_eq "huya" rm _ _ e) by exact Hreg.
    unfold update_self at 1. cbn [fst snd]. unfold ret at 1.
    unfold bind at 1. change (200 =? 403) with false. cbv iota.
    unfold ret at 1. unfold bind at 1. unfold crosHeaders_update at 1.
    unfold ret at 1. reflexivity. }
  eexists. split; [exact Hout|].
  unfold registered, store_extractor.
  cbn [processor_maps set_processor_maps set_crosHeaders set_sys].
  rewrite lookup_insert_eq. cbn. apply lookup_insert_eq.
Qed.

Lemma base_url_eq (e : Extractor) s :
  HuYaRealUrlExtractor.base_url (e, s)
  = (match py_index (live_url_infos e) (cdn_index e) with
     | Ok i => Ok (info_base_url i)
     | Raise x => Raise x
     end, (e, s)).
Proof.
  unfold HuYaRealUrlExtractor.base_url, bind, self, lift, ret. cbn [fst snd].
  destruct (py_index (live_url_infos e) (cdn_index e)); reflexivity.
Qed.

Ltac manifest_fetched rm e Hfetch Hreg Hpi :=
  unfold manifest_proxy;
  unfold bind at 1; unfold attempt at 1; unfold world_external at 1;
  rewrite Hfetch;
  unfold bind at 1; unfold bind at 1; unfold attempt at 1;
  rewrite (on_extractor_eq "huya" rm _ _ e) by exact Hreg;
  rewrite base_url_eq, Hpi; cbn [fst snd sys set_sys].

Ltac manifest_served :=
  unfold bind at 1; unfold crosHeaders_update at 1; unfold ret at 1;
  reflexivity.

Ltac registered_stored :=
  unfold registered, store_extractor;
  cbn [processor_maps set_processor_maps set_crosHeaders set_sys];
  rewrite lookup_insert_eq; cbn; apply lookup_insert_eq.

Lemma manifest_proxy_fetch_returns env w rm u e code body :
  registered "huya" rm w = Some e ->
  requests_get env u (tick (sys w)) = Ok (code, body) ->
  let rewritten :=
    match py_index (live_url_infos e) (cdn_index e) with
    | Ok i =>
        match re_sub_ts env (info_base_url i) body with
        | Ok content => Some content
        | Raise _ => None
        end
    | Raise _ => None
    end in
  let e1 := match rewritten with
            | Some _ => e
            | None => set_cdn_index (cdn_index e + 1) e
            end in
  let e2 := if code =? 403 then set_last_get_real_url_time datetime_min e1 else e1 in
  exists w',
    manifest_proxy env rm u w
      = (Ok (response_text (default (fallback_manifest u) rewritten) None code), w') /\
    registered "huya" rm w' = Some e2.
Proof.
  intros Hreg Hfetch. cbn zeta.
  destruct (py_index (live_url_infos e) (cdn_index e)) as [i|x] eqn:Hpi;
    [destruct (re_sub_ts env (info_base_url i) body) as [c|x] eqn:Hre|];
    destruct (code =? 403) eqn:Hcode.
  - eassert (Hout : manifest_proxy env rm u w = (_, _)).
    { manifest_fetched rm e Hfetch Hreg Hpi. rewrite Hre.
      unfold ret at 1. cbn [fst snd].
      unfold bind at 1. unfold ret at 1.
      unfold bind at 1. rewrite Hcode.
      rewrite (on_extractor_eq "huya" rm _ _ e) by apply registered_store.
      unfold HuYaRealUrlExtractor.reset_last_get_real_url_time, update_self.
      cbn [fst snd]. manifest_served. }
    eexists. split; [exact Hout|registered_stored].
  - eassert (Hout : manifest_proxy env rm u w = (_, _)).
    { manifest_fetched rm e Hfetch Hreg Hpi. rewrite Hre.
      unfold ret at 1. cbn [fst snd].
      unfold bind at 1. unfold ret at 1.
      unfold bind at 1. rewrite Hcode.
      unfold ret at 1. manifest_served. }
    eexists. split; [exact Hout|registered_stored].
  - eassert (Hout : manifest_proxy env rm u w = (_, _)).
    { manifest_fetched rm e Hfetch Hreg Hpi. rewrite Hre.
      unfold ret at 1. cbn [fst snd].
      unfold bind at 1. unfold bind at 1.
      rewrite (on_extractor_eq "huya" rm _ _ e) by apply registered_store.
      unfold update_self at 1. cbn [fst snd]. unfold ret at 1.
      unfold bind at 1. rewrite Hcode.
      rewrite (on_extractor_eq "huya" rm _ _ (set_cdn_index (cdn_index e + 1) e))
        by apply registered_store.
      unfold HuYaRealUrlExtractor.reset_last_get_real_url_time, update_self.
      cbn [fst snd]. manifest_served. }
    eexists. split; [exact Hout|registered_stored].
  - eassert (Hout : manifest_proxy env rm u w = (_, _)).
    { manifest_fetched rm e Hfetch Hreg Hpi. rewrite Hre.
      unfold ret at 1. cbn [fst snd].
      unfold bind at 1. unfold bind at 1.
      rewrite (on_extractor_eq "huya" rm _ _ e) by apply registered_store.
      unfold update_self at 1. cbn [fst snd]. unfold ret at 1.
      unfold bind at 1. rewrite Hcode.
      unfold ret at 1. manifest_served. }
    eexists. split; [exact Hout|registered_stored].
  - eassert (Hout : manifest_proxy env rm u w = (_, _)).
    { manifest_fetched rm e Hfetch Hreg Hpi.
      unfold ret at 1. cbn [fst snd].
      unfold bind at 1. unfold bind at 1.
      rewrite (on_extractor_eq "huya" rm _ _ e) by apply registered_store.
      unfold update_self at 1. cbn [fst snd]. unfold ret at 1.
      unfold bind at 1. rewrite Hcode.
      rewrite (on_extractor_eq "huya" rm _ _ (set_cdn_index (cdn_index e + 1) e))
        by apply registered_store.
      unfold HuYaRealUrlExtractor.reset_last_get_real_url_time, update_self.
      cbn [fst snd]. manifest_served. }
    eexists. split; [exact Hout|registered_stored].
  - eassert (Hout : manifest_proxy env rm u w = (_, _)).
    { manifest_fetched rm e Hfetch Hreg Hpi.
      unfold ret at 1. cbn [fst snd].
      unfold bind at 1. unfold bind at 1.
      rewrite (on_extractor_eq "huya" rm _ _ e) by apply registered_store.
      unfold update_self at 1. cbn [fst snd]. unfold ret at 1.
      unfold bind at 1. rewrite Hcode.
      unfold ret at 1. manifest_served. }
    eexists. split; [exact Hout|registered_stored].
Qed.

Lemma stale_cache_asks_client env sel (e : Extractor) s :
  older_than_120s env (e, s) = true ->
  exists n, fst (HuYaRealUrlExtractor.cached_real_urls env sel (e, s))
            = huya_get_real_url env (room e) sel n.
Proof.
  intros Hstale. unfold older_than_120s in Hstale. cbn [fst snd] in Hstale.
  rewrite cached_real_urls_eq.
  destruct (last_real_urls e) as [urls|].
  - rewrite Hstale. exists (S (tick s)). unfold fetch_real_urls. cbn [fst snd].
    destruct (huya_get_real_url env (room e) sel (tick (next_tick s))) eqn:E;
      cbn [fst tick next_tick] in *; rewrite E; reflexivity.
  - exists (tick s). unfold fetch_real_urls. cbn [fst snd].
    destruct (huya_get_real_url env (room e) sel (tick s)); reflexivity.
Qed.

(** C7, as the code has it.  A manifest fetch fails when [requests.get]
    raises (network error, timeout) or when the rewriting raises, which it
    does when [base_url()] raises IndexError and when [re.sub] rejects the
    base URL as a replacement template: the body is then the synthesized
    manifest whose only variant is the resolved URL, unmodified, and
    [cdn_index] is advanced by one.  A response with any status, 2xx or not,
    is no failure: its body is rewritten and served with the upstream
    status, and [cdn_index] stays; a base URL without a backslash is always
    accepted.  Status 403 resets [last_get_real_url_time] to [datetime.min],
    so the next variant lookup asks the client whatever the age of the
    cached list. *)
Theorem C7_manifest_proxy_failure env w rm u e :
  registered "huya" rm w = Some e ->
  let out := manifest_proxy env rm u w in
  let e' := registered "huya" rm (snd out) in
  (forall x, requests_get env u (tick (sys w)) = Raise x ->
     fst out = Ok (response_text (fallback_manifest u) None 200) /\
     e' = Some (set_cdn_index (cdn_index e + 1) e)) /\
  (forall code body,
     requests_get env u (tick (sys w)) = Ok (code, body) ->
     (forall i content, py_index (live_url_infos e) (cdn_index e) = Ok i ->
        re_sub_ts env (info_base_url i) body = Ok content ->
        fst out = Ok (response_text content None code) /\
        cdn_index <$> e' = Some (cdn_index e)) /\
     (forall i x, py_index (live_url_infos e) (cdn_index e) = Ok i ->
        re_sub_ts env (info_base_url i) body = Raise x ->
        fst out = Ok (response_text (fallback_manifest u) None code) /\
        cdn_index <$> e' = Some (cdn_index e + 1)) /\
     (forall x, py_index (live_url_infos e) (cdn_index e) = Raise x ->
        fst out = Ok (response_text (fallback_manifest u) None code) /\
        cdn_index <$> e' = Some (cdn_index e + 1)) /\
     (forall base, is_substring backslash base = false ->
        re_sub_ts env base body = Ok (prefix_ts_lines base body)) /\
     (code = 403 ->
        last_get_real_url_time <$> e' = Some datetime_min /\
        forall e2 s sel, e' = Some e2 ->
          120 * 1000000 < datetime_now env (tick s) ->
          exists n, fst (HuYaRealUrlExtractor.cached_real_urls env sel (e2, s))
                    = huya_get_real_url env (room e2) sel n) /\
     (code <> 403 ->
        last_get_real_url_time <$> e' = Some (last_get_real_url_time e))).
Proof.
  intros Hreg. cbn zeta. split.
  - intros x Hfetch.
    destruct (manifest_proxy_fetch_raises env w rm u e x Hreg Hfetch)
      as (w' & Hout & Hreg').
    rewrite Hout. cbn [fst snd]. auto.
  - intros code body Hfetch.
    destruct (manifest_proxy_fetch_returns env w rm u e code body Hreg Hfetch)
      as (w' & Hout & Hreg').
    rewrite Hout. cbn [fst snd]. rewrite Hreg'. clear Hout Hreg'.
    split; [|split; [|split; [|split; [|split]]]].
    + intros i content Hi Hre. rewrite Hi, Hre. cbn. split; [reflexivity|].
      destruct (code =? 403); reflexivity.
    + intros i x Hi Hre. rewrite Hi, Hre. cbn. split; [reflexivity|].
      destruct (code =? 403); reflexivity.
    + intros x Hx. rewrite Hx. cbn. split; [reflexivity|].
      destruct (code =? 403); reflexivity.
    + intros base Hb. unfold re_sub_ts. rewrite Hb. reflexivity.
    + intros ->. cbn. split; [reflexivity|].
      intros e2 s sel He2 Hnow. injection He2 as <-.
      apply stale_cache_asks_client.
      unfold older_than_120s, total_seconds_gt, datetime_min. cbn.
      apply Z.ltb_lt. lia.
    + intros Hcode. apply Z.eqb_neq in Hcode. rewrite Hcode.
      destruct (py_index (live_url_infos e) (cdn_index e)) as [i|x];
        [destruct (re_sub_ts env (info_base_url i) body)|]; reflexivity.
Qed.

(** The manifest server is unreachable: the body is the synthesized
    manifest and the index of the extractor moves from -1 to 0.  The
    manifest server answers 200 but the base URL of the endpoint has a
    backslash and [re.sub] rejects it: the body is the synthesized manifest
    again, with the upstream status, and the index moves from 0 to 1. *)
Lemma C7_witness :
  (fst (manifest_proxy env_offline "55" "http://cdn/live.m3u8" world_huya55)
     = Ok (response_text (fallback_manifest "http://cdn/live.m3u8") None 200) /\
   cdn_index <$> registered "huya" "55"
       (snd (manifest_proxy env_offline "55" "http://cdn/live.m3u8" world_huya55))
     = Some 0) /\
  (fst (manifest_proxy env_ok "55" "http://cdn/live.m3u8" world_backslash)
     = Ok (response_text (fallback_manifest "http://cdn/live.m3u8") None 200) /\
   cdn_index <$> registered "huya" "55"
       (snd (manifest_proxy env_ok "55" "http://cdn/live.m3u8" world_backslash))
     = Some 1).
Proof.
  split.
  - destruct (C7_manifest_proxy_failure env_offline world_huya55 "55"
                "http://cdn/live.m3u8" (fst (fresh HuYa "55" 0)) eq_refl)
      as [Hraise _].
    destruct (Hraise (External "offline") eq_refl) as [Hbody Hreg].
    split; [exact Hbody|].
    cbn zeta in Hreg. rewrite Hreg. reflexivity.
  - destruct (C7_manifest_proxy_failure env_ok world_backslash "55"
                "http://cdn/live.m3u8"
                (set_cdn_index 0
                   (set_live_url_infos [cdn_backslash] (fst (fresh HuYa "55" 0))))
                eq_refl)
      as [_ Hret].
    destruct (Hret 200 sample_manifest eq_refl) as (_ & Hre & _).
    exact (Hre cdn_backslash (External "re.error") eq_refl eq_refl).
Defined.

(** C7 as stated fails for a non-2xx answer: the manifest server answers
    500 and the response is that body with status 500, not the synthesized
    manifest; [cdn_index] is not advanced. *)
Lemma C7_counterexample :
  let out := service env_500 "huya" "55" (initial_world 7200) in
  fst out = Ok (response_text "Internal Server Error" None 500) /\
  "Internal Server Error" <> fallback_manifest "v2" /\
  cdn_index <$> registered "huya" "55" (snd out) = Some (-1) /\
  cdn_index (fst (fresh HuYa "55" 7200)) = -1.
Proof.
  cbn zeta. split; [vm_compute; reflexivity|]. split; [discriminate|].
  split; vm_compute; reflexivity.
Qed.

(** ** Resolution errors of the HuYa client *)

Lemma pending_fire_timer t : pending (fire_timer t) = false.
Proof. unfold pending. cbn. rewrite andb_false_r. reflexivity. Qed.

Lemma fired_timers_not_pending (e : Extractor) (s : Sys) h :
  owns_pending (e, s) -> refresh_timer e = Some h ->
  forall i t, alter fire_timer h (timers s) !! i = Some t ->
              ~ (t_owner t = (cls e, room e) /\ pending t = true).
Proof.
  intros Hown Hh i t Hi [Ho Hp].
  destruct (decide (h = i)) as [->|Hne].
  - rewrite list_lookup_alter_eq in Hi.
    destruct (timers s !! i) as [t0|]; [|discriminate].
    cbn in Hi. injection Hi as <-. rewrite pending_fire_timer in Hp.
    discriminate.
  - rewrite list_lookup_alter_ne in Hi by exact Hne.
    specialize (Hown i t Hi Ho Hp). cbn in Hown. congruence.
Qed.

Lemma huya_extract_raises env (e : Extractor) s x :
  huya_update_live_url_info env (room e) (tick s) = Raise x ->
  HuYaRealUrlExtractor._extract_real_url env (e, s) = (Raise x, (e, next_tick s)).
Proof.
  intros H. rewrite huya_extract_eq. unfold huya_extract_outcome.
  cbn [fst snd]. rewrite H. reflexivity.
Qed.

(** C8, what the code does for HuYa.  [_extract_real_url] calls
    [update_live_url_info] outside any [try].  When the client raises during
    the refresh of the timer, [refresh_real_url] swallows the exception
    without logging it and without reaching [reset_refresh_timer]: the timer
    that fired is spent, no other is started, and the extractor has no
    pending refresh left.  When the refresh is forced by [get_real_url]
    (selector [refresh], or no resolution yet), the exception reaches the
    caller. *)
Theorem C8_huya_client_error_escapes env (e : Extractor) s x h t :
  cls e = HuYa -> owns_pending (e, s) ->
  refresh_timer e = Some h -> timers s !! h = Some t -> pending t = true ->
  huya_update_live_url_info env (room e) (tick s) = Raise x ->
  let fired := timer_fires env (e, s) in
  fst fired = Ok tt /\
  fst (snd fired) = e /\
  pending_timers (snd fired) = [] /\
  log (snd (snd fired)) = log s /\
  HuYaRealUrlExtractor.get_real_url env (Some "refresh") (e, s)
    = (Raise x, (e, next_tick s)) /\
  (real_url e = VNone -> forall sel,
     HuYaRealUrlExtractor.get_real_url env sel (e, s) = (Raise x, (e, next_tick s))).
Proof.
  intros Hcls Hown Hh Ht Hp Hupd. cbn zeta.
  assert (Hfired : timer_fires env (e, s)
            = (Ok tt, (e, next_tick (set_timers (alter fire_timer h (timers s)) s)))).
  { unfold timer_fires. cbn [fst snd]. rewrite Hh, Ht, Hp, Hcls.
    unfold bind, alter_timer. cbn [fst snd refresh_real_url].
    unfold HuYaRealUrlExtractor.refresh_real_url,
      RealUrlExtractor.refresh_real_url, try_except.
    rewrite (huya_extract_raises env e
               (set_timers (alter fire_timer h (timers s)) s) x Hupd).
    reflexivity. }
  rewrite Hfired. cbn [fst snd].
  split; [reflexivity|]. split; [reflexivity|]. split; [|split; [reflexivity|]].
  - unfold pending_timers. cbn [fst snd timers next_tick set_timers].
    apply filter_none. apply fired_timers_not_pending; assumption.
  - split.
    + rewrite huya_get_real_url_eq, super_get_real_url_refresh.
      rewrite (huya_extract_raises env e s x Hupd). reflexivity.
    + intros Hnone sel.
      rewrite huya_get_real_url_eq.
      rewrite (super_get_real_url_first _ sel e s Hnone).
      rewrite (huya_extract_raises env e s x Hupd). reflexivity.
Qed.

(** The refresh timer of a resolved HuYa extractor (interval 7200) expires
    while the client raises: nothing is pending afterwards, and a forced
    refresh raises to its caller. *)
Lemma C8_witness :
  pending_timers huya_running
    = [{| t_interval := inject_Z 7200; t_owner := (HuYa, "55");
          t_started := true; t_cancelled := false; t_fired := false |}] /\
  fst (timer_fires env_huya_crash (fst huya_running, snd huya_running)) = Ok tt /\
  pending_timers
    (snd (timer_fires env_huya_crash (fst huya_running, snd huya_running))) = [] /\
  fst (HuYaRealUrlExtractor.get_real_url env_huya_crash (Some "refresh")
         (fst huya_running, snd huya_running)) = Raise (External "timeout").
Proof.
  assert (Hown : owns_pending (fst huya_running, snd huya_running)).
  { intros i t Hi Ho Hp.
    destruct i as [|[|i]]; cbn in Hi.
    - injection Hi as <-. discriminate Hp.
    - reflexivity.
    - discriminate Hi. }
  pose proof (C8_huya_client_error_escapes env_huya_crash
                (fst huya_running) (snd huya_running) (External "timeout")
                1%nat _ eq_refl Hown eq_refl eq_refl eq_refl eq_refl)
    as (H1 & _ & H3 & _ & H5 & _).
  split; [reflexivity|]. split; [exact H1|]. split; [exact H3|].
  rewrite H5. reflexivity.
Defined.

(** The sibling path: in the same situation a DouYu client error is caught
    inside [_extract_real_url], logged as a failed resolution, and the next
    refresh is scheduled after half the interval. *)
Lemma douyu_client_error_reschedules :
  let out := timer_fires env_offline
               (snd (RealUrlExtractor._extract_real_url env_offline
                       DouYuRealUrlExtractor._is_url_valid douyu_failed)) in
  fst out = Ok tt /\
  map t_interval (pending_timers (snd out)) = [Qhalf 7200] /\
  last (log (snd (snd out)))
    = Some {| lvl := INFO; fmt := "failed to extract real url"; args := [] |}.
Proof. vm_compute. repeat split. Qed.

Lemma not_pending_held_timer (e : Extractor) (s : Sys) h t :
  owns_pending (e, s) -> refresh_timer e = Some h ->
  timers s !! h = Some t -> pending t = false ->
  pending_timers (e, s) = [].
Proof.
  intros Hown Hh Ht Hp. unfold pending_timers. cbn [fst snd].
  apply filter_none. intros i t' Hi [Ho Hp'].
  pose proof (Hown i t' Hi Ho Hp') as Hi'. cbn [fst] in Hi'.
  rewrite Hh in Hi'. injection Hi' as <-. congruence.
Qed.

(** C5, what the code does for HuYa.  [refresh_real_url] of a HuYa
    extractor whose client raises returns normally without reaching
    [reset_refresh_timer]: the extractor and the timers are as they were,
    so nothing was cancelled and nothing scheduled, although the interval is
    positive.  When the refresh is the one run by the timer that has just
    expired, the extractor is left with no pending refresh. *)
Theorem C5_huya_refresh_skips_reschedule env (e : Extractor) s x :
  0 < auto_refresh_interval e ->
  huya_update_live_url_info env (room e) (tick s) = Raise x ->
  let out := refresh_real_url env HuYa (e, s) in
  fst out = Ok tt /\
  fst (snd out) = e /\
  timers (snd (snd out)) = timers s /\
  log (snd (snd out)) = log s /\
  pending_timers (snd out) = pending_timers (e, s) /\
  (forall h t, owns_pending (e, s) -> refresh_timer e = Some h ->
     timers s !! h = Some t -> pending t = false ->
     pending_timers (snd out) = []).
Proof.
  intros Hpos Hupd. cbn zeta.
  assert (Hout : refresh_real_url env HuYa (e, s) = (Ok tt, (e, next_tick s))).
  { cbn [refresh_real_url].
    unfold HuYaRealUrlExtractor.refresh_real_url,
      RealUrlExtractor.refresh_real_url, try_except.
    rewrite (huya_extract_raises env e s x Hupd). reflexivity. }
  rewrite Hout. cbn [fst snd].
  repeat split.
  intros h t Hown Hh Ht Hp.
  exact (not_pending_held_timer e s h t Hown Hh Ht Hp).
Qed.

(** The refresh timer (7200 seconds) of a resolved HuYa extractor has
    expired and the client raises: the refresh returns and no refresh is
    pending afterwards. *)
Lemma C5_witness :
  0 < auto_refresh_interval (fst huya_expired) /\
  fst (refresh_real_url env_huya_crash HuYa (fst huya_expired, snd huya_expired))
    = Ok tt /\
  pending_timers
    (snd (refresh_real_url env_huya_crash HuYa (fst huya_expired, snd huya_expired)))
    = [].
Proof.
  assert (Hown : owns_pending (fst huya_expired, snd huya_expired)).
  { intros i t Hi Ho Hp.
    destruct i as [|[|i]]; cbn in Hi.
    - injection Hi as <-. discriminate Hp.
    - injection Hi as <-. discriminate Hp.
    - discriminate Hi. }
  destruct (C5_huya_refresh_skips_reschedule env_huya_crash
              (fst huya_expired) (snd huya_expired) (External "timeout")
              eq_refl eq_refl)
    as (H1 & _ & _ & _ & _ & H6).
  split; [reflexivity|]. split; [exact H1|].
  exact (H6 1%nat _ Hown eq_refl eq_refl eq_refl).
Defined.

(** A resolved HuYa extractor whose variant list was fetched three seconds
    ago: a request with a bit-rate selector leaves the cache as it is. *)
Lemma C6_witness :
  last_real_urls
    (fst (snd (HuYaRealUrlExtractor.get_real_url env_ok (Some "720p")
                 (fst huya_switched, snd huya_switched))))
    = Some ["v0"; "v1"; "v2"] /\
  last_get_real_url_time
    (fst (snd (HuYaRealUrlExtractor.get_real_url env_ok (Some "720p")
                 (fst huya_switched, snd huya_switched))))
    = last_get_real_url_time (fst huya_switched).
Proof.
  destruct (C6_variant_list_cache env_ok (Some "720p")
              (fst huya_switched) (snd huya_switched))
    as (_ & _ & _ & _ & Hreq).
  destruct (Hreq ["v0"; "v1"; "v2"]) as (_ & H1 & H2);
    [reflexivity|discriminate|reflexivity|vm_compute; reflexivity|].
  split; [exact H1|exact H2].
Defined.

(** ** No exception leaves a handler *)

Lemma always_ok_ret {S A} (a : A) : always_ok (ret a : M S A).
Proof. intros s. exists a. reflexivity. Qed.

Lemma always_ok_bind {S A B} (m : M S A) (k : A -> M S B) :
  always_ok m -> (forall a, always_ok (k a)) -> always_ok (bind m k).
Proof.
  intros Hm Hk s. unfold bind. destruct (Hm s) as [a Ha].
  destruct (m s) as [[a'|x] s1]; cbn [fst] in Ha; [|discriminate].
  apply Hk.
Qed.

Lemma always_ok_try_except {S A} (m : M S A) (h : exn -> M S A) :
  (forall x, always_ok (h x)) -> always_ok (try_except m h).
Proof.
  intros Hh s. unfold try_except. destruct (m s) as [[a|x] s1]; [eauto|].
  apply Hh.
Qed.

Lemma always_ok_world_log l f a : always_ok (world_log l f a).
Proof. intros w. exists tt. reflexivity. Qed.

Lemma always_ok_ensure_provider_map p : always_ok (ensure_provider_map p).
Proof.
  intros w. exists tt. unfold ensure_provider_map.
  destruct (processor_maps w !! p); reflexivity.
Qed.

Lemma always_ok_not_found : always_ok not_found.
Proof. intros w. eexists. reflexivity. Qed.

Lemma always_ok_handler_error l f a :
  always_ok (bind (world_log l f a) (fun _ => ret (None : option Response))).
Proof.
  apply always_ok_bind; [apply always_ok_world_log|]. intros _. apply always_ok_ret.
Qed.

(** X1: whatever the provider, the room, the selector, the behaviour of the
    clients and of the manifest server, and the state of the module,
    [serviceWithRate] returns a response: every exception raised below it is
    caught by a [try] of the handler.  The response is a 301 redirect given
    the shared dict or a text response. *)
Theorem serviceWithRate_always_responds env p rm sel w :
  exists r, fst (serviceWithRate env p rm sel w) = Ok r /\ response_shape r.
Proof.
  assert (H : always_ok (serviceWithRate env p rm sel)).
  { unfold serviceWithRate.
    apply always_ok_bind; [apply always_ok_world_log|]. intros _.
    apply always_ok_bind.
    2:{ intros [r|]; [apply always_ok_ret|apply always_ok_not_found]. }
    destruct (String.eqb p "douyu").
    { apply always_ok_bind; [apply always_ok_ensure_provider_map|]. intros _.
      apply always_ok_try_except. intros x. apply always_ok_handler_error. }
    destruct (String.eqb p "bilibili").
    { apply always_ok_bind; [apply always_ok_ensure_provider_map|]. intros _.
      apply always_ok_try_except. intros x. apply always_ok_handler_error. }
    destruct (String.eqb p "huya").
    { apply always_ok_bind; [apply always_ok_ensure_provider_map|]. intros _.
      apply always_ok_try_except. intros x. apply always_ok_handler_error. }
    apply always_ok_ret. }
  destruct (H w) as [r Hr]. exists r. split; [exact Hr|].
  destruct (serviceWithRate env p rm sel w) as [r' w'] eqn:E.
  cbn [fst] in Hr. subst r'.
  exact (serviceWithRate_shape env p rm sel w r w' E).
Qed.

(** ** The shared CORS dict *)

Lemma step_ret {A} (I : World -> Prop) (a : A) (Q : A -> Prop) :
  Q a -> step_spec I (ret a) Q.
Proof.
  intros Hq w Hw. split; [exact Hw|]. cbn. intros a' Ha. injection Ha as <-.
  exact Hq.
Qed.

Lemma step_bind {A B} (I : World -> Prop) (m : M World A) (k : A -> M World B)
    (Q1 : A -> Prop) (Q : B -> Prop) :
  step_spec I m Q1 -> (forall a, Q1 a -> step_spec I (k a) Q) ->
  step_spec I (bind m k) Q.
Proof.
  intros Hm Hk w Hw. unfold bind. destruct (Hm w Hw) as [Hi Hq].
  destruct (m w) as [[a|x] w1]; cbn [fst snd] in *.
  - apply (Hk a (Hq a eq_refl) w1 Hi).
  - split; [exact Hi|discriminate].
Qed.

Lemma step_try_except {A} (I : World -> Prop) (m : M World A)
    (h : exn -> M World A) (Q : A -> Prop) :
  step_spec I m Q -> (forall x, step_spec I (h x) Q) ->
  step_spec I (try_except m h) Q.
Proof.
  intros Hm Hh w Hw. unfold try_except. destruct (Hm w Hw) as [Hi Hq].
  destruct (m w) as [[a|x] w1]; cbn [fst snd] in *.
  - split; [exact Hi|exact Hq].
  - apply (Hh x w1 Hi).
Qed.

Lemma step_weaken {A} (I : World -> Prop) (m : M World A) (Q1 Q : A -> Prop) :
  step_spec I m Q1 -> (forall a, Q1 a -> Q a) -> step_spec I m Q.
Proof.
  intros Hm Hq w Hw. destruct (Hm w Hw) as [Hi H1]. split; [exact Hi|].
  intros a Ha. apply Hq, H1, Ha.
Qed.

Lemma step_keeps_headers {A} (m : M World A) :
  keeps_headers m -> step_spec cors_intact m (fun _ => True).
Proof.
  intros Hk w Hw. split; [|auto]. unfold cors_intact. rewrite Hk. exact Hw.
Qed.

Lemma keeps_headers_world_log l f a : keeps_headers (world_log l f a).
Proof. intros w. reflexivity. Qed.

Lemma keeps_headers_ensure_provider_map p : keeps_headers (ensure_provider_map p).
Proof.
  intros w. unfold ensure_provider_map. destruct (processor_maps w !! p); reflexivity.
Qed.

Lemma keeps_headers_room_is_new p rm : keeps_headers (room_is_new p rm).
Proof.
  intros w. unfold room_is_new. destruct (processor_maps w !! p); reflexivity.
Qed.

Lemma keeps_headers_load_name n : keeps_headers (load_name n).
Proof.
  intros w. unfold load_name. destruct (String.eqb n "auto_refresh_interval");
    [reflexivity|]. case_bool_decide; reflexivity.
Qed.

Lemma keeps_headers_getattr v : keeps_headers (getattr_auto_refresh_interval v).
Proof. destruct v; intros w; reflexivity. Qed.

Lemma keeps_headers_as_interval v : keeps_headers (as_interval v).
Proof. destruct v; intros w; reflexivity. Qed.

Lemma keeps_headers_new_extractor init p rm : keeps_headers (new_extractor init p rm).
Proof.
  intros w. unfold new_extractor.
  destruct (init (sys w)) as [[[]|x] [e s']]; reflexivity.
Qed.

Lemma keeps_headers_on_extractor {A} p rm (m : M St A) : keeps_headers (on_extractor p rm m).
Proof.
  intros w. unfold on_extractor.
  destruct (processor_maps w !! p ≫= (fun pm => pm !! rm)) as [e|]; [|reflexivity].
  destruct (m (e, sys w)) as [r [e' s']]. reflexivity.
Qed.

Lemma keeps_headers_world_external {A} (f : nat -> result A) :
  keeps_headers (world_external f).
Proof. intros w. reflexivity. Qed.

Lemma keeps_headers_attempt {A} (m : M World A) :
  keeps_headers m -> keeps_headers (attempt m).
Proof.
  intros Hm w. unfold attempt. specialize (Hm w). destruct (m w). exact Hm.
Qed.

Lemma step_crosHeaders_update ctype clen :
  step_spec cors_intact
    (crosHeaders_update (<["Content-type" := ctype]> (<["Content-Length" := clen]> ∅)))
    (fun h => h = None).
Proof.
  intros w (H1 & H2 & H3). split; [|cbn; congruence].
  unfold cors_intact, crosHeaders_update. cbn [snd crosHeaders set_crosHeaders].
  repeat split;
    (rewrite lookup_union_r;
     [assumption
     |rewrite lookup_insert_ne by discriminate;
      rewrite lookup_insert_ne by discriminate; apply lookup_empty]).
Qed.

Lemma step_redirect_to o :
  step_spec cors_intact (redirect_to o)
    (fun ret => forall r, ret = Some r -> redirect_ok r).
Proof.
  intros w Hw. destruct o as [u|]; cbn.
  - split; [exact Hw|]. intros a Ha. injection Ha as <-.
    intros r Hr. injection Hr as <-. cbn. split; [reflexivity|].
    exists (crosHeaders w). split; [reflexivity|exact Hw].
  - split; [exact Hw|]. intros a Ha. injection Ha as <-. discriminate.
Qed.

Lemma step_not_found : step_spec cors_intact not_found redirect_ok.
Proof.
  unfold not_found. cbn zeta.
  eapply step_bind; [apply step_crosHeaders_update|].
  intros h _. apply step_ret. exact I.
Qed.

Lemma step_manifest_proxy env rm u :
  step_spec cors_intact (manifest_proxy env rm u) redirect_ok.
Proof.
  unfold manifest_proxy.
  eapply step_bind;
    [apply step_keeps_headers, keeps_headers_attempt, keeps_headers_world_external|].
  intros fetched _.
  eapply step_bind with (Q1 := fun _ => True).
  { destruct fetched as [[code body]|x]; [|apply step_ret; exact I].
    eapply step_bind;
      [apply step_keeps_headers, keeps_headers_attempt, keeps_headers_on_extractor|].
    intros [b|x] _; [destruct (re_sub_ts env b body)|]; apply step_ret; exact I. }
  intros outcome _. cbn zeta.
  eapply step_bind with (Q1 := fun _ => True).
  { destruct (snd outcome); [apply step_ret; exact I|].
    eapply step_bind; [apply step_keeps_headers, keeps_headers_on_extractor|].
    intros _ _. apply step_ret. exact I. }
  intros content _.
  eapply step_bind with (Q1 := fun _ => True).
  { destruct (fst outcome =? 403);
      [apply step_keeps_headers, keeps_headers_on_extractor|apply step_ret; exact I]. }
  intros _ _.
  eapply step_bind; [apply step_crosHeaders_update|].
  intros h _. apply step_ret. exact I.
Qed.

Lemma step_handler_error l f a :
  step_spec cors_intact
    (bind (world_log l f a) (fun _ => ret (None : option Response)))
    (fun ret => forall r, ret = Some r -> redirect_ok r).
Proof.
  eapply step_bind; [apply step_keeps_headers, keeps_headers_world_log|].
  intros _ _. apply step_ret. discriminate.
Qed.

Lemma step_serviceWithRate env p rm sel :
  step_spec cors_intact (serviceWithRate env p rm sel) redirect_ok.
Proof.
  unfold serviceWithRate.
  eapply step_bind; [apply step_keeps_headers, keeps_headers_world_log|].
  intros _ _.
  eapply step_bind with (Q1 := fun ret => forall r, ret = Some r -> redirect_ok r).
  2:{ intros [r|] Hr; [apply step_ret, Hr, eq_refl|apply step_not_found]. }
  destruct (String.eqb p "douyu").
  { eapply step_bind;
      [apply step_keeps_headers, keeps_headers_ensure_provider_map|].
    intros _ _. apply step_try_except.
    - eapply step_bind; [apply step_keeps_headers, keeps_headers_room_is_new|].
      intros is_new _.
      eapply step_bind with (Q1 := fun _ => True).
      { destruct is_new; [|apply step_ret; exact I].
        eapply step_bind; [apply step_keeps_headers, keeps_headers_load_name|].
        intros slf _.
        eapply step_bind; [apply step_keeps_headers, keeps_headers_getattr|].
        intros a _.
        eapply step_bind; [apply step_keeps_headers, keeps_headers_as_interval|].
        intros interval _. apply step_keeps_headers, keeps_headers_new_extractor. }
      intros _ _.
      eapply step_bind; [apply step_keeps_headers, keeps_headers_on_extractor|].
      intros u _. apply step_redirect_to.
    - intros x. apply step_handler_error. }
  destruct (String.eqb p "bilibili").
  { eapply step_bind;
      [apply step_keeps_headers, keeps_headers_ensure_provider_map|].
    intros _ _. apply step_try_except.
    - eapply step_bind; [apply step_keeps_headers, keeps_headers_room_is_new|].
      intros is_new _.
      eapply step_bind with (Q1 := fun _ => True).
      { destruct is_new; [|apply step_ret; exact I].
        eapply step_bind; [apply step_keeps_headers, keeps_headers_load_name|].
        intros a _.
        eapply step_bind; [apply step_keeps_headers, keeps_headers_as_interval|].
        intros interval _. apply step_keeps_headers, keeps_headers_new_extractor. }
      intros _ _.
      eapply step_bind; [apply step_keeps_headers, keeps_headers_on_extractor|].
      intros u _. apply step_redirect_to.
    - intros x. apply step_handler_error. }
  destruct (String.eqb p "huya").
  { eapply step_bind;
      [apply step_keeps_headers, keeps_headers_ensure_provider_map|].
    intros _ _. apply step_try_except.
    - eapply step_bind; [apply step_keeps_headers, keeps_headers_room_is_new|].
      intros is_new _.
      eapply step_bind with (Q1 := fun _ => True).
      { destruct is_new; [|apply step_ret; exact I].
        eapply step_bind; [apply step_keeps_headers, keeps_headers_load_name|].
        intros a _.
        eapply step_bind; [apply step_keeps_headers, keeps_headers_as_interval|].
        intros interval _. apply step_keeps_headers, keeps_headers_new_extractor. }
      intros _ _.
      eapply step_bind; [apply step_keeps_headers, keeps_headers_on_extractor|].
      intros [u|] _.
      + eapply step_bind; [apply step_manifest_proxy|].
        intros r Hr. apply step_ret. intros r' Hr'. injection Hr' as <-. exact Hr.
      + apply step_ret. discriminate.
    - intros x. apply step_handler_error. }
  apply step_ret. discriminate.
Qed.

Lemma reachable_cors_intact env w : reachable env w -> cors_intact w.
Proof.
  induction 1 as [interval|w p rm sel Hw IH|w p rm Hw IH].
  - repeat split.
  - apply (step_serviceWithRate env p rm sel w IH).
  - unfold cors_intact. rewrite keeps_headers_on_extractor. exact IH.
Qed.

(** X2: in every state the server can reach, the shared dict still has the
    three CORS entries, whatever was added to it, and every redirect that
    [serviceWithRate] returns has status 301 and is given those entries. *)
Theorem redirects_carry_cors env w p rm sel r :
  reachable env w ->
  fst (serviceWithRate env p rm sel w) = Ok r ->
  redirect_ok r /\ cors_intact (snd (serviceWithRate env p rm sel w)).
Proof.
  intros Hw Hr.
  destruct (step_serviceWithRate env p rm sel w (reachable_cors_intact env w Hw))
    as [Hi Hq].
  split; [apply Hq, Hr|exact Hi].
Qed.

Lemma redirects_carry_cors_witness :
  fst (service env_ok "bilibili" "7" (initial_world 7200))
    = Ok (response_redirect "http://b" (Some crosHeaders0) 301) /\
  carries_cors (response_redirect "http://b" (Some crosHeaders0) 301).
Proof.
  assert (E : fst (service env_ok "bilibili" "7" (initial_world 7200))
              = Ok (response_redirect "http://b" (Some crosHeaders0) 301))
    by (vm_compute; reflexivity).
  split; [exact E|].
  exact (proj2 (proj1 (redirects_carry_cors env_ok (initial_world 7200) "bilibili"
                         "7" None _ (reachable_initial _ _) E))).
Defined.

(** ** Reading a resolution that is held *)

Lemma bilibili_get_real_url_held env sel (e : Extractor) s :
  py_is_none (real_url e) = false -> sel <> Some "refresh" ->
  BilibiliRealUrlExtractor.get_real_url env sel (e, s) =
    (match real_url e with
     | VDict m => bilibili_answer m
     | VStr u => if String.eqb u "None" then Ok None else Raise TypeError
     | VNone => Ok None
     end, (e, s)).
Proof.
  intros Hnn Hsel. unfold BilibiliRealUrlExtractor.get_real_url.
  rewrite (bind_ok _ _ (e, s) tt (e, s))
    by (apply super_get_real_url_cached; assumption).
  unfold bind, self, lift, ret. cbn [fst snd].
  destruct (real_url e) as [|u|m]; cbn.
  - reflexivity.
  - destruct (String.eqb u "None"); cbn; [reflexivity|].
    destruct (is_substring "hls_url" u); reflexivity.
  - unfold bilibili_answer.
    destruct (m !! "hls_url") eqn:E1.
    + rewrite bool_decide_eq_true_2 by eauto. reflexivity.
    + rewrite bool_decide_eq_false_2 by (intros [? ?]; discriminate).
      destruct (m !! "flv_url"); reflexivity.
Qed.

(** X3: the Bilibili extractor ignores the selector: on a resolution map
    every selector other than [refresh] gives [hls_url] when the map has it,
    else [flv_url], and raises KeyError when it has neither; on the failure
    sentinel the answer is None.  The call changes nothing and asks no
    client. *)
Theorem bilibili_prefers_hls_url env sel (e : Extractor) s :
  sel <> Some "refresh" ->
  (forall m, real_url e = VDict m ->
     BilibiliRealUrlExtractor.get_real_url env sel (e, s)
       = (bilibili_answer m, (e, s)) /\
     (forall u, m !! "hls_url" = Some u -> bilibili_answer m = Ok (Some u)) /\
     (m !! "hls_url" = None -> m !! "flv_url" = None ->
      bilibili_answer m = Raise (KeyError "flv_url"))) /\
  (real_url e = VStr "None" ->
   BilibiliRealUrlExtractor.get_real_url env sel (e, s) = (Ok None, (e, s))).
Proof.
  intros Hsel. split.
  - intros m Hm. split; [|split].
    + rewrite bilibili_get_real_url_held by (rewrite ?Hm; auto). rewrite Hm.
      reflexivity.
    + intros u Hu. unfold bilibili_answer. rewrite Hu. reflexivity.
    + intros H1 H2. unfold bilibili_answer. rewrite H1, H2. reflexivity.
  - intros Hs.
    rewrite bilibili_get_real_url_held by (rewrite ?Hs; auto). rewrite Hs.
    reflexivity.
Qed.

Lemma bilibili_prefers_hls_url_witness :
  let m : gmap string string :=
    <["hls_url" := "http://h"]> (<["flv_url" := "http://f"]> ∅) in
  fst (BilibiliRealUrlExtractor.get_real_url env_offline (Some "4000p")
         (extractor_with Bilibili "7" (VDict m), sys0)) = Ok (Some "http://h").
Proof.
  intros m.
  destruct (bilibili_prefers_hls_url env_offline (Some "4000p")
              (extractor_with Bilibili "7" (VDict m)) sys0 ltac:(discriminate))
    as [H _].
  destruct (H m eq_refl) as [Heq _]. rewrite Heq. reflexivity.
Defined.

(** X4: a request with a selector other than [refresh] to a DouYu or
    Bilibili extractor that holds a resolution (valid or the sentinel) is a
    pure read: the extractor, the timers, the log and the count of external
    interactions are left as they are, and the answer is the same for any
    behaviour of the clients. *)
Theorem held_resolution_is_read_only env env' c sel (e : Extractor) s :
  c <> HuYa -> py_is_none (real_url e) = false -> sel <> Some "refresh" ->
  snd (get_real_url env c sel (e, s)) = (e, s) /\
  fst (get_real_url env c sel (e, s)) = fst (get_real_url env' c sel (e, s)).
Proof.
  intros Hc Hnn Hsel. split.
  - destruct c; cbn [get_real_url]; [| |contradiction].
    + rewrite douyu_get_real_url_state, super_get_real_url_cached by assumption.
      reflexivity.
    + rewrite bilibili_get_real_url_state, super_get_real_url_cached by assumption.
      reflexivity.
  - apply answer_from_resolution; auto.
Qed.

Lemma held_resolution_is_read_only_witness :
  snd (get_real_url env_offline DouYu (Some "900p")
         (extractor_with DouYu "9" (VDict map_A_B), sys0))
  = (extractor_with DouYu "9" (VDict map_A_B), sys0).
Proof.
  apply (held_resolution_is_read_only env_offline env_ok DouYu (Some "900p")
           (extractor_with DouYu "9" (VDict map_A_B)) sys0);
    [discriminate|reflexivity|discriminate].
Defined.

(** ** The failure sentinel *)

Lemma douyu_get_real_url_sentinel env sel (e : Extractor) s :
  real_url e = VStr "None" -> sel <> Some "refresh" ->
  DouYuRealUrlExtractor.get_real_url env sel (e, s) = (Ok None, (e, s)).
Proof.
  intros Hs Hsel. unfold DouYuRealUrlExtractor.get_real_url.
  rewrite (bind_ok _ _ (e, s) tt (e, s))
    by (apply super_get_real_url_cached; [rewrite Hs; reflexivity|exact Hsel]).
  cbn zeta. unfold bind, self, ret. cbn [fst snd]. rewrite Hs. reflexivity.
Qed.

Lemma extract_eq env c (e : Extractor) s :
  c <> HuYa -> timer_attr_ok e ->
  extract_real_url env c (e, s)
  = (Ok tt, refreshed env (is_url_valid c)
              (set_real_url (or_sentinel (client_answer env c (e, s))) e,
               next_tick s)).
Proof.
  intros Hc Hok. destruct c; cbn [extract_real_url is_url_valid client_answer fst snd];
    [| |contradiction].
  - apply douyu_extract_eq, Hok.
  - apply bilibili_extract_eq, Hok.
Qed.

Lemma forced_then_read env c sel (e : Extractor) s :
  c <> HuYa -> timer_attr_ok e ->
  real_url e = VNone \/ sel = Some "refresh" ->
  py_is_none (real_url (fst (snd (extract_real_url env c (e, s))))) = false ->
  get_real_url env c sel (e, s)
  = get_real_url env c (drop_refresh sel) (snd (extract_real_url env c (e, s))).
Proof.
  intros Hc Hok Hforced Hnn.
  destruct (decide (sel = Some "refresh")) as [->|Hsel].
  { apply refresh_then_default; assumption. }
  destruct Hforced as [Hnone|Hr]; [|contradiction].
  unfold drop_refresh. rewrite (sel_eq_false _ _ Hsel).
  pose proof (extract_eq env c e s Hc Hok) as Hex.
  destruct (snd (extract_real_url env c (e, s))) as [e' s'] eqn:E.
  rewrite Hex in E. cbn [snd] in E. rewrite E in Hex. cbn [fst] in Hnn.
  destruct c; cbn [get_real_url extract_real_url] in *; [| |contradiction].
  - unfold DouYuRealUrlExtractor.get_real_url.
    apply (bind_ext _ _ _ _ _ _ tt tt (e', s')).
    + rewrite super_get_real_url_first by exact Hnone. exact Hex.
    + apply super_get_real_url_cached; assumption.
    + reflexivity.
  - unfold BilibiliRealUrlExtractor.get_real_url.
    apply (bind_ext _ _ _ _ _ _ tt tt (e', s')).
    + rewrite super_get_real_url_first by exact Hnone. exact Hex.
    + apply super_get_real_url_cached; assumption.
    + reflexivity.
Qed.

Lemma bilibili_get_real_url_sentinel env sel (e : Extractor) s :
  sel <> Some "refresh" -> real_url e = VStr "None" ->
  BilibiliRealUrlExtractor.get_real_url env sel (e, s) = (Ok None, (e, s)).
Proof.
  intros Hsel Hs.
  rewrite bilibili_get_real_url_held by (rewrite ?Hs; auto). rewrite Hs.
  reflexivity.
Qed.

Lemma get_real_url_sentinel env c sel (e : Extractor) s :
  c <> HuYa -> real_url e = VStr "None" -> sel <> Some "refresh" ->
  get_real_url env c sel (e, s) = (Ok None, (e, s)).
Proof.
  intros Hc Hs Hsel. destruct c; cbn [get_real_url]; [| |contradiction].
  - apply douyu_get_real_url_sentinel; assumption.
  - apply bilibili_get_real_url_sentinel; assumption.
Qed.

Lemma drop_refresh_not_refresh sel : drop_refresh sel <> Some "refresh".
Proof.
  unfold drop_refresh. destruct (sel_eq sel "refresh") eqn:E; [discriminate|].
  intros ->. discriminate E.
Qed.

Lemma sentinel_is_invalid c : c <> HuYa -> is_url_valid c (VStr "None") = false.
Proof. destruct c; [reflexivity|reflexivity|contradiction]. Qed.

(** X5: when the very first resolution of a DouYu or Bilibili extractor
    fails with a client error, the request is answered None and the
    extractor keeps the sentinel ['None'] as its resolution.  The sentinel is
    not None, so later requests do not resolve again: until a refresh (the
    timer's, or the selector [refresh]) succeeds, every other request is
    answered None without a call of the client. *)
Theorem failed_first_resolution_sticks env c sel (e : Extractor) s :
  c <> HuYa -> timer_attr_ok e ->
  real_url e = VNone -> last_valid_real_url e = VNone ->
  or_sentinel (client_answer env c (e, s)) = VStr "None" ->
  let out := get_real_url env c sel (e, s) in
  fst out = Ok None /\
  real_url (fst (snd out)) = VStr "None" /\
  last_valid_real_url (fst (snd out)) = VNone /\
  forall env' sel', sel' <> Some "refresh" ->
    get_real_url env' c sel' (snd out) = (Ok None, snd out).
Proof.
  intros Hc Hok Hnone Hlv Hclient. cbn zeta.
  pose proof (extract_eq env c e s Hc Hok) as Hex. rewrite Hclient in Hex.
  destruct (refreshed_fields env (is_url_valid c)
              (set_real_url (VStr "None") e, next_tick s))
    as (_ & _ & _ & Hu & Hl & _).
  cbn [fst] in Hu, Hl. unfold resolved in Hu, Hl.
  cbn [real_url set_real_url last_valid_real_url] in Hu, Hl.
  rewrite (sentinel_is_invalid c Hc), Hlv in Hu, Hl. cbn in Hu, Hl.
  assert (Hread : get_real_url env c sel (e, s)
                  = get_real_url env c (drop_refresh sel)
                      (snd (extract_real_url env c (e, s)))).
  { apply forced_then_read; auto. rewrite Hex. cbn [snd]. rewrite Hu. reflexivity. }
  rewrite Hread, Hex. cbn [snd].
  destruct (refreshed env (is_url_valid c)
              (set_real_url (VStr "None") e, next_tick s)) as [e' s'] eqn:E.
  cbn [fst] in Hu, Hl.
  rewrite (get_real_url_sentinel env c (drop_refresh sel) e' s' Hc Hu
             (drop_refresh_not_refresh sel)).
  cbn [fst snd]. split; [reflexivity|]. split; [exact Hu|].
  split; [rewrite Hl; exact Hlv|].
  intros env' sel' Hsel'. apply get_real_url_sentinel; assumption.
Qed.

Lemma failed_first_resolution_sticks_witness :
  fst (get_real_url env_offline DouYu None (fst (fresh DouYu "9" 0), sys0))
    = Ok None /\
  real_url (fst (snd (get_real_url env_offline DouYu None
                        (fst (fresh DouYu "9" 0), sys0)))) = VStr "None".
Proof.
  destruct (failed_first_resolution_sticks env_offline DouYu None
              (fst (fresh DouYu "9" 0)) sys0)
    as (H1 & H2 & _);
    [discriminate|intros H; discriminate H|reflexivity|reflexivity|reflexivity|].
  split; [exact H1|exact H2].
Defined.

(** ** One pending refresh at most *)

Lemma owns_pending_same (e e' : Extractor) (s s' : Sys) :
  cls e' = cls e -> room e' = room e -> refresh_timer e' = refresh_timer e ->
  timers s' = timers s -> owns_pending (e, s) -> owns_pending (e', s').
Proof.
  intros Hc Hr Ht Hts Hown i t. cbn [fst snd]. rewrite Hc, Hr, Ht, Hts.
  apply Hown.
Qed.

Lemma refreshed_pending env valid (e : Extractor) s :
  timer_attr_ok e -> owns_pending (e, s) -> 0 < auto_refresh_interval e ->
  pending_timers (refreshed env valid (e, s))
  = [new_timer e (negb (valid (real_url e)))].
Proof.
  intros Hok Hown Hpos. destruct (Hok Hpos) as [h Hh].
  destruct (refreshed_timers_pos env valid e s h Hpos Hh) as [_ Hts].
  destruct (refreshed_fields env valid (e, s)) as (Hc & Hr & _).
  cbn [fst] in Hc, Hr.
  unfold pending_timers. rewrite Hts, Hc, Hr, filter_app.
  rewrite (filter_none _ _ (old_timers_not_pending e s h Hown Hh)).
  rewrite filter_cons_True by (split; reflexivity). reflexivity.
Qed.

Lemma refreshed_log env valid (e : Extractor) s :
  log (snd (refreshed env valid (e, s)))
  = (log s ++ [refresh_log (negb (valid (real_url e))) (resolved valid e)])%list.
Proof.
  unfold refreshed. cbn [fst snd].
  destruct (refresh_timer e); [destruct (0 <? auto_refresh_interval e)|];
    reflexivity.
Qed.

(** X6: the refresh of a DouYu or Bilibili extractor returns normally
    whatever the client does (an exception of the client becomes the
    sentinel).  It appends exactly one record to the log, the failure message
    when the resolution is not valid; with a positive interval it leaves
    exactly one pending timer, delayed by half the interval after a failure
    and by the interval after a success; with an interval of 0 or less it
    leaves the timers alone. *)
Theorem single_cdn_refresh_reschedules env c (e : Extractor) s :
  c <> HuYa -> cls e = c -> timer_attr_ok e -> owns_pending (e, s) ->
  let failed := negb (is_url_valid c (or_sentinel (client_answer env c (e, s)))) in
  let out := refresh_real_url env c (e, s) in
  fst out = Ok tt /\
  (0 < auto_refresh_interval e -> pending_timers (snd out) = [new_timer e failed]) /\
  (auto_refresh_interval e <= 0 -> timers (snd (snd out)) = timers s) /\
  length (log (snd (snd out))) = S (length (log s)) /\
  (failed = true ->
   last (log (snd (snd out)))
   = Some {| lvl := INFO; fmt := "failed to extract real url"; args := [] |}) /\
  owns_pending (snd out).
Proof.
  intros Hc Hcls Hok Hown. cbn zeta.
  rewrite refresh_real_url_state, (extract_eq env c e s Hc Hok). cbn [fst snd].
  set (v := or_sentinel (client_answer env c (e, s))).
  assert (Hok' : timer_attr_ok (set_real_url v e)) by exact Hok.
  assert (Hown' : owns_pending (set_real_url v e, next_tick s)).
  { apply (owns_pending_same e _ s _); auto. }
  split; [reflexivity|]. split; [|split; [|split; [|split]]].
  - intros Hpos.
    rewrite (refreshed_pending env (is_url_valid c) (set_real_url v e)
               (next_tick s) Hok' Hown' Hpos).
    reflexivity.
  - intros Hle.
    apply (refreshed_timers_nonpos env (is_url_valid c) (set_real_url v e)
             (next_tick s) Hle).
  - rewrite refreshed_log, length_app. cbn. lia.
  - intros Hf. rewrite refreshed_log, last_snoc.
    cbn [real_url set_real_url]. rewrite Hf. reflexivity.
  - apply refreshed_owns_pending; assumption.
Qed.

Lemma single_cdn_refresh_reschedules_witness :
  fst (refresh_real_url env_offline DouYu (fst douyu_failed, snd douyu_failed))
    = Ok tt /\
  map t_interval
    (pending_timers
       (snd (refresh_real_url env_offline DouYu
               (fst douyu_failed, snd douyu_failed)))) = [Qhalf 7200].
Proof.
  assert (Hok : timer_attr_ok (fst douyu_failed)) by (intros _; eexists; reflexivity).
  assert (Hown : owns_pending (fst douyu_failed, snd douyu_failed)).
  { intros i t Hi Ho Hp.
    destruct i as [|i]; cbn in Hi.
    - injection Hi as <-. discriminate Hp.
    - discriminate Hi. }
  destruct (single_cdn_refresh_reschedules env_offline DouYu (fst douyu_failed)
              (snd douyu_failed) ltac:(discriminate) eq_refl Hok Hown)
    as (H1 & H2 & _).
  split; [exact H1|]. rewrite (H2 eq_refl). reflexivity.
Defined.

Lemma same_schedule_refl st : same_schedule st st.
Proof. repeat split. Qed.

Lemma same_schedule_trans st1 st2 st3 :
  same_schedule st1 st2 -> same_schedule st2 st3 -> same_schedule st1 st3.
Proof.
  intros (A1 & A2 & A3 & A4 & A5) (B1 & B2 & B3 & B4 & B5).
  repeat split; congruence.
Qed.

Lemma schedule_ok_same st st' :
  same_schedule st st' -> schedule_ok st -> schedule_ok st'.
Proof.
  destruct st as [e s], st' as [e' s'].
  intros (Hc & Hr & Hi & Ht & Hts) [Hok Hown]. cbn [fst snd] in *. split.
  - unfold timer_attr_ok in *. cbn [fst]. rewrite Hi, Ht. exact Hok.
  - apply (owns_pending_same e e' s s'); assumption.
Qed.

Lemma same_schedule_clamp n (e : Extractor) s s' :
  timers s' = timers s -> same_schedule (e, s) (clamp_cdn_index n e, s').
Proof.
  intros Hts. unfold clamp_cdn_index.
  destruct (n <=? cdn_index e); repeat split; assumption.
Qed.

Lemma same_schedule_fetch env sel st :
  same_schedule st (snd (fetch_real_urls env sel st)).
Proof.
  destruct st as [e s]. unfold fetch_real_urls. cbn [fst snd].
  destruct (huya_get_real_url env (room e) sel (tick s)); repeat split.
Qed.

Lemma same_schedule_cached env sel st :
  same_schedule st (snd (HuYaRealUrlExtractor.cached_real_urls env sel st)).
Proof.
  destruct st as [e s]. rewrite cached_real_urls_eq.
  destruct (last_real_urls e) as [urls|]; [|apply same_schedule_fetch].
  destruct (total_seconds_gt _ 120); [|repeat split].
  apply (same_schedule_trans _ (e, next_tick s)); [repeat split|].
  apply same_schedule_fetch.
Qed.

Lemma same_schedule_select urls st :
  same_schedule st (snd (select_url urls st)).
Proof.
  destruct st as [e s]. unfold select_url. cbn [fst snd].
  destruct (0 <? Z.of_nat (length urls)); [|apply same_schedule_refl].
  destruct (py_index urls _); apply same_schedule_clamp; reflexivity.
Qed.

Lemma same_schedule_switch sel (e : Extractor) s :
  same_schedule (e, s) (switch_cdn sel e, s).
Proof. unfold switch_cdn. destruct (sel_eq sel "switch_cdn"); repeat split. Qed.

Lemma schedule_ok_refreshed env valid st :
  schedule_ok st -> schedule_ok (refreshed env valid st).
Proof.
  destruct st as [e s]. intros [Hok Hown]. split.
  - apply refreshed_timer_attr_ok. exact Hok.
  - apply refreshed_owns_pending; assumption.
Qed.

Lemma schedule_ok_base_extract env valid st :
  schedule_ok st ->
  schedule_ok (snd (RealUrlExtractor._extract_real_url env valid st)).
Proof.
  intros H. rewrite base_extract_eq by apply H. cbn [snd].
  apply schedule_ok_refreshed, H.
Qed.

Lemma schedule_ok_extract env c st :
  schedule_ok st -> schedule_ok (snd (extract_real_url env c st)).
Proof.
  destruct st as [e s]. intros H.
  destruct c; cbn [extract_real_url].
  - rewrite douyu_extract_eq by apply H. cbn [snd].
    apply schedule_ok_refreshed.
    apply (schedule_ok_same (e, s)); [repeat split|exact H].
  - rewrite bilibili_extract_eq by apply H. cbn [snd].
    apply schedule_ok_refreshed.
    apply (schedule_ok_same (e, s)); [repeat split|exact H].
  - rewrite huya_extract_eq. unfold huya_extract_outcome. cbn [fst snd].
    destruct (huya_update_live_url_info env (room e) (tick s)) as [infos|x].
    2:{ apply (schedule_ok_same (e, s)); [repeat split|exact H]. }
    set (e2 := clamp_cdn_index (Z.of_nat (length infos)) (set_live_url_infos infos e)).
    assert (H2 : same_schedule (e, s) (e2, next_tick s)).
    { apply (same_schedule_trans _ (set_live_url_infos infos e, s));
        [repeat split|].
      apply same_schedule_clamp. reflexivity. }
    assert (H3 : forall v,
      schedule_ok (snd (RealUrlExtractor._extract_real_url env
                          HuYaRealUrlExtractor._is_url_valid
                          (set_real_url v e2, next_tick s)))).
    { intros v. apply schedule_ok_base_extract.
      apply (schedule_ok_same (e, s)); [|exact H].
      apply (same_schedule_trans _ (e2, next_tick s)); [exact H2|repeat split]. }
    destruct (0 <? Z.of_nat (length infos)); [|apply H3].
    destruct (py_index infos (cdn_index e2)); [apply H3|].
    apply (schedule_ok_same (e, s)); [exact H2|exact H].
Qed.

Lemma schedule_ok_super extract sel st :
  schedule_ok st -> schedule_ok (snd (extract st)) ->
  schedule_ok (snd (RealUrlExtractor.get_real_url extract sel st)).
Proof.
  destruct st as [e s]. intros H Hex.
  unfold RealUrlExtractor.get_real_url, bind, self. cbn [fst snd].
  destruct (py_is_none (real_url e) || sel_eq sel "refresh"); [|exact H].
  destruct (extract (e, s)) as [[[]|x] st']; exact Hex.
Qed.

Lemma schedule_ok_get_real_url env c sel st :
  schedule_ok st -> schedule_ok (snd (get_real_url env c sel st)).
Proof.
  intros H. destruct c; cbn [get_real_url].
  - rewrite douyu_get_real_url_state.
    apply schedule_ok_super; [exact H|apply (schedule_ok_extract env DouYu), H].
  - rewrite bilibili_get_real_url_state.
    apply schedule_ok_super; [exact H|apply (schedule_ok_extract env Bilibili), H].
  - rewrite huya_get_real_url_eq.
    pose proof (schedule_ok_super (HuYaRealUrlExtractor._extract_real_url env)
                  sel st H (schedule_ok_extract env HuYa st H)) as H1.
    destruct (RealUrlExtractor.get_real_url _ sel st) as [[[]|x] [e1 s1]];
      [|exact H1].
    cbn [fst snd] in *.
    assert (H2 : schedule_ok (switch_cdn (drop_refresh sel) e1, s1)).
    { apply (schedule_ok_same (e1, s1)); [apply same_schedule_switch|exact H1]. }
    pose proof (same_schedule_cached env (drop_refresh sel)
                  (switch_cdn (drop_refresh sel) e1, s1)) as H3.
    destruct (HuYaRealUrlExtractor.cached_real_urls _ _ _) as [[urls|x] st2];
      cbn [snd] in *.
    + apply (schedule_ok_same st2); [apply same_schedule_select|].
      apply (schedule_ok_same _ _ H3 H2).
    + apply (schedule_ok_same _ _ H3 H2).
Qed.

Lemma schedule_ok_timer_fires env st :
  schedule_ok st -> schedule_ok (snd (timer_fires env st)).
Proof.
  destruct st as [e s]. intros H. unfold timer_fires. cbn [fst snd].
  destruct (refresh_timer e) as [h|] eqn:Hh; [|exact H].
  destruct (timers s !! h) as [t|] eqn:Ht; [|exact H].
  destruct (pending t); [|exact H].
  unfold bind, alter_timer. cbn [fst snd].
  rewrite refresh_real_url_state. cbn [snd].
  apply schedule_ok_extract. destruct H as [Hok Hown]. split; [exact Hok|].
  intros i t' Hi Ho Hp. cbn [fst snd timers set_timers] in *.
  exfalso.
  exact (fired_timers_not_pending e s h Hown Hh i t' Hi (conj Ho Hp)).
Qed.

Lemma schedule_ok_run_event env ev st :
  schedule_ok st -> schedule_ok (run_event env ev st).
Proof.
  intros H. destruct ev as [sel| | |]; cbn [run_event].
  - apply schedule_ok_get_real_url, H.
  - apply schedule_ok_timer_fires, H.
  - destruct st as [e s]. cbn [fst].
    destruct (cls e); exact H.
  - destruct st as [e s]. cbn [fst].
    destruct (cls e); exact H.
Qed.

Lemma schedule_ok_run_events env evs st :
  schedule_ok st -> schedule_ok (run_events env evs st).
Proof.
  revert st. induction evs as [|ev evs IH]; intros st H; [exact H|].
  cbn [run_events fold_left]. apply IH, schedule_ok_run_event, H.
Qed.

Lemma filter_single_index {A} (P : A -> Prop) `{!forall x, Decision (P x)}
    (l : list A) (h : nat) :
  (forall i x, l !! i = Some x -> P x -> i = h) ->
  (length (filter P l) <= 1)%nat.
Proof.
  revert h. induction l as [|a l IH]; intros h HP; [cbn; lia|].
  destruct (decide (P a)) as [Ha|Ha].
  - rewrite filter_cons_True by exact Ha.
    pose proof (HP 0%nat a eq_refl Ha) as H0.
    rewrite (filter_none P l); [cbn; lia|].
    intros i x Hi Hx. specialize (HP (S i) x Hi Hx). lia.
  - rewrite filter_cons_False by exact Ha.
    apply (IH (pred h)). intros i x Hi Hx. specialize (HP (S i) x Hi Hx). lia.
Qed.

Lemma pending_at_most_one st :
  owns_pending st -> (length (pending_timers st) <= 1)%nat.
Proof.
  intros Hown. unfold pending_timers.
  apply (filter_single_index _ _ (default 0%nat (refresh_timer (fst st)))).
  intros i t Hi [Ho Hp]. rewrite (Hown i t Hi Ho Hp). reflexivity.
Qed.

Lemma fresh_schedule_ok c rm interval : schedule_ok (fresh c rm interval).
Proof.
  split; [apply fresh_timer_attr_ok|].
  unfold fresh, construct, HuYaRealUrlExtractor.__init__,
    DouYuRealUrlExtractor.__init__, BilibiliRealUrlExtractor.__init__,
    RealUrlExtractor.__init__.
  intros i t Hi Ho Hp.
  destruct c; destruct (0 <? interval); cbn in Hi;
    try discriminate Hi;
    (destruct i as [|i]; cbn in Hi; [|discriminate Hi]);
    injection Hi as <-; discriminate Hp.
Qed.

(** X7: as long as the requests, timer expiries and manifest events of an
    extractor run one at a time, each to its end before the next begins, the
    extractor never has more than one refresh outstanding.  The constructor
    creates a timer but does not start it, so a new extractor has nothing
    pending; and whatever such events follow, for every behaviour of the
    collaborators, at most one timer of the extractor is pending, namely the
    one it holds in [refresh_timer].  (Calls that overlap are outside this
    statement: only [refresh_real_url] takes the lock.) *)
Theorem at_most_one_pending_refresh env st evs :
  schedule_ok st ->
  schedule_ok (run_events env evs st) /\
  (length (pending_timers (run_events env evs st)) <= 1)%nat /\
  (forall c rm interval, pending_timers (fresh c rm interval) = []).
Proof.
  intros H.
  pose proof (schedule_ok_run_events env evs st H) as H'.
  split; [exact H'|]. split; [apply pending_at_most_one, H'|].
  intros c rm interval. unfold pending_timers.
  apply filter_none. intros i t Hi [_ Hp]. revert Hi.
  unfold fresh, construct, HuYaRealUrlExtractor.__init__,
    DouYuRealUrlExtractor.__init__, BilibiliRealUrlExtractor.__init__,
    RealUrlExtractor.__init__.
  destruct c; destruct (0 <? interval); cbn; intros Hi;
    try discriminate Hi;
    (destruct i as [|i]; cbn in Hi; [|discriminate Hi]);
    injection Hi as <-; discriminate Hp.
Qed.

Lemma at_most_one_pending_refresh_witness :
  (length (pending_timers
             (run_events env_huya_outage
                [Request None; TimerExpires; Request (Some "refresh")]
                (fresh HuYa "55" 7200))) <= 1)%nat.
Proof.
  exact (proj1 (proj2 (at_most_one_pending_refresh env_huya_outage
                         (fresh HuYa "55" 7200)
                         [Request None; TimerExpires; Request (Some "refresh")]
                         (fresh_schedule_ok HuYa "55" 7200)))).
Defined.

(** ** One request touches one registry entry *)

Lemma preserves_ret {A} Inv (a : A) : preserves Inv (ret a).
Proof. intros w Hw. exact Hw. Qed.

Lemma preserves_raise {A} Inv x : preserves Inv (raise x : M World A).
Proof. intros w Hw. exact Hw. Qed.

Lemma preserves_bind {A B} Inv (m : M World A) (k : A -> M World B) :
  preserves Inv m -> (forall a, preserves Inv (k a)) -> preserves Inv (bind m k).
Proof.
  intros Hm Hk w Hw. unfold bind. specialize (Hm w Hw).
  destruct (m w) as [[a|x] w1]; cbn [snd] in *; [|exact Hm].
  apply (Hk a w1 Hm).
Qed.

Lemma preserves_try_except {A} Inv (m : M World A) (h : exn -> M World A) :
  preserves Inv m -> (forall x, preserves Inv (h x)) ->
  preserves Inv (try_except m h).
Proof.
  intros Hm Hh w Hw. unfold try_except. specialize (Hm w Hw).
  destruct (m w) as [[a|x] w1]; cbn [snd] in *; [exact Hm|].
  apply (Hh x w1 Hm).
Qed.

Lemma preserves_attempt {A} Inv (m : M World A) :
  preserves Inv m -> preserves Inv (attempt m).
Proof.
  intros Hm w Hw. unfold attempt. specialize (Hm w Hw).
  destruct (m w) as [r w1]. exact Hm.
Qed.

Lemma preserves_room_is_new Inv p rm : preserves Inv (room_is_new p rm).
Proof.
  intros w Hw. unfold room_is_new. destruct (processor_maps w !! p); exact Hw.
Qed.

Lemma preserves_load_name Inv n : preserves Inv (load_name n).
Proof.
  intros w Hw. unfold load_name. destruct (String.eqb n "auto_refresh_interval");
    [exact Hw|]. case_bool_decide; exact Hw.
Qed.

Lemma preserves_getattr Inv v : preserves Inv (getattr_auto_refresh_interval v).
Proof. destruct v; intros w Hw; exact Hw. Qed.

Lemma preserves_as_interval Inv v : preserves Inv (as_interval v).
Proof. destruct v; intros w Hw; exact Hw. Qed.

Section registry_invariant.
Variable Inv : World -> Prop.
Variables p rm : string.
Hypothesis Inv_sys : forall w s, Inv w -> Inv (set_sys s w).
Hypothesis Inv_headers : forall w h, Inv w -> Inv (set_crosHeaders h w).
Hypothesis Inv_store : forall w e, Inv w -> Inv (store_extractor p rm e w).
Hypothesis Inv_ensure : forall w, Inv w -> processor_maps w !! p = None ->
  Inv (set_processor_maps (<[p := ∅]> (processor_maps w)) w).

Lemma preserves_world_log l f a : preserves Inv (world_log l f a).
Proof. intros w Hw. apply Inv_sys, Hw. Qed.

Lemma preserves_world_external {A} (f : nat -> result A) :
  preserves Inv (world_external f).
Proof. intros w Hw. apply Inv_sys, Hw. Qed.

Lemma preserves_crosHeaders_update d : preserves Inv (crosHeaders_update d).
Proof. intros w Hw. apply Inv_headers, Hw. Qed.

Lemma preserves_ensure_provider_map : preserves Inv (ensure_provider_map p).
Proof.
  intros w Hw. unfold ensure_provider_map.
  destruct (processor_maps w !! p) eqn:E; [exact Hw|].
  apply Inv_ensure; assumption.
Qed.

Lemma preserves_new_extractor init : preserves Inv (new_extractor init p rm).
Proof.
  intros w Hw. unfold new_extractor.
  destruct (init (sys w)) as [[[]|x] [e s']]; cbn [snd].
  - apply Inv_store, Inv_sys, Hw.
  - apply Inv_sys, Hw.
Qed.

Lemma preserves_on_extractor {A} (m : M St A) : preserves Inv (on_extractor p rm m).
Proof.
  intros w Hw. unfold on_extractor.
  destruct (processor_maps w !! p ≫= (fun pm => pm !! rm)) as [e|]; [|exact Hw].
  destruct (m (e, sys w)) as [r [e' s']]. cbn [snd].
  apply Inv_store, Inv_sys, Hw.
Qed.

Lemma preserves_redirect_to o : preserves Inv (redirect_to o).
Proof. destruct o; intros w Hw; exact Hw. Qed.

Lemma preserves_not_found : preserves Inv not_found.
Proof.
  unfold not_found. cbn zeta.
  apply preserves_bind; [apply preserves_crosHeaders_update|].
  intros h. apply preserves_ret.
Qed.

Lemma preserves_handler_error l f a :
  preserves Inv (bind (world_log l f a) (fun _ => ret (None : option Response))).
Proof.
  apply preserves_bind; [apply preserves_world_log|]. intros _. apply preserves_ret.
Qed.

Lemma preserves_manifest_proxy env u :
  p = "huya" -> preserves Inv (manifest_proxy env rm u).
Proof.
  intros Hp. unfold manifest_proxy. rewrite <- Hp.
  apply preserves_bind; [apply preserves_attempt, preserves_world_external|].
  intros fetched. apply preserves_bind.
  { destruct fetched as [[code body]|x]; [|apply preserves_ret].
    apply preserves_bind; [apply preserves_attempt, preserves_on_extractor|].
    intros [b|x]; [destruct (re_sub_ts env b body)|]; apply preserves_ret. }
  intros outcome. cbn zeta. apply preserves_bind.
  { destruct (snd outcome); [apply preserves_ret|].
    apply preserves_bind; [apply preserves_on_extractor|].
    intros _. apply preserves_ret. }
  intros content. apply preserves_bind.
  { destruct (fst outcome =? 403);
      [apply preserves_on_extractor|apply preserves_ret]. }
  intros _. apply preserves_bind; [apply preserves_crosHeaders_update|].
  intros h. apply preserves_ret.
Qed.

Lemma preserves_register (init : Z -> Sys -> result unit * St) (is_new : bool) n :
  preserves Inv
    (if is_new
     then bind (load_name n)
            (fun a => bind (as_interval a)
               (fun interval => new_extractor (init interval) p rm))
     else ret tt).
Proof.
  destruct is_new; [|apply preserves_ret].
  apply preserves_bind; [apply preserves_load_name|]. intros a.
  apply preserves_bind; [apply preserves_as_interval|]. intros interval.
  apply preserves_new_extractor.
Qed.

Lemma preserves_serviceWithRate env sel :
  preserves Inv (serviceWithRate env p rm sel).
Proof.
  unfold serviceWithRate.
  apply preserves_bind; [apply preserves_world_log|]. intros _.
  apply preserves_bind.
  2:{ intros [r|]; [apply preserves_ret|apply preserves_not_found]. }
  destruct (String.eqb p "douyu").
  { apply preserves_bind; [apply preserves_ensure_provider_map|]. intros _.
    apply preserves_try_except; [|intros x; apply preserves_handler_error].
    apply preserves_bind; [apply preserves_room_is_new|]. intros is_new.
    apply preserves_bind.
    { destruct is_new; [|apply preserves_ret].
      apply preserves_bind; [apply preserves_load_name|]. intros slf.
      apply preserves_bind; [apply preserves_getattr|]. intros a.
      apply preserves_bind; [apply preserves_as_interval|]. intros interval.
      apply preserves_new_extractor. }
    intros _. apply preserves_bind; [apply preserves_on_extractor|].
    intros u. apply preserves_redirect_to. }
  destruct (String.eqb p "bilibili").
  { apply preserves_bind; [apply preserves_ensure_provider_map|]. intros _.
    apply preserves_try_except; [|intros x; apply preserves_handler_error].
    apply preserves_bind; [apply preserves_room_is_new|]. intros is_new.
    apply preserves_bind;
      [apply (preserves_register (BilibiliRealUrlExtractor.__init__ rm))|].
    intros _. apply preserves_bind; [apply preserves_on_extractor|].
    intros u. apply preserves_redirect_to. }
  destruct (String.eqb_spec p "huya") as [Hp|_]; [|apply preserves_ret].
  apply preserves_bind; [apply preserves_ensure_provider_map|]. intros _.
  apply preserves_try_except; [|intros x; apply preserves_handler_error].
  apply preserves_bind; [apply preserves_room_is_new|]. intros is_new.
  apply preserves_bind;
    [apply (preserves_register (HuYaRealUrlExtractor.__init__ rm))|].
  intros _. apply preserves_bind; [apply preserves_on_extractor|].
  intros [u|]; [|apply preserves_ret].
  apply preserves_bind; [apply preserves_manifest_proxy; exact Hp|].
  intros r. apply preserves_ret.
Qed.
End registry_invariant.

Lemma registered_store_other p rm e w p' rm' :
  (p', rm') <> (p, rm) ->
  registered p' rm' (store_extractor p rm e w) = registered p' rm' w.
Proof.
  intros Hne. unfold registered, store_extractor.
  cbn [processor_maps set_processor_maps].
  destruct (decide (p' = p)) as [->|Hp].
  - rewrite lookup_insert_eq. cbn.
    rewrite lookup_insert_ne by congruence.
    destruct (processor_maps w !! p); reflexivity.
  - rewrite lookup_insert_ne by congruence. reflexivity.
Qed.

Lemma registered_ensure p w p' rm' :
  processor_maps w !! p = None ->
  registered p' rm' (set_processor_maps (<[p := ∅]> (processor_maps w)) w)
    = registered p' rm' w.
Proof.
  intros Hnone. unfold registered. cbn [processor_maps set_processor_maps].
  destruct (decide (p' = p)) as [->|Hp].
  - rewrite lookup_insert_eq, Hnone. cbn. apply lookup_empty.
  - rewrite lookup_insert_ne by congruence. reflexivity.
Qed.

(** X8: a request, or the expiry of a refresh timer, of one extractor leaves
    every other entry of the registry exactly as it was: the extractor
    registered for another provider or another room keeps all its
    attributes, and a key that had no extractor still has none.  This holds
    for every behaviour of the clients and of the manifest server, and also
    when the handler answers 404. *)
Theorem other_entries_untouched env p rm sel w p' rm' :
  (p', rm') <> (p, rm) ->
  registered p' rm' (snd (serviceWithRate env p rm sel w)) = registered p' rm' w /\
  registered p' rm' (snd (on_extractor p rm (timer_fires env) w))
    = registered p' rm' w.
Proof.
  intros Hne.
  set (Inv := fun w' : World => registered p' rm' w' = registered p' rm' w).
  assert (Hsys : forall w' s, Inv w' -> Inv (set_sys s w')) by (intros; assumption).
  assert (Hhdr : forall w' h, Inv w' -> Inv (set_crosHeaders h w'))
    by (intros; assumption).
  assert (Hstore : forall w' e, Inv w' -> Inv (store_extractor p rm e w')).
  { intros w' e Hw'. unfold Inv. rewrite registered_store_other by exact Hne.
    exact Hw'. }
  assert (Hens : forall w', Inv w' -> processor_maps w' !! p = None ->
            Inv (set_processor_maps (<[p := ∅]> (processor_maps w')) w')).
  { intros w' Hw' Hnone. unfold Inv. rewrite registered_ensure by exact Hnone.
    exact Hw'. }
  split.
  - apply (preserves_serviceWithRate Inv p rm Hsys Hhdr Hstore Hens env sel w).
    reflexivity.
  - apply (preserves_on_extractor Inv p rm Hsys Hstore (timer_fires env) w).
    reflexivity.
Qed.

Lemma other_entries_untouched_witness :
  registered "huya" "55"
    (snd (serviceWithRate env_offline "bilibili" "55" (Some "refresh") world_huya55))
    = registered "huya" "55" world_huya55.
Proof.
  apply (other_entries_untouched env_offline "bilibili" "55" (Some "refresh")
           world_huya55 "huya" "55").
  discriminate.
Defined.

(** X9: the registry never shrinks.  An extractor that is registered is
    still registered after any request and after any timer expiry: nothing
    in the module removes an entry, also when the request fails. *)
Theorem registry_never_shrinks env p rm sel w p' rm' :
  is_Some (registered p' rm' w) ->
  is_Some (registered p' rm' (snd (serviceWithRate env p rm sel w))) /\
  is_Some (registered p' rm' (snd (on_extractor p rm (timer_fires env) w))).
Proof.
  intros Hreg.
  set (Inv := fun w' : World => is_Some (registered p' rm' w')).
  assert (Hsys : forall w' s, Inv w' -> Inv (set_sys s w')) by (intros; assumption).
  assert (Hhdr : forall w' h, Inv w' -> Inv (set_crosHeaders h w'))
    by (intros; assumption).
  assert (Hstore : forall w' e, Inv w' -> Inv (store_extractor p rm e w')).
  { intros w' e Hw'. unfold Inv.
    destruct (decide ((p', rm') = (p, rm))) as [Heq|Hne].
    - injection Heq as -> ->. rewrite registered_store. eauto.
    - rewrite registered_store_other by exact Hne. exact Hw'. }
  assert (Hens : forall w', Inv w' -> processor_maps w' !! p = None ->
            Inv (set_processor_maps (<[p := ∅]> (processor_maps w')) w')).
  { intros w' Hw' Hnone. unfold Inv. rewrite registered_ensure by exact Hnone.
    exact Hw'. }
  split.
  - exact (preserves_serviceWithRate Inv p rm Hsys Hhdr Hstore Hens env sel w Hreg).
  - exact (preserves_on_extractor Inv p rm Hsys Hstore (timer_fires env) w Hreg).
Qed.

Lemma registry_never_shrinks_witness :
  is_Some (registered "huya" "55"
             (snd (serviceWithRate env_offline "huya" "55" None world_huya55))).
Proof.
  apply (registry_never_shrinks env_offline "huya" "55" None world_huya55 "huya" "55").
  vm_compute. eauto.
Defined.

(** ** The manifest rewrite *)

Lemma split_lines_cons s : exists l ls, split_lines s = l :: ls.
Proof.
  destruct s as [|c s]; cbn; [eauto|].
  destruct (Ascii.eqb c (ascii_of_nat 10)); [eauto|].
  destruct (split_lines s); eauto.
Qed.

Lemma concat_split_lines s : String.concat newline (split_lines s) = s.
Proof.
  induction s as [|c s IH]; [reflexivity|].
  cbn [split_lines].
  destruct (split_lines_cons s) as (l & ls & Hs). rewrite Hs in IH |- *.
  destruct (Ascii.eqb_spec c (ascii_of_nat 10)) as [->|_].
  - change (String.concat newline (EmptyString :: l :: ls))
      with (String (ascii_of_nat 10) (String.concat newline (l :: ls))).
    rewrite IH. reflexivity.
  - destruct ls as [|l2 ls].
    + cbn in IH |- *. rewrite IH. reflexivity.
    + change (String.concat newline (String c l :: l2 :: ls))
        with (String c (String.concat newline (l :: l2 :: ls))).
      rewrite IH. reflexivity.
Qed.

Lemma is_prefix_trans p a b :
  is_prefix p a = true -> is_prefix a b = true -> is_prefix p b = true.
Proof.
  revert a b. induction p as [|x p IH]; intros a b Hpa Hab; [reflexivity|].
  destruct a as [|y a]; [discriminate Hpa|].
  destruct b as [|z b]; [discriminate Hab|].
  cbn in *. apply andb_true_iff in Hpa as [Hxy Hpa].
  apply andb_true_iff in Hab as [Hyz Hab].
  apply Ascii.eqb_eq in Hxy, Hyz. subst.
  rewrite Ascii.eqb_refl. cbn. exact (IH a b Hpa Hab).
Qed.

Lemma is_prefix_first_line s l ls :
  split_lines s = l :: ls -> is_prefix l s = true.
Proof.
  revert l ls. induction s as [|c s IH]; intros l ls Hs; cbn in Hs.
  - injection Hs as <- <-. reflexivity.
  - destruct (Ascii.eqb c (ascii_of_nat 10)).
    + injection Hs as <- <-. reflexivity.
    + destruct (split_lines_cons s) as (l0 & ls0 & Hs0). rewrite Hs0 in Hs.
      injection Hs as <- <-. cbn. rewrite Ascii.eqb_refl. cbn.
      exact (IH l0 ls0 Hs0).
Qed.

Lemma is_substring_tail p c s :
  is_substring p s = true -> is_substring p (String c s) = true.
Proof. intros H. cbn. rewrite H. apply orb_true_r. Qed.

Lemma is_substring_empty p s : is_substring p EmptyString = true -> is_substring p s = true.
Proof.
  destruct p as [|x p]; [|discriminate].
  intros _. destruct s; reflexivity.
Qed.

Lemma is_substring_line p s l :
  l ∈ split_lines s -> is_substring p l = true -> is_substring p s = true.
Proof.
  revert l. induction s as [|c s IH]; intros l Hin Hl; cbn [split_lines] in Hin.
  - apply list_elem_of_singleton in Hin. subst l. exact Hl.
  - destruct (Ascii.eqb c (ascii_of_nat 10)).
    + apply elem_of_cons in Hin as [->|Hin].
      * apply is_substring_empty, Hl.
      * apply is_substring_tail, (IH l Hin Hl).
    + destruct (split_lines_cons s) as (l0 & ls0 & Hs0). rewrite Hs0 in Hin, IH.
      apply elem_of_cons in Hin as [->|Hin].
      * cbn [is_substring] in Hl. apply orb_true_iff in Hl as [Hl|Hl].
        -- cbn [is_substring].
           rewrite (is_prefix_trans p (String c l0) (String c s) Hl);
             [reflexivity|].
           cbn. rewrite Ascii.eqb_refl. cbn.
           exact (is_prefix_first_line s l0 ls0 Hs0).
        -- apply is_substring_tail, (IH l0); [apply elem_of_cons; auto|exact Hl].
      * apply is_substring_tail, (IH l); [apply elem_of_cons; auto|exact Hl].
Qed.

(** X10: the manifest rewrite changes segment lines only.  With a base URL
    that has no backslash (one that [re.sub] takes as literal text), a
    manifest that nowhere contains [.ts] (a master playlist, an error page)
    comes back character for character; splitting into lines and joining
    again loses nothing, a trailing newline included. *)
Theorem manifest_without_segments_unchanged env base content :
  is_substring backslash base = false ->
  is_substring ".ts" content = false -> re_sub_ts env base content = Ok content.
Proof.
  intros Hb Hno. unfold re_sub_ts. rewrite Hb. f_equal. unfold prefix_ts_lines.
  rewrite <- (concat_split_lines content) at 2. f_equal.
  rewrite <- (map_id (split_lines content)) at 2.
  apply map_ext_in. intros l Hin. apply list_elem_of_In in Hin.
  destruct (is_substring ".ts" l) eqn:E; [|reflexivity].
  rewrite (is_substring_line ".ts" content l Hin E) in Hno. discriminate Hno.
Qed.

Lemma manifest_without_segments_unchanged_witness :
  re_sub_ts env_ok "http://cdn/live" playlist_only = Ok playlist_only.
Proof.
  apply (manifest_without_segments_unchanged env_ok "http://cdn/live" playlist_only);
    reflexivity.
Defined.

(** ** The first request for a Bilibili room *)







(** ** A request that overlaps a refresh *)

Lemma cancel_twice (ts : list Timer) h :
  alter cancel_timer h (alter cancel_timer h ts) = alter cancel_timer h ts.
Proof.
  revert h. induction ts as [|t ts IH]; intros [|h]; cbn; [reflexivity ..| ].
  f_equal. apply IH.
Qed.

Lemma reset_statements (e : Extractor) s h failover :
  0 < auto_refresh_interval e -> refresh_timer e = Some h ->
  (reset_cancel ;; reset_assign failover ;; reset_start)%py (e, s)
  = RealUrlExtractor.reset_refresh_timer failover (e, s).
Proof.
  intros Hpos Hh. rewrite (reset_refresh_timer_pos e s failover h Hpos Hh).
  unfold reset_cancel, reset_assign, reset_start, held_timer.
  unfold bind, self, lift, ret, Timer_cancel, Timer_start, alter_timer,
    Timer_new, update_self.
  cbn [fst snd]. rewrite Hh.
  cbn [fst snd timers set_timers cls room refresh_timer set_refresh_timer
       auto_refresh_interval].
  rewrite alter_app_last, length_alter. reflexivity.
Qed.

Lemma interrupted_reset_eq (e : Extractor) s h ft fr :
  0 < auto_refresh_interval e -> refresh_timer e = Some h ->
  interrupted_reset ft fr (e, s)
  = (Ok tt,
     (set_refresh_timer (Some (S (length (timers s)))) e,
      set_timers ((alter cancel_timer h (timers s) ++ [new_timer e fr])
                  ++ [new_timer e ft])%list s)).
Proof.
  intros Hpos Hh.
  unfold interrupted_reset. unfold bind at 1.
  assert (Hc : reset_cancel (e, s)
               = (Ok tt, (e, set_timers (alter cancel_timer h (timers s)) s))).
  { unfold reset_cancel, held_timer, bind, self, lift, Timer_cancel, alter_timer.
    cbn [fst snd]. rewrite Hh. reflexivity. }
  rewrite Hc. unfold bind at 1.
  rewrite (reset_refresh_timer_pos e _ fr h Hpos Hh).
  cbn [timers set_timers]. rewrite cancel_twice, length_alter.
  unfold reset_assign, reset_start, held_timer.
  unfold bind, self, lift, ret, Timer_start, alter_timer, Timer_new, update_self.
  cbn [fst snd timers set_timers cls room refresh_timer set_refresh_timer
       auto_refresh_interval].
  rewrite alter_app_last.
  rewrite length_app, length_alter. cbn [length].
  replace (length (timers s) + 1)%nat with (S (length (timers s))) by lia.
  reflexivity.
Qed.

(** X12: the timer discipline needs the lock that [get_real_url] does not
    take.  Run without interruption, the three statements of
    [reset_refresh_timer] are the method; but when the execution of the
    timer thread is interrupted after its [cancel()] (line 62) by the
    [reset_refresh_timer] of a request, both executions start a timer: the
    extractor is left with two pending refresh timers, and it holds only the
    later one, so no later [cancel()] reaches the other. *)
Theorem overlapping_reset_leaves_two_timers (e : Extractor) s h ft fr :
  0 < auto_refresh_interval e -> refresh_timer e = Some h -> owns_pending (e, s) ->
  (reset_cancel ;; reset_assign ft ;; reset_start)%py (e, s)
    = RealUrlExtractor.reset_refresh_timer ft (e, s) /\
  let out := interrupted_reset ft fr (e, s) in
  fst out = Ok tt /\
  pending_timers (snd out) = [new_timer e fr; new_timer e ft] /\
  refresh_timer (fst (snd out)) = Some (S (length (timers s))) /\
  timers (snd (snd out)) !! length (timers s) = Some (new_timer e fr).
Proof.
  intros Hpos Hh Hown. split; [exact (reset_statements e s h ft Hpos Hh)|].
  cbn zeta. rewrite (interrupted_reset_eq e s h ft fr Hpos Hh).
  cbn [fst snd]. split; [reflexivity|]. split; [|split; [reflexivity|]].
  - unfold pending_timers.
    cbn [fst snd timers set_timers cls room set_refresh_timer].
    rewrite !filter_app.
    rewrite (filter_none _ _ (old_timers_not_pending e s h Hown Hh)).
    rewrite !filter_cons_True by (split; reflexivity). reflexivity.
  - cbn [timers set_timers].
    rewrite lookup_app_l by (rewrite length_app, length_alter; cbn; lia).
    rewrite lookup_app_r by (rewrite length_alter; lia).
    rewrite length_alter, Nat.sub_diag. reflexivity.
Qed.

Lemma overlapping_reset_leaves_two_timers_witness :
  length (pending_timers
            (snd (interrupted_reset false false (fst huya_running, snd huya_running))))
  = 2%nat.
Proof.
  assert (Hown : owns_pending (fst huya_running, snd huya_running)).
  { intros i t Hi Ho Hp.
    destruct i as [|[|i]]; cbn in Hi.
    - injection Hi as <-. discriminate Hp.
    - reflexivity.
    - discriminate Hi. }
  destruct (overlapping_reset_leaves_two_timers (fst huya_running)
              (snd huya_running) 1%nat false false eq_refl eq_refl Hown)
    as (_ & _ & Hp & _).
  cbn zeta in Hp. rewrite Hp. reflexivity.
Defined.
